(** * FusedAttentionLayer: a shallow embedding of
      src/fastertransformer/layers/attention_layers/FusedAttentionLayer.cu

    The host code of the layer (constructor, capacity guards, scratch-buffer
    lifecycle, forward) is embedded as a state-and-exception monad over the
    layer object, the allocator and the stream's work queue.  The device code
    ([trt_add_QKV_bias]) is embedded thread by thread over a block/offset
    device memory.  Collaborators (matmul provider, fused attention runner,
    allocator) are interfaces. *)

From Stdlib Require Import ZArith Lia Bool List FunctionalExtensionality.
From stdpp Require Import base tactics option list gmap.

#[local] Open Scope Z_scope.

(** ** Machine integers

    [int] and [unsigned int] are 32 bits wide, [size_t] is 64 bits wide.
    Values are kept in [Z]; every conversion and every arithmetic result is
    wrapped explicitly. *)

Definition wrap_u32 (x : Z) : Z := x mod 2 ^ 32.
Definition wrap_i32 (x : Z) : Z := (x + 2 ^ 31) mod 2 ^ 32 - 2 ^ 31.
Definition wrap_u64 (x : Z) : Z := x mod 2 ^ 64.

(** ** Pointers, tensors, weights *)

(** A device pointer is a region (one per allocation) and an element offset
    inside it.  Region 0 is never handed out: [nullptr] lives there. *)
Record ptr : Type := Ptr { region : Z; offset : Z }.

Definition nullptr : ptr := Ptr 0 0.

Definition ptr_add (p : ptr) (n : Z) : ptr := Ptr (region p) (offset p + n).

Definition is_null (p : ptr) : bool := (region p =? 0) && (offset p =? 0).

#[global] Instance ptr_eq_dec : EqDecision ptr.
Proof. solve_decision. Defined.

(** [fastertransformer::Tensor]: the data pointer and the shape vector. *)
Record Tensor : Type := mkTensor { data : ptr; shape : list Z }.

(** [DenseWeight<T>] and [AttentionWeight<T>]. *)
Record DenseWeight : Type :=
  mkDenseWeight { kernel : ptr; bias : ptr; sp_kernel : ptr }.

Record AttentionWeight : Type := mkAttentionWeight {
  query_weight : DenseWeight;
  key_weight : DenseWeight;
  value_weight : DenseWeight;
  attention_output_weight : DenseWeight }.

(** ** Collaborator interfaces *)

(** [IAllocator]: [malloc(size, is_set_zero)] and [free(ptr)], over an
    abstract allocator state; [alloc_live] is the set of regions that are
    currently handed out. *)
Class IAllocator (A : Type) : Type := {
  alloc_malloc : Z → bool → A → ptr * A;
  alloc_free : ptr → A → A;
  alloc_live : A → gset Z }.

(** The allocate/release contract of the allocator. *)
Class IAllocatorLaws (A : Type) `{IAllocator A} : Prop := {
  malloc_fresh : ∀ sz z a, region (alloc_malloc sz z a).1 ∉ alloc_live a;
  malloc_base : ∀ sz z a, offset (alloc_malloc sz z a).1 = 0;
  malloc_live : ∀ sz z a,
    alloc_live (alloc_malloc sz z a).2
    = {[ region (alloc_malloc sz z a).1 ]} ∪ alloc_live a;
  free_live : ∀ p a, alloc_live (alloc_free p a) = alloc_live a ∖ {[ region p ]} }.

(** An allocator that hands out the region after the largest live one: the
    instance used to run the model on concrete inputs. *)
Record SimpleAllocator : Type := mkSimple { simple_live : list Z }.

#[global] Instance SimpleAllocator_IAllocator : IAllocator SimpleAllocator := {
  alloc_malloc sz z a :=
    let r := 1 + foldr Z.max 0 (simple_live a) in
    (Ptr r 0, mkSimple (r :: simple_live a));
  alloc_free p a :=
    mkSimple (filter (λ r, r ≠ region p) (simple_live a));
  alloc_live a := list_to_set (simple_live a) }.

(** The fused attention runner the layer dispatches to
    ([FusedMHARunnerFP16v2], built from head count, per-head size, hardware
    generation and query scaling). *)
Record MHARunner (float : Type) : Type := FusedMHARunnerFP16v2 {
  runner_head_num : Z;
  runner_size_per_head : Z;
  runner_sm : Z;
  runner_q_scaling : float }.
Arguments FusedMHARunnerFP16v2 {float} _ _ _ _.
Arguments runner_head_num {float} _.
Arguments runner_size_per_head {float} _.
Arguments runner_sm {float} _.
Arguments runner_q_scaling {float} _.

(** What the layer uses of the runner: the tile classes (sequence-length
    buckets) its kernels are built for, the capability query and the
    workspace size. *)
Class MHARunnerOps (float : Type) : Type := {
  tile_classes : MHARunner float → list Z;
  isValid : MHARunner float → Z → bool;
  getWorkspaceSize : MHARunner float → Z }.

(** The least element of [classes] that is at least [len], if any. *)
Definition least_class_from (len : Z) (classes : list Z) : option Z :=
  foldr (λ c acc, if len <=? c
                  then Some (from_option (Z.min c) c acc)
                  else acc) None classes.

(** Modelled from the spec: [getSFromMaxSeqLen] of the fused attention
    runner, which is not part of this file.  It maps a sequence length to
    the smallest tile class that is at least that length; the spec is silent
    on lengths above every tile class, for which the largest class is
    returned here. *)
Definition getSFromMaxSeqLen {float} `{!MHARunnerOps float}
    (r : MHARunner float) (max_seq_len : Z) : Z :=
  default (foldr Z.max 0 (tile_classes r))
          (least_class_from max_seq_len (tile_classes r)).

(** The eligibility queries of the matmul provider ([cublasMMWrapper]). *)
Class cublasMMWrapper : Type := {
  isUseSparse : Z → Z → Z → Z → bool;
  isFuseBatchGemm : Z → Z → Z → Z → bool }.

(** ** Work enqueued on the layer's stream *)

Inductive Op (float : Type) : Type :=
| SpGemm (n m k : Z) (A B C : ptr)
| MemcpyAsync (dst : ptr) (src : list ptr) (count : Z)
| BatchedGemm (n m k : Z) (A : ptr) (lda : Z) (B : ptr) (ldb : Z)
    (C : ptr) (ldc : Z) (batch_count : Z)
| Gemm (n m k : Z) (A : ptr) (lda : Z) (B : ptr) (ldb : Z) (C : ptr) (ldc : Z)
| Launch_trt_add_QKV_bias (grid block : Z)
    (qkv_buf Q bias_Q K bias_K V bias_V : ptr)
    (valid_word_num head_num size_per_head : Z)
| MHARun (runner : MHARunner float) (cfg : option (Z * Z))
    (qkv mask cu_seqlens workspace out : ptr).
Arguments SpGemm {float} _ _ _ _ _ _.
Arguments MemcpyAsync {float} _ _ _.
Arguments BatchedGemm {float} _ _ _ _ _ _ _ _ _ _.
Arguments Gemm {float} _ _ _ _ _ _ _ _ _.
Arguments Launch_trt_add_QKV_bias {float} _ _ _ _ _ _ _ _ _ _ _ _.
Arguments MHARun {float} _ _ _ _ _ _ _.

(** ** The layer object

    The data members that the member functions read and write (the class
    declaration is not part of this file).  [size_t] members hold values in
    [Z]; the stream, the matmul provider and the allocator are kept
    outside the record. *)

Record Layer (float : Type) : Type := mkLayer {
  max_batch_size_ : Z;
  max_seq_len_ : Z;
  head_num_ : Z;
  size_per_head_ : Z;
  hidden_units_ : Z;
  sm_ : Z;
  q_scaling_ : float;
  sparse_ : bool;
  is_free_buffer_after_forward_ : bool;
  is_allocate_buffer_ : bool;
  dispatcher_fp16 : MHARunner float;
  q_buf_ : ptr;
  k_buf_ : ptr;
  v_buf_ : ptr;
  qkv_buf_ : ptr;
  qkv_buf_2_ : ptr;
  attn_workspace_ : ptr;
  batch_qkv_kernel_ptr_ : ptr;
  batch_qkv_input_ptr_ : ptr;
  batch_qkv_buf_ptr_ : ptr }.
Arguments mkLayer {float} _ _ _ _ _ _ _ _ _ _ _ _ _ _ _ _ _ _ _ _.
Arguments max_batch_size_ {float} _.
Arguments max_seq_len_ {float} _.
Arguments head_num_ {float} _.
Arguments size_per_head_ {float} _.
Arguments hidden_units_ {float} _.
Arguments sm_ {float} _.
Arguments q_scaling_ {float} _.
Arguments sparse_ {float} _.
Arguments is_free_buffer_after_forward_ {float} _.
Arguments is_allocate_buffer_ {float} _.
Arguments dispatcher_fp16 {float} _.
Arguments q_buf_ {float} _.
Arguments k_buf_ {float} _.
Arguments v_buf_ {float} _.
Arguments qkv_buf_ {float} _.
Arguments qkv_buf_2_ {float} _.
Arguments attn_workspace_ {float} _.
Arguments batch_qkv_kernel_ptr_ {float} _.
Arguments batch_qkv_input_ptr_ {float} _.
Arguments batch_qkv_buf_ptr_ {float} _.

(** Field assignments. *)
Definition set_max_batch_size_ {float} (v : Z) (L : Layer float) : Layer float :=
  mkLayer v (max_seq_len_ L) (head_num_ L) (size_per_head_ L)
    (hidden_units_ L) (sm_ L) (q_scaling_ L) (sparse_ L)
    (is_free_buffer_after_forward_ L) (is_allocate_buffer_ L)
    (dispatcher_fp16 L) (q_buf_ L) (k_buf_ L) (v_buf_ L) (qkv_buf_ L)
    (qkv_buf_2_ L) (attn_workspace_ L) (batch_qkv_kernel_ptr_ L)
    (batch_qkv_input_ptr_ L) (batch_qkv_buf_ptr_ L).

Definition set_max_seq_len_ {float} (v : Z) (L : Layer float) : Layer float :=
  mkLayer (max_batch_size_ L) v (head_num_ L) (size_per_head_ L)
    (hidden_units_ L) (sm_ L) (q_scaling_ L) (sparse_ L)
    (is_free_buffer_after_forward_ L) (is_allocate_buffer_ L)
    (dispatcher_fp16 L) (q_buf_ L) (k_buf_ L) (v_buf_ L) (qkv_buf_ L)
    (qkv_buf_2_ L) (attn_workspace_ L) (batch_qkv_kernel_ptr_ L)
    (batch_qkv_input_ptr_ L) (batch_qkv_buf_ptr_ L).

Definition set_is_allocate_buffer_ {float} (v : bool) (L : Layer float)
  : Layer float :=
  mkLayer (max_batch_size_ L) (max_seq_len_ L) (head_num_ L)
    (size_per_head_ L) (hidden_units_ L) (sm_ L) (q_scaling_ L) (sparse_ L)
    (is_free_buffer_after_forward_ L) v
    (dispatcher_fp16 L) (q_buf_ L) (k_buf_ L) (v_buf_ L) (qkv_buf_ L)
    (qkv_buf_2_ L) (attn_workspace_ L) (batch_qkv_kernel_ptr_ L)
    (batch_qkv_input_ptr_ L) (batch_qkv_buf_ptr_ L).

(** The seven assignments of [allocateBuffer] to the buffer fields and the
    two derived table pointers. *)
Definition set_buffers {float} (q k v qkv qkv2 ws tbl : ptr) (L : Layer float)
  : Layer float :=
  mkLayer (max_batch_size_ L) (max_seq_len_ L) (head_num_ L)
    (size_per_head_ L) (hidden_units_ L) (sm_ L) (q_scaling_ L) (sparse_ L)
    (is_free_buffer_after_forward_ L) (is_allocate_buffer_ L)
    (dispatcher_fp16 L) q k v qkv qkv2 ws tbl
    (ptr_add tbl 4) (ptr_add (ptr_add tbl 4) 4).

(** The layer, the state of the runner object it owns (what [setup] last
    configured), the allocator, and the stream's queue (oldest first). *)
Record Sys (float A : Type) : Type := mkSys {
  layer : Layer float;
  runner_cfg : option (Z * Z);
  heap : A;
  queue : list (Op float) }.
Arguments mkSys {float A} _ _ _ _.
Arguments layer {float A} _.
Arguments runner_cfg {float A} _.
Arguments heap {float A} _.
Arguments queue {float A} _.

(** ** Device memory *)

(** Device memory by region and element offset: [half] elements, pointer
    cells (the table of the batched matmul) and [int] cells (the padding
    offsets). *)
Record DevMem (half : Type) : Type := mkDevMem {
  hmem : Z → Z → half;
  pmem : Z → Z → ptr;
  imem : Z → Z → Z }.
Arguments mkDevMem {half} _ _ _.
Arguments hmem {half} _ _ _.
Arguments pmem {half} _ _ _.
Arguments imem {half} _ _ _.

(** The numeric contracts of the collaborators' kernels, by the buffers
    they are handed, and the order in which the hardware runs the threads
    of a launch. *)
Class DeviceOps (float half : Type) : Type := {
  hadd : half → half → half;
  gemm_fn : Z → Z → Z → Z → Z → Z →
            (Z → half) → (Z → half) → (Z → half) → (Z → half);
  spgemm_fn : Z → Z → Z → (Z → half) → (Z → half) → (Z → half) → (Z → half);
  mha_fn : MHARunner float → option (Z * Z) → (Z → half) →
           option (Z → half) → option (Z → Z) → (Z → half) → (Z → half) →
           (Z → half) * (Z → half);
  schedule : Z → Z → list (Z * Z) }.

(** ** Exceptions and the host monad *)

Inductive Check : Type := ChkBatchSize | ChkSeqLen | ChkTileClass.

Inductive Error : Type :=
| OutOfRange            (* std::vector::at *)
| UndefinedBehavior     (* shape[i] past the end of the shape vector *)
| CheckFailed (c : Check)   (* FT_CHECK *)
| AssertFailed          (* assert *)
| RuntimeError.         (* throw std::runtime_error *)

Inductive Res (X : Type) : Type :=
| Ok (x : X)
| Throw (e : Error).
Arguments Ok {X} _.
Arguments Throw {X} _.

(** A call returns or throws; the object keeps what was assigned before
    the throw. *)
Definition M (float A X : Type) : Type := Sys float A → Res X * Sys float A.

Section FusedAttentionLayer.

Context {float half A : Type} `{allocator_ : !IAllocator A}
  `{runner_ops : !MHARunnerOps float} `{cublas_wrapper_ : !cublasMMWrapper}
  `{device : !DeviceOps float half}.

(** Build configuration: whether [SPARSITY_ENABLED] is defined, the element
    size [sizeof(T)] of the instantiation, and the hardware generation
    constants of the runner's header. *)
Variable SPARSITY_ENABLED : bool.
Variable sizeof_T : Z.
Variables kSM_70 kSM_72 kSM_75 kSM_80 kSM_86 : Z.

Abbreviation Layer := (Layer float).
Abbreviation Sys := (Sys float A).
Abbreviation Op := (Op float).
Abbreviation M := (M float A).
Abbreviation DevMem := (DevMem half).

Definition ret {X} (x : X) : M X := λ s, (Ok x, s).

Definition bind {X Y} (c : M X) (f : X → M Y) : M Y :=
  λ s, match c s with
       | (Ok x, s') => f x s'
       | (Throw e, s') => (Throw e, s')
       end.

Notation "'let*' x := c 'in' k" := (bind c (λ x, k))
  (at level 10, x name, c at level 100, k at level 200,
   format "'[v' 'let*'  x  :=  c  'in' '/' k ']'").
Notation "c ;;; k" := (bind c (λ _, k))
  (at level 100, k at level 200, right associativity).

Definition throw {X} (e : Error) : M X := λ s, (Throw e, s).

Definition get_layer : M Layer := λ s, (Ok (layer s), s).

Definition put_layer (L : Layer) : M unit :=
  λ s, (Ok tt, mkSys L (runner_cfg s) (heap s) (queue s)).

Definition get_runner_cfg : M (option (Z * Z)) := λ s, (Ok (runner_cfg s), s).

Definition put_runner_cfg (c : option (Z * Z)) : M unit :=
  λ s, (Ok tt, mkSys (layer s) c (heap s) (queue s)).

(** Appends one operation to the stream's queue. *)
Definition enqueue (op : Op) : M unit :=
  λ s, (Ok tt, mkSys (layer s) (runner_cfg s) (heap s) (queue s ++ [op])).

(** [allocator_->malloc(size, is_set_zero)] and [allocator_->free(p)]. *)
Definition malloc (size : Z) (is_set_zero : bool) : M ptr :=
  λ s, let '(p, h) := alloc_malloc size is_set_zero (heap s) in
       (Ok p, mkSys (layer s) (runner_cfg s) h (queue s)).

Definition free (p : ptr) : M unit :=
  λ s, (Ok tt, mkSys (layer s) (runner_cfg s) (alloc_free p (heap s)) (queue s)).

(** [v->at(i)]: throws past the end. *)
Definition vec_at (v : list Tensor) (i : nat) : M Tensor :=
  match v !! i with
  | Some t => ret t
  | None => throw OutOfRange
  end.

(** [t.shape[i]]: unchecked; past the end the behaviour is undefined. *)
Definition shape_idx (t : Tensor) (i : nat) : M Z :=
  match shape t !! i with
  | Some d => ret d
  | None => throw UndefinedBehavior
  end.

(** Modelled from the spec: the macro [FT_CHECK], which is not part of this
    file.  A failed check is fatal for the current call: the call ends
    there, with the object as the statements before the check left it. *)
Definition FT_CHECK (b : bool) (c : Check) : M unit :=
  if b then ret tt else throw (CheckFailed c).

(** [assert] of a debug build: a failed assertion ends the call.  The
    error checks around device calls ([check_cuda_error],
    [sync_check_cuda_error]) enqueue nothing and are left out. *)
Definition assert (b : bool) : M unit :=
  if b then ret tt else throw AssertFailed.

(** *** Capacity guards (lines 308-327) *)

Definition isValidBatchSize (batch_size : Z) : M bool :=
  let* L := get_layer in
  if max_batch_size_ L =? 0 then
    put_layer (set_max_batch_size_ batch_size L) ;;;
    ret true
  else
    ret (batch_size <=? max_batch_size_ L).

Definition isValidSeqLen (seq_len : Z) : M bool :=
  let* L := get_layer in
  (if max_seq_len_ L =? 0 then put_layer (set_max_seq_len_ seq_len L)
   else ret tt) ;;;
  let* L' := get_layer in
  ret ((seq_len <=? max_seq_len_ L') && (seq_len <=? 384)).

(** *** Scratch buffers (lines 273-306) *)

Definition allocateBuffer : M unit :=
  let* L := get_layer in
  if negb (is_allocate_buffer_ L) then
    let unit_size :=
      wrap_u64 (sizeof_T * max_batch_size_ L * max_seq_len_ L * hidden_units_ L) in
    let* q := malloc unit_size false in
    let* k := malloc unit_size false in
    let* v := malloc unit_size false in
    let* qkv := malloc
      (wrap_u64 (sizeof_T * 3 * max_batch_size_ L * max_seq_len_ L
                 * hidden_units_ L)) false in
    let* qkv2 := malloc unit_size false in
    let* ws := malloc (getWorkspaceSize (dispatcher_fp16 L)) false in
    let* tbl := malloc (8 * 12) false in
    put_layer (set_is_allocate_buffer_ true (set_buffers q k v qkv qkv2 ws tbl L))
  else ret tt.

Definition freeBuffer : M unit :=
  let* L := get_layer in
  if is_allocate_buffer_ L then
    free (q_buf_ L) ;;;
    free (k_buf_ L) ;;;
    free (v_buf_ L) ;;;
    free (qkv_buf_ L) ;;;
    free (qkv_buf_2_ L) ;;;
    free (attn_workspace_ L) ;;;
    free (batch_qkv_kernel_ptr_ L) ;;;
    put_layer (set_is_allocate_buffer_ false L)
  else ret tt.

(** *** Construction (lines 215-264) *)

Definition supported_arch (sm size_per_head : Z) : bool :=
  ((sm =? kSM_70) || (sm =? kSM_86) || (sm =? kSM_80) || (sm =? kSM_75)
   || (sm =? kSM_72)) && (size_per_head =? 64).

(** The buffer fields are not assigned by the constructor; they are taken
    as null and [is_allocate_buffer_] as false, its default. *)
Definition FusedAttentionLayer_new (max_batch_size max_seq_len head_num
    size_per_head sm : Z) (q_scaling : float)
    (is_free_buffer_after_forward sparse : bool) : Res Layer :=
  if supported_arch sm size_per_head then
    Ok (mkLayer max_batch_size max_seq_len head_num size_per_head
          (wrap_u64 (head_num * size_per_head)) sm q_scaling sparse
          is_free_buffer_after_forward false
          (FusedMHARunnerFP16v2 head_num size_per_head sm q_scaling)
          nullptr nullptr nullptr nullptr nullptr nullptr nullptr nullptr
          nullptr)
  else Throw RuntimeError.

(** The copy constructor. *)
Definition FusedAttentionLayer_copy (attention_layer : Layer) : Res Layer :=
  if supported_arch (sm_ attention_layer) (size_per_head_ attention_layer) then
    Ok (mkLayer (max_batch_size_ attention_layer) (max_seq_len_ attention_layer)
          (head_num_ attention_layer) (size_per_head_ attention_layer)
          (hidden_units_ attention_layer) (sm_ attention_layer)
          (q_scaling_ attention_layer) (sparse_ attention_layer)
          (is_free_buffer_after_forward_ attention_layer) false
          (FusedMHARunnerFP16v2 (head_num_ attention_layer)
             (size_per_head_ attention_layer) (sm_ attention_layer)
             (q_scaling_ attention_layer))
          nullptr nullptr nullptr nullptr nullptr nullptr nullptr nullptr
          nullptr)
  else Throw RuntimeError.

(** A freshly constructed layer on a given allocator, with an empty queue. *)
Definition new_sys (L : Layer) (a : A) : Sys := mkSys L None a [].

(** *** The bias-fusion launch (lines 50-68) *)

Definition invokeTrtAddQkvBias (token_num : Z)
    (attention_weights : AttentionWeight) : M unit :=
  let* L := get_layer in
  let grid := wrap_u32 token_num in
  let block := wrap_u32 (wrap_u64 (head_num_ L * size_per_head_ L) / 2) in
  assert (block <=? 1024) ;;;
  enqueue (Launch_trt_add_QKV_bias grid block
             (qkv_buf_ L)
             (q_buf_ L) (bias (query_weight attention_weights))
             (k_buf_ L) (bias (key_weight attention_weights))
             (v_buf_ L) (bias (value_weight attention_weights))
             (wrap_i32 token_num) (wrap_i32 (head_num_ L))
             (wrap_i32 (size_per_head_ L / 2))).

(** *** forward (lines 70-213) *)

(** Lines 91-94: the row count rounded for the sparse kernels. *)
Definition m_tmp (rows : Z) : Z :=
  if negb (rows mod 8 =? 0) then wrap_u64 ((rows / 8 + 1) * 8) else rows.

(** The condition of lines 101 and 183; without [SPARSITY_ENABLED] the
    branch is not compiled. *)
Definition sparse_branch (L : Layer) (n m k : Z) : bool :=
  SPARSITY_ENABLED && (sparse_ L && isUseSparse 1 n m k).

(** Lines 99-171: the three input projections. *)
Definition project_qkv (L : Layer) (attention_weights : AttentionWeight)
    (from_tensor : ptr) (n m m_padded k : Z) : M unit :=
  if sparse_branch L n m k then
    enqueue (SpGemm n m_padded k (sp_kernel (query_weight attention_weights))
               from_tensor (q_buf_ L)) ;;;
    enqueue (SpGemm n m_padded k (sp_kernel (key_weight attention_weights))
               from_tensor (k_buf_ L)) ;;;
    enqueue (SpGemm n m_padded k (sp_kernel (value_weight attention_weights))
               from_tensor (v_buf_ L))
  else
    let is_batched_QKV_ := isFuseBatchGemm 3 n m k in
    if is_batched_QKV_ then
      let hA := [kernel (query_weight attention_weights);
                 kernel (key_weight attention_weights);
                 kernel (value_weight attention_weights);
                 nullptr;
                 from_tensor; from_tensor; from_tensor; nullptr;
                 q_buf_ L; k_buf_ L; v_buf_ L; nullptr] in
      enqueue (MemcpyAsync (batch_qkv_kernel_ptr_ L) hA (8 * 12)) ;;;
      enqueue (BatchedGemm n m k (batch_qkv_kernel_ptr_ L) n
                 (batch_qkv_input_ptr_ L) k (batch_qkv_buf_ptr_ L) n 3)
    else
      enqueue (Gemm n m k (kernel (query_weight attention_weights)) n
                 from_tensor k (q_buf_ L) n) ;;;
      enqueue (Gemm n m k (kernel (key_weight attention_weights)) n
                 from_tensor k (k_buf_ L) n) ;;;
      enqueue (Gemm n m k (kernel (value_weight attention_weights)) n
                 from_tensor k (v_buf_ L) n).

(** Lines 175-180: the fused attention kernel.  [setup] stores the
    configuration in the runner, [run] enqueues the kernel with it. *)
Definition attention (L : Layer) (request_seq_len : Z) (in2 : Tensor) : M unit :=
  let S := getSFromMaxSeqLen (dispatcher_fp16 L) request_seq_len in
  FT_CHECK (isValid (dispatcher_fp16 L) S) ChkTileClass ;;;
  let* d := shape_idx in2 0 in
  let B := wrap_i32 (wrap_u64 (d - 1)) in
  put_runner_cfg (Some (S, B)) ;;;
  let* cfg := get_runner_cfg in
  enqueue (MHARun (dispatcher_fp16 L) cfg (qkv_buf_ L) nullptr (data in2)
             (attn_workspace_ L) (qkv_buf_2_ L)).

(** Lines 182-208: the output projection. *)
Definition project_output (L : Layer) (attention_weights : AttentionWeight)
    (attention_out : ptr) (n m m_padded k : Z) : M unit :=
  if sparse_branch L n m k then
    enqueue (SpGemm n m_padded k
               (sp_kernel (attention_output_weight attention_weights))
               (qkv_buf_2_ L) attention_out)
  else
    enqueue (Gemm n m k (kernel (attention_output_weight attention_weights)) n
               (qkv_buf_2_ L) k attention_out n).

Definition forward (output_tensors input_tensors : list Tensor)
    (attention_weights : AttentionWeight) : M unit :=
  let* t := vec_at input_tensors 1 in
  let* d := shape_idx t 0 in
  let* ok := isValidBatchSize d in
  FT_CHECK ok ChkBatchSize ;;;
  let* t := vec_at input_tensors 1 in
  let* d := shape_idx t 2 in
  let* ok := isValidSeqLen d in
  FT_CHECK ok ChkSeqLen ;;;
  allocateBuffer ;;;
  let* out0 := vec_at output_tensors 0 in
  let attention_out := data out0 in
  let* in0 := vec_at input_tensors 0 in
  let from_tensor := data in0 in
  let* in1 := vec_at input_tensors 1 in
  let attention_mask := data in1 in
  let* in2 := vec_at input_tensors 2 in
  let padding_offset := data in2 in
  let* d0 := shape_idx in1 0 in
  let request_batch_size := wrap_i32 d0 in
  let* d2 := shape_idx in1 2 in
  let request_seq_len := wrap_i32 d2 in
  let* rows := shape_idx in0 0 in
  let m_padded := m_tmp rows in
  let m := rows in
  let* L := get_layer in
  let k := wrap_i32 (hidden_units_ L) in
  let n := wrap_i32 (hidden_units_ L) in
  project_qkv L attention_weights from_tensor n m m_padded k ;;;
  invokeTrtAddQkvBias m attention_weights ;;;
  attention L request_seq_len in2 ;;;
  project_output L attention_weights attention_out n m m_padded k ;;;
  if is_free_buffer_after_forward_ L then freeBuffer else ret tt.

(** The destructor. *)
Definition FusedAttentionLayer_delete : M unit := freeBuffer.

(** *** Sequences of calls on one layer *)

Inductive Call : Type :=
| CallForward (output_tensors input_tensors : list Tensor)
    (attention_weights : AttentionWeight)
| CallAllocateBuffer
| CallFreeBuffer.

Definition run_call (c : Call) (s : Sys) : Sys :=
  match c with
  | CallForward o i w => (forward o i w s).2
  | CallAllocateBuffer => (allocateBuffer s).2
  | CallFreeBuffer => (freeBuffer s).2
  end.

Definition run_calls (cs : list Call) (s : Sys) : Sys :=
  foldl (λ s c, run_call c s) s cs.

Lemma run_calls_nil (s : Sys) : run_calls [] s = s.
Proof. reflexivity. Qed.

(** *** Device code and the stream *)

(** The elements a pointer sees, and a buffer written back through it. *)
Definition view (mem : DevMem) (p : ptr) : Z → half :=
  λ i, hmem mem (region p) (offset p + i).

Definition iview (mem : DevMem) (p : ptr) : Z → Z :=
  λ i, imem mem (region p) (offset p + i).

Definition write_view (p : ptr) (f : Z → half) (mem : DevMem) : DevMem :=
  mkDevMem (λ r j, if decide (r = region p) then f (j - offset p)
                   else hmem mem r j)
           (pmem mem) (imem mem).

(** [half2] accesses through a pointer cast to [half2*]. *)
Definition load_half2 (mem : DevMem) (p : ptr) (i : Z) : half * half :=
  (hmem mem (region p) (offset p + 2 * i),
   hmem mem (region p) (offset p + 2 * i + 1)).

Definition store_half2 (p : ptr) (i : Z) (v : half * half) (mem : DevMem)
  : DevMem :=
  mkDevMem (λ r j, if decide (r = region p ∧ j = offset p + 2 * i) then v.1
                   else if decide (r = region p ∧ j = offset p + 2 * i + 1)
                        then v.2
                        else hmem mem r j)
           (pmem mem) (imem mem).

Definition hadd2 (a b : half * half) : half * half :=
  (hadd a.1 b.1, hadd a.2 b.2).

(** Lines 21-48: one thread of the kernel. *)
Definition trt_add_QKV_bias (blockIdx_x threadIdx_x blockDim_x : Z)
    (qkv_buf Q bias_Q K bias_K V bias_V : ptr)
    (valid_word_num head_num size_per_head : Z) (mem : DevMem) : DevMem :=
  let seq_id := wrap_i32 blockIdx_x in
  let size_id := wrap_i32 (threadIdx_x mod wrap_u32 size_per_head) in
  let head_id :=
    wrap_i32 (wrap_u32 (threadIdx_x - size_id) / wrap_u32 size_per_head) in
  let target_offset :=
    wrap_i32 (blockIdx_x * head_num * 3 * size_per_head
              + head_id * 3 * size_per_head) in
  let mem :=
    store_half2 qkv_buf (wrap_i32 (target_offset + 0 * size_per_head + size_id))
      (hadd2 (load_half2 mem Q (wrap_u32 (seq_id * blockDim_x + threadIdx_x)))
             (load_half2 mem bias_Q threadIdx_x)) mem in
  let mem :=
    store_half2 qkv_buf (wrap_i32 (target_offset + 1 * size_per_head + size_id))
      (hadd2 (load_half2 mem K (wrap_u32 (seq_id * blockDim_x + threadIdx_x)))
             (load_half2 mem bias_K threadIdx_x)) mem in
  store_half2 qkv_buf (wrap_i32 (target_offset + 2 * size_per_head + size_id))
    (hadd2 (load_half2 mem V (wrap_u32 (seq_id * blockDim_x + threadIdx_x)))
           (load_half2 mem bias_V threadIdx_x)) mem.

(** The threads of a launch [<<<grid, block>>>], as (blockIdx.x,
    threadIdx.x). *)
Definition grid_threads (grid block : Z) : list (Z * Z) :=
  b ← seqZ 0 grid; (λ t, (b, t)) <$> seqZ 0 block.

(** Runs the given threads of a kernel one after the other. *)
Definition run_threads (threads : list (Z * Z))
    (body : Z → Z → DevMem → DevMem) (mem : DevMem) : DevMem :=
  foldl (λ mem bt, body bt.1 bt.2 mem) mem threads.

(** The pointers of a table in device memory. *)
Definition table_entry (mem : DevMem) (tbl : ptr) (i : Z) : ptr :=
  pmem mem (region tbl) (offset tbl + i).

(** What one enqueued operation does to device memory. *)
Definition exec_op (op : Op) (mem : DevMem) : DevMem :=
  match op with
  | SpGemm n m k A B C =>
      write_view C (spgemm_fn n m k (view mem A) (view mem B) (view mem C)) mem
  | MemcpyAsync dst src count =>
      mkDevMem (hmem mem)
        (λ r j,
           if decide (r = region dst ∧ offset dst ≤ j < offset dst + count / 8)
           then default (pmem mem r j) (src !! Z.to_nat (j - offset dst))
           else pmem mem r j)
        (imem mem)
  | BatchedGemm n m k A lda B ldb C ldc batch_count =>
      foldl (λ mem i,
               let a := table_entry mem A i in
               let b := table_entry mem B i in
               let c := table_entry mem C i in
               write_view c (gemm_fn n m k lda ldb ldc
                               (view mem a) (view mem b) (view mem c)) mem)
            mem (seqZ 0 batch_count)
  | Gemm n m k A lda B ldb C ldc =>
      write_view C (gemm_fn n m k lda ldb ldc
                      (view mem A) (view mem B) (view mem C)) mem
  | Launch_trt_add_QKV_bias grid block qkv_buf Q bias_Q K bias_K V bias_V
      valid_word_num head_num size_per_head =>
      run_threads (schedule grid block)
        (λ b t, trt_add_QKV_bias b t block qkv_buf Q bias_Q K bias_K V bias_V
                  valid_word_num head_num size_per_head) mem
  | MHARun runner cfg qkv mask cu_seqlens workspace out =>
      let r := mha_fn runner cfg (view mem qkv)
                 (if is_null mask then None else Some (view mem mask))
                 (if is_null cu_seqlens then None
                  else Some (iview mem cu_seqlens))
                 (view mem workspace) (view mem out) in
      write_view workspace r.2 (write_view out r.1 mem)
  end.

(** The stream runs its queue in order. *)
Definition exec_queue (ops : list Op) (mem : DevMem) : DevMem :=
  foldl (λ mem op, exec_op op mem) mem ops.


(** * Reasoning about host code *)

(** [wp c s Φ]: running [c] from [s] ends in a result and a state that
    satisfy [Φ]. *)
Definition wp {X} (c : M X) (s : Sys) (Φ : Res X → Sys → Prop) : Prop :=
  Φ (c s).1 (c s).2.

Lemma wp_bind {X Y} (c : M X) (f : X → M Y) s Φ :
  wp c s (λ r s', match r with
                  | Ok x => wp (f x) s' Φ
                  | Throw e => Φ (Throw e) s'
                  end) →
  wp (bind c f) s Φ.
Proof. unfold wp, bind. by destruct (c s) as [[x|e] s']. Qed.

Lemma wp_ret {X} (x : X) s Φ : Φ (Ok x) s → wp (ret x) s Φ.
Proof. done. Qed.

Lemma wp_throw {X} e s (Φ : Res X → Sys → Prop) :
  Φ (Throw e) s → wp (throw e) s Φ.
Proof. done. Qed.

Lemma wp_get_layer s Φ : Φ (Ok (layer s)) s → wp get_layer s Φ.
Proof. done. Qed.

Lemma wp_put_layer L s Φ :
  Φ (Ok tt) (mkSys L (runner_cfg s) (heap s) (queue s)) → wp (put_layer L) s Φ.
Proof. done. Qed.

Lemma wp_get_runner_cfg s Φ : Φ (Ok (runner_cfg s)) s → wp get_runner_cfg s Φ.
Proof. done. Qed.

Lemma wp_put_runner_cfg c s Φ :
  Φ (Ok tt) (mkSys (layer s) c (heap s) (queue s)) → wp (put_runner_cfg c) s Φ.
Proof. done. Qed.

Lemma wp_enqueue op s Φ :
  Φ (Ok tt) (mkSys (layer s) (runner_cfg s) (heap s) (queue s ++ [op])) →
  wp (enqueue op) s Φ.
Proof. done. Qed.

Lemma wp_malloc sz z s Φ :
  (∀ p h, alloc_malloc sz z (heap s) = (p, h) →
          Φ (Ok p) (mkSys (layer s) (runner_cfg s) h (queue s))) →
  wp (malloc sz z) s Φ.
Proof.
  unfold wp, malloc. intros HΦ.
  destruct (alloc_malloc sz z (heap s)) as [p h]. by apply HΦ.
Qed.

Lemma wp_free p s Φ :
  Φ (Ok tt) (mkSys (layer s) (runner_cfg s) (alloc_free p (heap s)) (queue s)) →
  wp (free p) s Φ.
Proof. done. Qed.

Lemma wp_vec_at v i s Φ :
  (∀ t, v !! i = Some t → Φ (Ok t) s) →
  (v !! i = None → Φ (Throw OutOfRange) s) →
  wp (vec_at v i) s Φ.
Proof. unfold vec_at. destruct (v !! i); intros H1 H2; [by apply H1|by apply H2]. Qed.

Lemma wp_shape_idx t i s Φ :
  (∀ d, shape t !! i = Some d → Φ (Ok d) s) →
  (shape t !! i = None → Φ (Throw UndefinedBehavior) s) →
  wp (shape_idx t i) s Φ.
Proof.
  unfold shape_idx. destruct (shape t !! i); intros H1 H2;
    [by apply H1|by apply H2].
Qed.

Lemma wp_FT_CHECK b c s Φ :
  (b = true → Φ (Ok tt) s) →
  (b = false → Φ (Throw (CheckFailed c)) s) →
  wp (FT_CHECK b c) s Φ.
Proof. destruct b; intros H1 H2; [by apply H1|by apply H2]. Qed.

Lemma wp_assert b s Φ :
  (b = true → Φ (Ok tt) s) →
  (b = false → Φ (Throw AssertFailed) s) →
  wp (assert b) s Φ.
Proof. destruct b; intros H1 H2; [by apply H1|by apply H2]. Qed.

(** One step of symbolic execution. *)
Ltac wp_step :=
  cbn [layer runner_cfg heap queue];
  lazymatch goal with
  | |- wp (bind _ _) _ _ => apply wp_bind
  | |- wp (ret _) _ _ => apply wp_ret
  | |- wp (throw _) _ _ => apply wp_throw
  | |- wp get_layer _ _ => apply wp_get_layer
  | |- wp (put_layer _) _ _ => apply wp_put_layer
  | |- wp get_runner_cfg _ _ => apply wp_get_runner_cfg
  | |- wp (put_runner_cfg _) _ _ => apply wp_put_runner_cfg
  | |- wp (enqueue _) _ _ => apply wp_enqueue
  | |- wp (malloc _ _) _ _ => apply wp_malloc; intros ? ? ?
  | |- wp (free _) _ _ => apply wp_free
  | |- wp (vec_at _ _) _ _ => apply wp_vec_at; [intros ? ?|intros ?]
  | |- wp (shape_idx _ _) _ _ => apply wp_shape_idx; [intros ? ?|intros ?]
  | |- wp (FT_CHECK _ _) _ _ => apply wp_FT_CHECK; intros ?
  | |- wp (assert _) _ _ => apply wp_assert; intros ?
  | |- wp (if ?b then _ else _) _ _ => destruct b eqn:?
  | |- wp (let _ := _ in _) _ _ => cbv zeta
  end.

Ltac wp_run := repeat wp_step.

(** ** The capacity guards *)

Lemma isValidBatchSize_unset n (s : Sys) :
  max_batch_size_ (layer s) = 0 →
  isValidBatchSize n s
  = (Ok true, mkSys (set_max_batch_size_ n (layer s)) (runner_cfg s) (heap s)
                (queue s)).
Proof. intros H0. unfold isValidBatchSize, bind, get_layer. by rewrite H0. Qed.

Lemma isValidBatchSize_set n (s : Sys) :
  max_batch_size_ (layer s) ≠ 0 →
  isValidBatchSize n s = (Ok (n <=? max_batch_size_ (layer s)), s).
Proof.
  intros H0. unfold isValidBatchSize, bind, get_layer. cbn.
  by destruct (Z.eqb_spec (max_batch_size_ (layer s)) 0).
Qed.

Lemma isValidSeqLen_unset n (s : Sys) :
  max_seq_len_ (layer s) = 0 →
  isValidSeqLen n s
  = (Ok ((n <=? n) && (n <=? 384)),
     mkSys (set_max_seq_len_ n (layer s)) (runner_cfg s) (heap s) (queue s)).
Proof. intros H0. unfold isValidSeqLen, bind, get_layer. cbn. by rewrite H0. Qed.

Lemma isValidSeqLen_set n (s : Sys) :
  max_seq_len_ (layer s) ≠ 0 →
  isValidSeqLen n s
  = (Ok ((n <=? max_seq_len_ (layer s)) && (n <=? 384)), s).
Proof.
  intros H0. unfold isValidSeqLen, bind, get_layer. cbn.
  by destruct (Z.eqb_spec (max_seq_len_ (layer s)) 0).
Qed.

(** ** Relations that every call respects *)

(** [steps R c]: whatever the result, [c] takes a state to an [R]-related
    one. *)
Definition steps {X} (R : relation Sys) (c : M X) : Prop := ∀ s, R s (c s).2.

Lemma steps_wp {X} (R : relation Sys) (c : M X) :
  (∀ s, wp c s (λ _ s', R s s')) → steps R c.
Proof. done. Qed.

Section Steps.

Context (R : relation Sys) `{!PreOrder R}.

Lemma steps_bind {X Y} (c : M X) (f : X → M Y) :
  steps R c → (∀ x, steps R (f x)) → steps R (bind c f).
Proof.
  intros Hc Hf s. unfold bind. specialize (Hc s).
  destruct (c s) as [[x|e] s']; [|done].
  etrans; [exact Hc|apply Hf].
Qed.

Lemma steps_bind_vec_at {Y} v i (f : Tensor → M Y) :
  (∀ t, v !! i = Some t → steps R (f t)) → steps R (bind (vec_at v i) f).
Proof.
  intros Hf s. unfold bind, vec_at.
  destruct (v !! i) as [t|]; [by apply Hf|done].
Qed.

Lemma steps_bind_shape_idx {Y} t i (f : Z → M Y) :
  (∀ d, shape t !! i = Some d → steps R (f d)) →
  steps R (bind (shape_idx t i) f).
Proof.
  intros Hf s. unfold bind, shape_idx.
  destruct (shape t !! i) as [d|]; [by apply Hf|done].
Qed.

Lemma steps_bind_get_layer {Y} (f : Layer → M Y) :
  (∀ L, steps R (f L)) → steps R (bind get_layer f).
Proof. intros Hf s. apply Hf. Qed.

Lemma steps_ret {X} (x : X) : steps R (ret x).
Proof. by intros s. Qed.

Lemma steps_throw {X} e : steps R (throw (X:=X) e).
Proof. by intros s. Qed.

Lemma steps_FT_CHECK b c : steps R (FT_CHECK b c).
Proof. by destruct b; intros s. Qed.

Lemma steps_assert b : steps R (assert b).
Proof. by destruct b; intros s. Qed.

Lemma steps_get_runner_cfg : steps R get_runner_cfg.
Proof. by intros s. Qed.

End Steps.

(** Breaks a compound computation down to the calls the relation has to be
    checked for. *)
Ltac steps_step :=
  lazymatch goal with
  | |- steps ?R (ret _) => apply (steps_ret R)
  | |- steps ?R (throw _) => apply (steps_throw R)
  | |- steps ?R (FT_CHECK _ _) => apply (steps_FT_CHECK R)
  | |- steps ?R (assert _) => apply (steps_assert R)
  | |- steps ?R get_runner_cfg => apply (steps_get_runner_cfg R)
  | |- steps ?R (bind (vec_at _ _) _) =>
      apply (steps_bind_vec_at R); intros ? ?
  | |- steps ?R (bind (shape_idx _ _) _) =>
      apply (steps_bind_shape_idx R); intros ? ?
  | |- steps ?R (bind get_layer _) => apply (steps_bind_get_layer R); intros ?
  | |- steps ?R (bind _ _) => apply (steps_bind R); [|intros ?]
  | |- steps _ (if ?b then _ else _) => destruct b eqn:?
  | |- steps _ (let _ := _ in _) => cbv zeta
  end.

Ltac steps_go := repeat steps_step.

(** *** The configuration is stable *)

(** What no call changes: the configuration, the dispatch handle, and a
    capacity once it is not zero. *)
Definition config_stable (L L' : Layer) : Prop :=
  head_num_ L' = head_num_ L ∧ size_per_head_ L' = size_per_head_ L
  ∧ hidden_units_ L' = hidden_units_ L ∧ sm_ L' = sm_ L
  ∧ q_scaling_ L' = q_scaling_ L ∧ sparse_ L' = sparse_ L
  ∧ is_free_buffer_after_forward_ L' = is_free_buffer_after_forward_ L
  ∧ dispatcher_fp16 L' = dispatcher_fp16 L
  ∧ (max_batch_size_ L ≠ 0 → max_batch_size_ L' = max_batch_size_ L)
  ∧ (max_seq_len_ L ≠ 0 → max_seq_len_ L' = max_seq_len_ L).

Definition stable : relation Sys := λ s s', config_stable (layer s) (layer s').

#[local] Instance stable_preorder : PreOrder stable.
Proof.
  split.
  - intros s. by repeat split.
  - intros s1 s2 s3 (?&?&?&?&?&?&?&?&Hb&Hl) (?&?&?&?&?&?&?&?&Hb'&Hl').
    repeat split; try congruence.
    + intros Hne. rewrite <- (Hb Hne). apply Hb'. by rewrite (Hb Hne).
    + intros Hne. rewrite <- (Hl Hne). apply Hl'. by rewrite (Hl Hne).
Qed.

Lemma stable_same_layer (s s' : Sys) : layer s' = layer s → stable s s'.
Proof. intros E. unfold stable. rewrite E. by repeat split. Qed.

Lemma stable_enqueue op : steps stable (enqueue op).
Proof. intros s. by apply stable_same_layer. Qed.

Lemma stable_put_runner_cfg c : steps stable (put_runner_cfg c).
Proof. intros s. by apply stable_same_layer. Qed.

Lemma stable_isValidBatchSize n : steps stable (isValidBatchSize n).
Proof.
  intros s. destruct (decide (max_batch_size_ (layer s) = 0)) as [E|E].
  - rewrite isValidBatchSize_unset by done. by repeat split.
  - rewrite isValidBatchSize_set by done. reflexivity.
Qed.

Lemma stable_isValidSeqLen n : steps stable (isValidSeqLen n).
Proof.
  intros s. destruct (decide (max_seq_len_ (layer s) = 0)) as [E|E].
  - rewrite isValidSeqLen_unset by done. by repeat split.
  - rewrite isValidSeqLen_set by done. reflexivity.
Qed.

Lemma stable_allocateBuffer : steps stable allocateBuffer.
Proof.
  apply steps_wp. intros s. unfold allocateBuffer.
  wp_run; try reflexivity; by repeat split.
Qed.

Lemma stable_freeBuffer : steps stable freeBuffer.
Proof.
  apply steps_wp. intros s. unfold freeBuffer.
  wp_run; try reflexivity; by repeat split.
Qed.

Lemma stable_forward o i w : steps stable (forward o i w).
Proof.
  unfold forward, project_output, attention, invokeTrtAddQkvBias, project_qkv.
  steps_go;
    first [ apply stable_enqueue | apply stable_put_runner_cfg
          | apply stable_isValidBatchSize | apply stable_isValidSeqLen
          | apply stable_allocateBuffer | apply stable_freeBuffer ].
Qed.

Lemma stable_run_call c : ∀ s, stable s (run_call c s).
Proof.
  destruct c; intros s; cbn.
  - apply stable_forward.
  - apply stable_allocateBuffer.
  - apply stable_freeBuffer.
Qed.

Lemma stable_run_calls cs : ∀ s, stable s (run_calls cs s).
Proof.
  induction cs as [|c cs IH]; intros s; cbn; [reflexivity|].
  etrans; [apply stable_run_call|apply IH].
Qed.

Lemma wp_steps {X} (R : relation Sys) (c : M X) s (Φ : Res X → Sys → Prop) :
  steps R c → (∀ r s', R s s' → Φ r s') → wp c s Φ.
Proof. intros Hc HΦ. apply HΦ, Hc. Qed.

Lemma wp_isValidBatchSize n s Φ :
  (max_batch_size_ (layer s) = 0 →
   Φ (Ok true) (mkSys (set_max_batch_size_ n (layer s)) (runner_cfg s) (heap s)
                  (queue s))) →
  (max_batch_size_ (layer s) ≠ 0 →
   Φ (Ok (n <=? max_batch_size_ (layer s))) s) →
  wp (isValidBatchSize n) s Φ.
Proof.
  intros H0 H1. unfold wp.
  destruct (decide (max_batch_size_ (layer s) = 0)) as [E|E].
  - rewrite isValidBatchSize_unset by done. by apply H0.
  - rewrite isValidBatchSize_set by done. by apply H1.
Qed.

Lemma wp_isValidSeqLen n s Φ :
  (max_seq_len_ (layer s) = 0 →
   Φ (Ok ((n <=? n) && (n <=? 384)))
     (mkSys (set_max_seq_len_ n (layer s)) (runner_cfg s) (heap s) (queue s))) →
  (max_seq_len_ (layer s) ≠ 0 →
   Φ (Ok ((n <=? max_seq_len_ (layer s)) && (n <=? 384))) s) →
  wp (isValidSeqLen n) s Φ.
Proof.
  intros H0 H1. unfold wp.
  destruct (decide (max_seq_len_ (layer s) = 0)) as [E|E].
  - rewrite isValidSeqLen_unset by done. by apply H0.
  - rewrite isValidSeqLen_set by done. by apply H1.
Qed.

(** Proves that a part of [forward] respects [stable]. *)
Ltac solve_stable :=
  unfold forward, project_output, attention, invokeTrtAddQkvBias, project_qkv;
  steps_go;
  first [ apply stable_enqueue | apply stable_put_runner_cfg
        | apply stable_isValidBatchSize | apply stable_isValidSeqLen
        | apply stable_allocateBuffer | apply stable_freeBuffer ].

(** A call whose batch size the guard refuses throws before anything else
    happens. *)
Lemma forward_batch_rejected o i w in1 n (s : Sys) :
  i !! 1%nat = Some in1 → shape in1 !! 0%nat = Some n →
  max_batch_size_ (layer s) ≠ 0 → max_batch_size_ (layer s) < n →
  forward o i w s = (Throw (CheckFailed ChkBatchSize), s).
Proof.
  intros Hi Hs Hne Hlt. unfold forward.
  unfold bind at 1. unfold vec_at at 1. rewrite Hi. cbn.
  unfold bind at 1. unfold shape_idx at 1. rewrite Hs. cbn.
  unfold bind at 1. rewrite isValidBatchSize_set by done.
  destruct (Z.leb_spec n (max_batch_size_ (layer s))); [lia|done].
Qed.

Lemma allocateBuffer_ok (s : Sys) : (allocateBuffer s).1 = Ok tt.
Proof.
  change (wp allocateBuffer s (λ r _, r = Ok tt)).
  unfold allocateBuffer. by wp_run.
Qed.

Lemma freeBuffer_ok (s : Sys) : (freeBuffer s).1 = Ok tt.
Proof.
  change (wp freeBuffer s (λ r _, r = Ok tt)).
  unfold freeBuffer. by wp_run.
Qed.

Lemma wp_allocateBuffer s Φ :
  (∀ s', allocateBuffer s = (Ok tt, s') → Φ (Ok tt) s') →
  wp allocateBuffer s Φ.
Proof.
  intros HΦ. unfold wp. pose proof (allocateBuffer_ok s) as Hok.
  destruct (allocateBuffer s) as [r s']. cbn in *. subst r. by apply HΦ.
Qed.

Lemma wp_freeBuffer s Φ :
  (∀ s', freeBuffer s = (Ok tt, s') → Φ (Ok tt) s') → wp freeBuffer s Φ.
Proof.
  intros HΦ. unfold wp. pose proof (freeBuffer_ok s) as Hok.
  destruct (freeBuffer s) as [r s']. cbn in *. subst r. by apply HΦ.
Qed.

(** Symbolic execution of [forward], block by block. *)
Ltac wp_block :=
  lazymatch goal with
  | |- wp (isValidBatchSize _) _ _ => apply wp_isValidBatchSize; intros ?
  | |- wp (isValidSeqLen _) _ _ => apply wp_isValidSeqLen; intros ?
  | |- wp allocateBuffer _ _ => apply wp_allocateBuffer; intros ? ?
  | |- wp freeBuffer _ _ => apply wp_freeBuffer; intros ? ?
  | |- _ => wp_step
  end.

Ltac wp_forward :=
  unfold forward, project_output, attention, invokeTrtAddQkvBias, project_qkv;
  repeat wp_block.

(** The guards are the only source of their exceptions: past the batch
    guard, no [CheckFailed ChkBatchSize] is thrown. *)
Lemma forward_adopts_batch o i w in1 n (s : Sys) :
  i !! 1%nat = Some in1 → shape in1 !! 0%nat = Some n →
  max_batch_size_ (layer s) = 0 → n ≠ 0 →
  (forward o i w s).1 ≠ Throw (CheckFailed ChkBatchSize)
  ∧ max_batch_size_ (layer (forward o i w s).2) = n.
Proof.
  intros Hi Hs H0 Hn. split.
  - change (wp (forward o i w) s
              (λ r _, r ≠ Throw (CheckFailed ChkBatchSize))).
    wp_forward; congruence.
  - change (wp (forward o i w) s (λ _ s', max_batch_size_ (layer s') = n)).
    unfold forward. wp_step. wp_step; [|congruence].
    wp_step. wp_step; [|congruence].
    wp_step. apply wp_isValidBatchSize; [intros _|congruence].
    simplify_eq. apply (wp_steps stable); [solve_stable|].
    intros _ s' (_&_&_&_&_&_&_&_&Hb&_). rewrite Hb; done.
Qed.

(** A call whose sequence length is above the ceiling is refused by one of
    the two guards, before any allocation and before any device work. *)
Lemma forward_seq_len_rejected o i w in1 n (s : Sys) :
  i !! 1%nat = Some in1 → shape in1 !! 2%nat = Some n → 384 < n →
  wp (forward o i w) s
     (λ r s', (r = Throw (CheckFailed ChkBatchSize)
               ∨ r = Throw (CheckFailed ChkSeqLen))
              ∧ queue s' = queue s ∧ heap s' = heap s).
Proof.
  intros Hi Hs Hn.
  assert (is_Some (shape in1 !! 0%nat)) as [b Hb].
  { apply lookup_lt_is_Some. apply lookup_lt_Some in Hs. lia. }
  unfold forward. wp_step. wp_step; [|congruence].
  wp_step. wp_step; [|congruence].
  wp_step. wp_block; (wp_step; wp_step; [|by auto]).
  all: wp_step; wp_step; [|congruence]; wp_step; (wp_step; [|congruence]).
  all: simplify_eq; wp_step.
  all: wp_block; (wp_step; wp_step; [|by auto]).
  all: exfalso; match goal with H : _ && _ = true |- _ =>
         apply andb_true_iff in H; destruct H as [_ H];
         apply Z.leb_le in H; lia end.
Qed.

(** ** The claims about the capacity guards *)

(** C3: the batch-size check adopts the requested size when the capacity is
    unset (zero) and accepts; otherwise it accepts exactly when the size is
    at most the capacity and leaves the layer as it was.  A layer whose
    capacity is unset and that sees one call with batch size 4 passes that
    call's batch check, and after any further calls a call with batch size 5
    is refused by the batch check, with nothing else done. *)
Theorem isValidBatchSize_capacity :
  (∀ n (s : Sys), max_batch_size_ (layer s) = 0 →
     (isValidBatchSize n s).1 = Ok true
     ∧ max_batch_size_ (layer (isValidBatchSize n s).2) = n)
  ∧ (∀ n (s : Sys), max_batch_size_ (layer s) ≠ 0 →
       ∃ b, isValidBatchSize n s = (Ok b, s)
            ∧ (b = true ↔ n ≤ max_batch_size_ (layer s)))
  ∧ (∀ (s0 : Sys) o i w in1,
       max_batch_size_ (layer s0) = 0 →
       i !! 1%nat = Some in1 → shape in1 !! 0%nat = Some 4 →
       (forward o i w s0).1 ≠ Throw (CheckFailed ChkBatchSize)
       ∧ ∀ calls o' i' w' in1',
           i' !! 1%nat = Some in1' → shape in1' !! 0%nat = Some 5 →
           forward o' i' w' (run_calls calls (forward o i w s0).2)
           = (Throw (CheckFailed ChkBatchSize),
              run_calls calls (forward o i w s0).2)).
Proof.
  split; [|split].
  - intros n s H0. by rewrite isValidBatchSize_unset.
  - intros n s Hne. exists (n <=? max_batch_size_ (layer s)).
    split; [by apply isValidBatchSize_set|]. apply Z.leb_le.
  - intros s0 o i w in1 H0 Hi Hs.
    destruct (forward_adopts_batch o i w in1 4 s0) as [Hr Hmax]; try done.
    split; [done|]. intros calls o' i' w' in1' Hi' Hs'.
    pose proof (stable_run_calls calls (forward o i w s0).2) as Hst.
    destruct Hst as (_&_&_&_&_&_&_&_&Hb&_).
    rewrite Hmax in Hb. specialize (Hb ltac:(done)).
    apply (forward_batch_rejected _ _ _ in1' 5); try done; rewrite Hb; lia.
Qed.

(** C4: the sequence-length check adopts the requested length when the
    capacity is unset, and accepts exactly when the length is at most the
    capacity (as it is after the adoption) and at most 384.  Whatever the
    configured capacity, a call with sequence length 385 is refused by a
    guard and nothing is allocated or enqueued. *)
Theorem isValidSeqLen_ceiling :
  (∀ n (s : Sys),
     ∃ b, (isValidSeqLen n s).1 = Ok b
          ∧ (b = true ↔
             n ≤ max_seq_len_ (layer (isValidSeqLen n s).2) ∧ n ≤ 384)
          ∧ max_seq_len_ (layer (isValidSeqLen n s).2)
            = (if max_seq_len_ (layer s) =? 0 then n
               else max_seq_len_ (layer s)))
  ∧ (∀ (s : Sys) o i w in1,
       i !! 1%nat = Some in1 → shape in1 !! 2%nat = Some 385 →
       ((forward o i w s).1 = Throw (CheckFailed ChkBatchSize)
        ∨ (forward o i w s).1 = Throw (CheckFailed ChkSeqLen))
       ∧ queue (forward o i w s).2 = queue s
       ∧ heap (forward o i w s).2 = heap s).
Proof.
  split.
  - intros n s. destruct (decide (max_seq_len_ (layer s) = 0)) as [E|E].
    + rewrite isValidSeqLen_unset by done. cbn. rewrite E. cbn.
      eexists. split; [done|]. split; [|done].
      rewrite andb_true_iff, !Z.leb_le. done.
    + rewrite isValidSeqLen_set by done. cbn.
      destruct (Z.eqb_spec (max_seq_len_ (layer s)) 0); [done|].
      eexists. split; [done|]. split; [|done].
      rewrite andb_true_iff, !Z.leb_le. done.
  - intros s o i w in1 Hi Hs.
    by apply (forward_seq_len_rejected o i w in1 385 s).
Qed.

(** C9: on an unset capacity, a length above 384 is refused and all the same
    stored as the capacity; the capacity then stays at that length through
    any further calls, and every later check of a length of at most 384 is
    accepted.  The refused check does not leave the layer as it was. *)
Theorem isValidSeqLen_rejected_call_adopts n (s : Sys) :
  max_seq_len_ (layer s) = 0 → 384 < n →
  (isValidSeqLen n s).1 = Ok false
  ∧ max_seq_len_ (layer (isValidSeqLen n s).2) = n
  ∧ layer (isValidSeqLen n s).2 ≠ layer s
  ∧ ∀ calls m,
      max_seq_len_ (layer (run_calls calls (isValidSeqLen n s).2)) = n
      ∧ (m ≤ 384 →
         isValidSeqLen m (run_calls calls (isValidSeqLen n s).2)
         = (Ok true, run_calls calls (isValidSeqLen n s).2)).
Proof.
  intros H0 Hn. rewrite isValidSeqLen_unset by done. cbn [fst snd layer].
  split; [|split; [done|split]].
  - destruct (Z.leb_spec n 384); [lia|]. by rewrite andb_false_r.
  - intros E. apply (f_equal max_seq_len_) in E. cbn in E. lia.
  - intros calls m.
    pose proof (stable_run_calls calls
      (mkSys (set_max_seq_len_ n (layer s)) (runner_cfg s) (heap s) (queue s)))
      as (_&_&_&_&_&_&_&_&_&Hl).
    cbn in Hl. specialize (Hl ltac:(lia)). split; [done|].
    intros Hm. rewrite isValidSeqLen_set by (rewrite Hl; lia).
    rewrite Hl. f_equal. f_equal. apply andb_true_iff. rewrite !Z.leb_le. lia.
Qed.

(** ** Construction *)

Definition is_ok {X} (r : Res X) : Prop :=
  match r with Ok _ => True | Throw _ => False end.

Lemma supported_arch_spec sm size_per_head :
  supported_arch sm size_per_head = true ↔
  sm ∈ [kSM_70; kSM_72; kSM_75; kSM_80; kSM_86] ∧ size_per_head = 64.
Proof.
  unfold supported_arch.
  rewrite andb_true_iff, !orb_true_iff, !Z.eqb_eq, !elem_of_cons, elem_of_nil.
  tauto.
Qed.

Lemma FusedAttentionLayer_new_ok mb ms hn sph sm qs fr sp :
  is_ok (FusedAttentionLayer_new mb ms hn sph sm qs fr sp)
  ↔ supported_arch sm sph = true.
Proof.
  unfold FusedAttentionLayer_new. by destruct (supported_arch sm sph).
Qed.

Lemma FusedAttentionLayer_copy_ok (L0 : Layer) :
  is_ok (FusedAttentionLayer_copy L0)
  ↔ supported_arch (sm_ L0) (size_per_head_ L0) = true.
Proof.
  unfold FusedAttentionLayer_copy.
  by destruct (supported_arch (sm_ L0) (size_per_head_ L0)).
Qed.

(** C6: construction succeeds exactly for the supported pairs of hardware
    generation and per-head dimension, and throws for every other pair;
    whether it succeeds does not depend on any other argument.  On success
    the dispatch handle is the runner built from the construction arguments,
    and no sequence of calls on the layer changes it. *)
Theorem constructor_dispatch max_batch_size max_seq_len head_num size_per_head
    sm q_scaling is_free_buffer_after_forward sparse :
  let built := FusedAttentionLayer_new max_batch_size max_seq_len head_num
                 size_per_head sm q_scaling is_free_buffer_after_forward sparse in
  let matching :=
    sm ∈ [kSM_70; kSM_72; kSM_75; kSM_80; kSM_86] ∧ size_per_head = 64 in
  (matching →
     ∃ L, built = Ok L
          ∧ dispatcher_fp16 L
            = FusedMHARunnerFP16v2 head_num size_per_head sm q_scaling
          ∧ ∀ (a : A) calls,
              dispatcher_fp16 (layer (run_calls calls (new_sys L a)))
              = dispatcher_fp16 L)
  ∧ (¬ matching → built = Throw RuntimeError)
  ∧ (∀ max_batch_size' max_seq_len' head_num' q_scaling' free' sparse',
       is_ok (FusedAttentionLayer_new max_batch_size' max_seq_len' head_num'
                size_per_head sm q_scaling' free' sparse') ↔ is_ok built)
  ∧ (∀ L0 : Layer,
       sm_ L0 = sm → size_per_head_ L0 = size_per_head →
       is_ok (FusedAttentionLayer_copy L0) ↔ is_ok built).
Proof.
  intros built matching. subst built matching.
  rewrite <- supported_arch_spec.
  split; [|split; [|split]].
  - intros Hs. unfold FusedAttentionLayer_new. rewrite Hs.
    eexists. split; [done|]. split; [done|].
    intros a calls.
    by destruct (stable_run_calls calls
      (new_sys (mkLayer max_batch_size max_seq_len head_num size_per_head
         (wrap_u64 (head_num * size_per_head)) sm q_scaling sparse
         is_free_buffer_after_forward false
         (FusedMHARunnerFP16v2 head_num size_per_head sm q_scaling)
         nullptr nullptr nullptr nullptr nullptr nullptr nullptr nullptr
         nullptr) a)) as (_&_&_&_&_&_&_&Hd&_).
  - intros Hs. unfold FusedAttentionLayer_new.
    by destruct (supported_arch sm size_per_head).
  - intros. by rewrite !FusedAttentionLayer_new_ok.
  - intros L0 Hsm Hsph.
    by rewrite FusedAttentionLayer_copy_ok, FusedAttentionLayer_new_ok,
      Hsm, Hsph.
Qed.

(** ** The scratch-buffer lifecycle *)

(** The regions of the six scratch buffers and of the pointer table. *)
Definition scratch_regions (L : Layer) : list Z :=
  region <$> [q_buf_ L; k_buf_ L; v_buf_ L; qkv_buf_ L; qkv_buf_2_ L;
              attn_workspace_ L; batch_qkv_kernel_ptr_ L].

(** All seven regions are handed out to the layer and pairwise distinct. *)
Definition all_valid (s : Sys) : Prop :=
  (∀ r, r ∈ scratch_regions (layer s) → r ∈ alloc_live (heap s))
  ∧ NoDup (scratch_regions (layer s)).

(** None of the seven regions is handed out. *)
Definition none_valid (s : Sys) : Prop :=
  ∀ r, r ∈ scratch_regions (layer s) → r ∉ alloc_live (heap s).

(** The flag [is_allocate_buffer_] tells which of the two holds. *)
Definition buffers_consistent (s : Sys) : Prop :=
  if is_allocate_buffer_ (layer s) then all_valid s else none_valid s.

Definition keeps_buffers : relation Sys :=
  λ s s', buffers_consistent s → buffers_consistent s'.

#[local] Instance keeps_buffers_preorder : PreOrder keeps_buffers.
Proof. split; unfold keeps_buffers; [by intros ?|intros ???; auto]. Qed.

Lemma keeps_buffers_same (s s' : Sys) :
  is_allocate_buffer_ (layer s') = is_allocate_buffer_ (layer s) →
  scratch_regions (layer s') = scratch_regions (layer s) →
  heap s' = heap s →
  keeps_buffers s s'.
Proof.
  unfold keeps_buffers, buffers_consistent, all_valid, none_valid.
  by intros -> -> ->.
Qed.

Lemma keeps_buffers_enqueue op : steps keeps_buffers (enqueue op).
Proof. intros s. by apply keeps_buffers_same. Qed.

Lemma keeps_buffers_put_runner_cfg c : steps keeps_buffers (put_runner_cfg c).
Proof. intros s. by apply keeps_buffers_same. Qed.

Lemma keeps_buffers_isValidBatchSize n : steps keeps_buffers (isValidBatchSize n).
Proof.
  apply steps_wp. intros s. apply wp_isValidBatchSize; intros _;
    [by apply keeps_buffers_same|reflexivity].
Qed.

Lemma keeps_buffers_isValidSeqLen n : steps keeps_buffers (isValidSeqLen n).
Proof.
  apply steps_wp. intros s. apply wp_isValidSeqLen; intros _;
    [by apply keeps_buffers_same|reflexivity].
Qed.

(** Calling [allocateBuffer] on an allocated layer, or [freeBuffer] on an
    unallocated one, does nothing. *)
Lemma allocateBuffer_allocated (s : Sys) :
  is_allocate_buffer_ (layer s) = true → allocateBuffer s = (Ok tt, s).
Proof. intros E. unfold allocateBuffer, bind, get_layer. by rewrite E. Qed.

Lemma freeBuffer_unallocated (s : Sys) :
  is_allocate_buffer_ (layer s) = false → freeBuffer s = (Ok tt, s).
Proof. intros E. unfold freeBuffer, bind, get_layer. by rewrite E. Qed.

Lemma allocateBuffer_sets_flag (s : Sys) :
  is_allocate_buffer_ (layer (allocateBuffer s).2) = true.
Proof.
  change (wp allocateBuffer s (λ _ s', is_allocate_buffer_ (layer s') = true)).
  unfold allocateBuffer. wp_run; [done|].
  by destruct (is_allocate_buffer_ (layer s)).
Qed.

Lemma freeBuffer_clears_flag (s : Sys) :
  is_allocate_buffer_ (layer (freeBuffer s).2) = false.
Proof.
  change (wp freeBuffer s (λ _ s', is_allocate_buffer_ (layer s') = false)).
  unfold freeBuffer. by wp_run.
Qed.

Section Buffers.

Context `{allocator_laws : !IAllocatorLaws A}.

Lemma malloc_eq_spec sz z (h h' : A) p :
  alloc_malloc sz z h = (p, h') →
  (region p ∉ alloc_live h) ∧ alloc_live h' = {[ region p ]} ∪ alloc_live h.
Proof using allocator_laws.
  intros E. pose proof (malloc_fresh sz z h) as Hf.
  pose proof (malloc_live sz z h) as Hl. rewrite E in Hf, Hl. done.
Qed.

(** After the seven allocations every region is live and no two coincide. *)
Lemma allocateBuffer_valid (s : Sys) :
  is_allocate_buffer_ (layer s) = false → all_valid (allocateBuffer s).2.
Proof using allocator_laws.
  intros E.
  change (wp allocateBuffer s (λ _ s', all_valid s')).
  unfold allocateBuffer. wp_step. wp_step. rewrite E. cbn [negb].
  wp_run.
  repeat match goal with
         | H : alloc_malloc _ _ _ = _ |- _ =>
             apply malloc_eq_spec in H; destruct H as [? ?]
         end.
  cbn [heap] in *.
  unfold all_valid, scratch_regions.
  cbn [layer heap fmap list_fmap set_is_allocate_buffer_ set_buffers q_buf_
    k_buf_ v_buf_ qkv_buf_ qkv_buf_2_ attn_workspace_ batch_qkv_kernel_ptr_].
  repeat match goal with
         | H : alloc_live ?h = _ |- _ => rewrite H in *; clear H
         end.
  split.
  - intros r Hr. set_solver.
  - repeat (apply NoDup_cons; split; [set_solver|]). apply NoDup_nil_2.
Qed.

(** After the seven releases no region is live. *)
Lemma freeBuffer_none_valid (s : Sys) :
  is_allocate_buffer_ (layer s) = true → none_valid (freeBuffer s).2.
Proof using allocator_laws.
  intros E.
  change (wp freeBuffer s (λ _ s', none_valid s')).
  unfold freeBuffer. wp_step. wp_step. rewrite E.
  wp_run. unfold none_valid, scratch_regions. cbn.
  rewrite !free_live. intros r Hr. set_solver.
Qed.

Lemma keeps_buffers_allocateBuffer : steps keeps_buffers allocateBuffer.
Proof using allocator_laws.
  intros s Hs. unfold buffers_consistent. rewrite allocateBuffer_sets_flag.
  destruct (is_allocate_buffer_ (layer s)) eqn:E.
  - rewrite allocateBuffer_allocated by done.
    unfold buffers_consistent in Hs. by rewrite E in Hs.
  - by apply allocateBuffer_valid.
Qed.

Lemma keeps_buffers_freeBuffer : steps keeps_buffers freeBuffer.
Proof using allocator_laws.
  intros s Hs. unfold buffers_consistent. rewrite freeBuffer_clears_flag.
  destruct (is_allocate_buffer_ (layer s)) eqn:E.
  - by apply freeBuffer_none_valid.
  - rewrite freeBuffer_unallocated by done.
    unfold buffers_consistent in Hs. by rewrite E in Hs.
Qed.

Lemma keeps_buffers_forward o i w : steps keeps_buffers (forward o i w).
Proof using allocator_laws.
  unfold forward, project_output, attention, invokeTrtAddQkvBias, project_qkv.
  steps_go;
    first [ apply keeps_buffers_enqueue | apply keeps_buffers_put_runner_cfg
          | apply keeps_buffers_isValidBatchSize
          | apply keeps_buffers_isValidSeqLen
          | apply keeps_buffers_allocateBuffer | apply keeps_buffers_freeBuffer ].
Qed.

Lemma keeps_buffers_run_calls cs : ∀ s, keeps_buffers s (run_calls cs s).
Proof using allocator_laws.
  induction cs as [|c cs IH]; intros s; cbn; [reflexivity|].
  etrans; [|apply IH]. destruct c; cbn.
  - apply keeps_buffers_forward.
  - apply keeps_buffers_allocateBuffer.
  - apply keeps_buffers_freeBuffer.
Qed.

(** C5: allocating twice is allocating once; releasing an unallocated layer
    changes nothing; allocate, release, allocate ends allocated with all
    seven regions valid; and from a layer fresh out of the constructor, on
    an allocator that has not handed out the null region, every sequence of
    calls ends with all seven regions valid when the flag is set and none of
    them valid when it is not. *)
Theorem buffer_lifecycle :
  (∀ s : Sys, (allocateBuffer ;;; allocateBuffer) s = allocateBuffer s)
  ∧ (∀ s : Sys, is_allocate_buffer_ (layer s) = false →
       freeBuffer s = (Ok tt, s))
  ∧ (∀ s : Sys,
       let s' := ((allocateBuffer ;;; freeBuffer ;;; allocateBuffer) s).2 in
       ((allocateBuffer ;;; freeBuffer ;;; allocateBuffer) s).1 = Ok tt
       ∧ is_allocate_buffer_ (layer s') = true ∧ all_valid s')
  ∧ (∀ (s : Sys) calls,
       buffers_consistent s →
       let s' := run_calls calls s in
       if is_allocate_buffer_ (layer s') then all_valid s' else none_valid s')
  ∧ (∀ mb ms hn sph sm qs fr sp L (a : A),
       FusedAttentionLayer_new mb ms hn sph sm qs fr sp = Ok L →
       0 ∉ alloc_live a →
       buffers_consistent (new_sys L a)).
Proof using allocator_laws.
  split; [|split; [|split; [|split]]].
  - intros s. unfold bind at 1.
    pose proof (allocateBuffer_ok s) as Hok.
    pose proof (allocateBuffer_sets_flag s) as Hflag.
    destruct (allocateBuffer s) as [r s']. cbn in *. subst r.
    by apply allocateBuffer_allocated.
  - apply freeBuffer_unallocated.
  - intros s. cbv zeta. unfold bind.
    pose proof (allocateBuffer_ok s) as Hok1.
    destruct (allocateBuffer s) as [r1 s1]. cbn in Hok1. subst r1.
    pose proof (freeBuffer_ok s1) as Hok2.
    pose proof (freeBuffer_clears_flag s1) as Hflag2.
    destruct (freeBuffer s1) as [r2 s2]. cbn in Hok2, Hflag2. subst r2.
    split; [apply allocateBuffer_ok|]. split; [apply allocateBuffer_sets_flag|].
    by apply allocateBuffer_valid.
  - intros s calls Hs. apply (keeps_buffers_run_calls calls s Hs).
  - intros mb ms hn sph sm qs fr sp L a HL Ha.
    unfold FusedAttentionLayer_new in HL.
    destruct (supported_arch sm sph); [|done]. simplify_eq.
    unfold buffers_consistent, none_valid, scratch_regions. cbn.
    intros r Hr. set_solver.
Qed.

End Buffers.

(** ** The operations of a forward call *)

(** The state in which the body of [forward] runs: after both guards and
    the allocation. *)
Definition ready_state (batch len : Z) (s : Sys) : Sys :=
  (allocateBuffer (isValidSeqLen len (isValidBatchSize batch s).2).2).2.

(** A call with its four tensors and their dimensions in place, accepted by
    both guards. *)
Record accepted_call (s : Sys) (o i : list Tensor)
    (out0 in0 in1 in2 : Tensor) (rows batch len : Z) : Prop := {
  call_out0 : o !! 0%nat = Some out0;
  call_in0 : i !! 0%nat = Some in0;
  call_in1 : i !! 1%nat = Some in1;
  call_in2 : i !! 2%nat = Some in2;
  call_rows : shape in0 !! 0%nat = Some rows;
  call_batch : shape in1 !! 0%nat = Some batch;
  call_len : shape in1 !! 2%nat = Some len;
  call_batch_ok : (isValidBatchSize batch s).1 = Ok true;
  call_len_ok : (isValidSeqLen len (isValidBatchSize batch s).2).1 = Ok true }.

(** The operations of lines 99-171, by strategy. *)
Definition sparse_qkv_ops (L : Layer) (w : AttentionWeight) (from_tensor : ptr)
    (n m_padded k : Z) : list Op :=
  [SpGemm n m_padded k (sp_kernel (query_weight w)) from_tensor (q_buf_ L);
   SpGemm n m_padded k (sp_kernel (key_weight w)) from_tensor (k_buf_ L);
   SpGemm n m_padded k (sp_kernel (value_weight w)) from_tensor (v_buf_ L)].

Definition batched_qkv_ops (L : Layer) (w : AttentionWeight) (from_tensor : ptr)
    (n m k : Z) : list Op :=
  [MemcpyAsync (batch_qkv_kernel_ptr_ L)
     [kernel (query_weight w); kernel (key_weight w); kernel (value_weight w);
      nullptr; from_tensor; from_tensor; from_tensor; nullptr;
      q_buf_ L; k_buf_ L; v_buf_ L; nullptr] (8 * 12);
   BatchedGemm n m k (batch_qkv_kernel_ptr_ L) n (batch_qkv_input_ptr_ L) k
     (batch_qkv_buf_ptr_ L) n 3].

Definition dense_qkv_ops (L : Layer) (w : AttentionWeight) (from_tensor : ptr)
    (n m k : Z) : list Op :=
  [Gemm n m k (kernel (query_weight w)) n from_tensor k (q_buf_ L) n;
   Gemm n m k (kernel (key_weight w)) n from_tensor k (k_buf_ L) n;
   Gemm n m k (kernel (value_weight w)) n from_tensor k (v_buf_ L) n].

Inductive Strategy : Type := Sparse | Batched | Dense.

Definition qkv_ops (st : Strategy) (L : Layer) (w : AttentionWeight)
    (from_tensor : ptr) (n m m_padded k : Z) : list Op :=
  match st with
  | Sparse => sparse_qkv_ops L w from_tensor n m_padded k
  | Batched => batched_qkv_ops L w from_tensor n m k
  | Dense => dense_qkv_ops L w from_tensor n m k
  end.

(** The strategy [forward] takes for the input projections. *)
Definition chosen_strategy (L : Layer) (n m k : Z) : Strategy :=
  if SPARSITY_ENABLED && (sparse_ L && isUseSparse 1 n m k) then Sparse
  else if isFuseBatchGemm 3 n m k then Batched
  else Dense.

Definition launch_op (L : Layer) (token_num : Z) (w : AttentionWeight) : Op :=
  Launch_trt_add_QKV_bias (wrap_u32 token_num)
    (wrap_u32 (wrap_u64 (head_num_ L * size_per_head_ L) / 2))
    (qkv_buf_ L) (q_buf_ L) (bias (query_weight w))
    (k_buf_ L) (bias (key_weight w)) (v_buf_ L) (bias (value_weight w))
    (wrap_i32 token_num) (wrap_i32 (head_num_ L))
    (wrap_i32 (size_per_head_ L / 2)).

Definition mha_op (L : Layer) (S B : Z) (in2 : Tensor) : Op :=
  MHARun (dispatcher_fp16 L) (Some (S, B)) (qkv_buf_ L) nullptr (data in2)
    (attn_workspace_ L) (qkv_buf_2_ L).

Definition output_op (L : Layer) (w : AttentionWeight) (attention_out : ptr)
    (n m m_padded k : Z) : Op :=
  if sparse_branch L n m k then
    SpGemm n m_padded k (sp_kernel (attention_output_weight w)) (qkv_buf_2_ L)
      attention_out
  else
    Gemm n m k (kernel (attention_output_weight w)) n (qkv_buf_2_ L) k
      attention_out n.

(** Several operations appended to the queue. *)
Definition with_queue (s : Sys) (ops : list Op) : Sys :=
  mkSys (layer s) (runner_cfg s) (heap s) (queue s ++ ops).

Lemma with_queue_app s ops1 ops2 :
  with_queue (with_queue s ops1) ops2 = with_queue s (ops1 ++ ops2).
Proof. unfold with_queue. cbn. by rewrite <- app_assoc. Qed.

Lemma enqueue_run op (s : Sys) : enqueue op s = (Ok tt, with_queue s [op]).
Proof. done. Qed.

Lemma project_qkv_run L w from n m mp k (s : Sys) :
  project_qkv L w from n m mp k s
  = (Ok tt, with_queue s (qkv_ops (chosen_strategy L n m k) L w from n m mp k)).
Proof.
  unfold project_qkv, chosen_strategy, sparse_branch.
  destruct (SPARSITY_ENABLED && (sparse_ L && isUseSparse 1 n m k));
    [|destruct (isFuseBatchGemm 3 n m k)];
    unfold bind; rewrite !enqueue_run, !with_queue_app; done.
Qed.

Lemma project_output_run L w out n m mp k (s : Sys) :
  project_output L w out n m mp k s
  = (Ok tt, with_queue s [output_op L w out n m mp k]).
Proof.
  unfold project_output, output_op. by destruct (sparse_branch L n m k).
Qed.

Lemma invokeTrtAddQkvBias_run m w (s : Sys) :
  invokeTrtAddQkvBias m w s
  = if wrap_u32 (wrap_u64 (head_num_ (layer s) * size_per_head_ (layer s)) / 2)
       <=? 1024
    then (Ok tt, with_queue s [launch_op (layer s) m w])
    else (Throw AssertFailed, s).
Proof.
  unfold invokeTrtAddQkvBias, bind, get_layer, assert.
  by destruct (_ <=? 1024).
Qed.

Lemma attention_run L len in2 (s : Sys) :
  attention L len in2 s
  = let S := getSFromMaxSeqLen (dispatcher_fp16 L) len in
    if isValid (dispatcher_fp16 L) S then
      match shape in2 !! 0%nat with
      | Some d =>
          let B := wrap_i32 (wrap_u64 (d - 1)) in
          (Ok tt, mkSys (layer s) (Some (S, B)) (heap s)
                    (queue s ++ [mha_op L S B in2]))
      | None => (Throw UndefinedBehavior, s)
      end
    else (Throw (CheckFailed ChkTileClass), s).
Proof.
  unfold attention, bind, FT_CHECK, shape_idx. cbv zeta.
  destruct (isValid _ _); [|done]. by destruct (shape in2 !! 0%nat).
Qed.

Lemma bind_vec_at_some {Y} v i t (f : Tensor → M Y) (s : Sys) :
  v !! i = Some t → bind (vec_at v i) f s = f t s.
Proof. intros E. unfold bind, vec_at. by rewrite E. Qed.

Lemma bind_shape_idx_some {Y} t i d (f : Z → M Y) (s : Sys) :
  shape t !! i = Some d → bind (shape_idx t i) f s = f d s.
Proof. intros E. unfold bind, shape_idx. by rewrite E. Qed.

Lemma bind_ok {X Y} (c : M X) (f : X → M Y) (s : Sys) x :
  (c s).1 = Ok x → bind c f s = f x (c s).2.
Proof. unfold bind. destruct (c s) as [[?|?] ?]; cbn; congruence. Qed.

(** Guards and allocation leave the queue and the runner alone. *)
Definition host_only : relation Sys :=
  λ s s', queue s' = queue s ∧ runner_cfg s' = runner_cfg s.

#[local] Instance host_only_preorder : PreOrder host_only.
Proof.
  split; [by intros ?|].
  intros s1 s2 s3 [??] [??]. split; congruence.
Qed.

Lemma host_only_isValidBatchSize n : steps host_only (isValidBatchSize n).
Proof. apply steps_wp. intros s. by apply wp_isValidBatchSize. Qed.

Lemma host_only_isValidSeqLen n : steps host_only (isValidSeqLen n).
Proof. apply steps_wp. intros s. by apply wp_isValidSeqLen. Qed.

Lemma host_only_allocateBuffer : steps host_only allocateBuffer.
Proof. apply steps_wp. intros s. unfold allocateBuffer. by wp_run. Qed.

Lemma host_only_freeBuffer : steps host_only freeBuffer.
Proof. apply steps_wp. intros s. unfold freeBuffer. by wp_run. Qed.

Lemma ready_state_host_only batch len (s : Sys) :
  host_only s (ready_state batch len s).
Proof.
  unfold ready_state.
  etrans; [apply host_only_isValidBatchSize|].
  etrans; [apply host_only_isValidSeqLen|]. apply host_only_allocateBuffer.
Qed.

Lemma ready_state_stable batch len (s : Sys) :
  stable s (ready_state batch len s).
Proof.
  unfold ready_state.
  etrans; [apply stable_isValidBatchSize|].
  etrans; [apply stable_isValidSeqLen|]. apply stable_allocateBuffer.
Qed.

(** Lines 173-212 of an accepted call. *)
Definition forward_rest (L : Layer) (w : AttentionWeight) (out0 in2 : Tensor)
    (len rows : Z) : M unit :=
  let n := wrap_i32 (hidden_units_ L) in
  invokeTrtAddQkvBias rows w ;;;
  attention L len in2 ;;;
  project_output L w (data out0) n rows (m_tmp rows) n ;;;
  if is_free_buffer_after_forward_ L then freeBuffer else ret tt.

Lemma forward_accepted (s : Sys) o i w out0 in0 in1 in2 rows batch len :
  accepted_call s o i out0 in0 in1 in2 rows batch len →
  let s2 := ready_state batch len s in
  let L := layer s2 in
  let n := wrap_i32 (hidden_units_ L) in
  forward o i w s
  = forward_rest L w out0 in2 (wrap_i32 len) rows
      (with_queue s2 (qkv_ops (chosen_strategy L n rows n) L w (data in0)
                        n rows (m_tmp rows) n)).
Proof.
  intros [Ho Hi0 Hi1 Hi2 Hrows Hbatch Hlen Hb Hl]. cbv zeta.
  unfold forward.
  rewrite (bind_vec_at_some _ _ _ _ _ Hi1).
  rewrite (bind_shape_idx_some _ _ _ _ _ Hbatch).
  rewrite (bind_ok _ _ _ _ Hb). unfold FT_CHECK at 1.
  rewrite (bind_ok (ret tt) _ _ tt eq_refl). cbn [ret snd].
  rewrite (bind_vec_at_some _ _ _ _ _ Hi1).
  rewrite (bind_shape_idx_some _ _ _ _ _ Hlen).
  rewrite (bind_ok _ _ _ _ Hl). unfold FT_CHECK at 1.
  rewrite (bind_ok (ret tt) _ _ tt eq_refl). cbn [ret snd].
  rewrite (bind_ok _ _ _ _ (allocateBuffer_ok _)).
  fold (ready_state batch len s).
  rewrite (bind_vec_at_some _ _ _ _ _ Ho).
  rewrite (bind_vec_at_some _ _ _ _ _ Hi0).
  rewrite (bind_vec_at_some _ _ _ _ _ Hi1).
  rewrite (bind_vec_at_some _ _ _ _ _ Hi2).
  rewrite (bind_shape_idx_some _ _ _ _ _ Hbatch).
  rewrite (bind_shape_idx_some _ _ _ _ _ Hlen).
  rewrite (bind_shape_idx_some _ _ _ _ _ Hrows).
  unfold bind at 1. cbn [get_layer].
  unfold bind at 1. rewrite project_qkv_run. done.
Qed.

(** What an accepted call enqueues, and how it ends. *)
Definition launch_fits (L : Layer) : bool :=
  wrap_u32 (wrap_u64 (head_num_ L * size_per_head_ L) / 2) <=? 1024.

Definition attention_ops (L : Layer) (w : AttentionWeight) (out0 in2 : Tensor)
    (len rows : Z) : list Op :=
  let n := wrap_i32 (hidden_units_ L) in
  let S := getSFromMaxSeqLen (dispatcher_fp16 L) len in
  if launch_fits L then
    launch_op L rows w ::
    (if isValid (dispatcher_fp16 L) S then
       match shape in2 !! 0%nat with
       | Some d => [mha_op L S (wrap_i32 (wrap_u64 (d - 1))) in2;
                    output_op L w (data out0) n rows (m_tmp rows) n]
       | None => []
       end
     else [])
  else [].

Definition forward_result (L : Layer) (in2 : Tensor) (len : Z) : Res unit :=
  let S := getSFromMaxSeqLen (dispatcher_fp16 L) len in
  if launch_fits L then
    if isValid (dispatcher_fp16 L) S then
      match shape in2 !! 0%nat with
      | Some d => Ok tt
      | None => Throw UndefinedBehavior
      end
    else Throw (CheckFailed ChkTileClass)
  else Throw AssertFailed.

Definition forward_cfg (L : Layer) (in2 : Tensor) (len : Z)
    (old : option (Z * Z)) : option (Z * Z) :=
  let S := getSFromMaxSeqLen (dispatcher_fp16 L) len in
  if launch_fits L && isValid (dispatcher_fp16 L) S then
    match shape in2 !! 0%nat with
    | Some d => Some (S, wrap_i32 (wrap_u64 (d - 1)))
    | None => old
    end
  else old.

Lemma forward_rest_run L w out0 in2 len rows (s : Sys) :
  layer s = L →
  ∃ s', forward_rest L w out0 in2 len rows s = (forward_result L in2 len, s')
        ∧ queue s' = queue s ++ attention_ops L w out0 in2 len rows
        ∧ runner_cfg s' = forward_cfg L in2 len (runner_cfg s).
Proof.
  intros HL. unfold forward_rest, forward_result, attention_ops, forward_cfg,
    launch_fits. cbv zeta.
  unfold bind at 1. rewrite invokeTrtAddQkvBias_run, HL.
  destruct (_ <=? 1024); [|eexists; by rewrite app_nil_r].
  unfold bind at 1. rewrite attention_run. cbv zeta. cbn [andb].
  destruct (isValid _ _); [|by eexists].
  destruct (shape in2 !! 0%nat) as [d|]; [|by eexists].
  unfold bind at 1. rewrite project_output_run.
  destruct (is_free_buffer_after_forward_ L).
  - match goal with |- ∃ s', freeBuffer ?s0 = _ ∧ _ =>
      pose proof (freeBuffer_ok s0) as Hok;
      destruct (host_only_freeBuffer s0) as [Hq Hc];
      destruct (freeBuffer s0) as [r s'] end.
    cbn in Hok, Hq, Hc. subst r. exists s'. split; [done|].
    rewrite Hq, Hc. by rewrite <- !app_assoc.
  - eexists. split; [done|]. cbn. by rewrite <- !app_assoc.
Qed.

(** The result, the new operations and the runner configuration of an
    accepted call. *)
Lemma forward_accepted_run (s : Sys) o i w out0 in0 in1 in2 rows batch len :
  accepted_call s o i out0 in0 in1 in2 rows batch len →
  let L := layer (ready_state batch len s) in
  let n := wrap_i32 (hidden_units_ L) in
  (forward o i w s).1 = forward_result L in2 (wrap_i32 len)
  ∧ queue (forward o i w s).2
    = queue s ++ qkv_ops (chosen_strategy L n rows n) L w (data in0)
                   n rows (m_tmp rows) n
              ++ attention_ops L w out0 in2 (wrap_i32 len) rows
  ∧ runner_cfg (forward o i w s).2
    = forward_cfg L in2 (wrap_i32 len) (runner_cfg s).
Proof.
  intros Hcall. cbv zeta. rewrite (forward_accepted _ _ _ _ _ _ _ _ _ _ _ Hcall).
  cbv zeta.
  destruct (ready_state_host_only batch len s) as [Hq Hc].
  match goal with |- context [forward_rest ?L ?w ?o ?i2 ?l ?r ?s0] =>
    destruct (forward_rest_run L w o i2 l r s0 eq_refl) as (s'&->&Hq'&Hc') end.
  cbn [fst snd]. rewrite Hq', Hc'. cbn [with_queue queue runner_cfg].
  by rewrite Hq, Hc, <- app_assoc.
Qed.

(** ** The claims about the forward call *)

(** What a call added to the queue. *)
Definition new_ops (s s' : Sys) : list Op := drop (length (queue s)) (queue s').

Lemma new_ops_app (s s' : Sys) ops :
  queue s' = queue s ++ ops → new_ops s s' = ops.
Proof. intros E. unfold new_ops. by rewrite E, drop_app_length. Qed.

(** The operations issued before the bias-fusion launch. *)
Fixpoint before_launch (ops : list Op) : list Op :=
  match ops with
  | [] => []
  | Launch_trt_add_QKV_bias _ _ _ _ _ _ _ _ _ _ _ _ :: _ => []
  | op :: ops => op :: before_launch ops
  end.

(** The strategy a sequence of projection operations belongs to. *)
Definition qkv_strategy (ops : list Op) : option Strategy :=
  match ops with
  | [SpGemm _ _ _ _ _ _; SpGemm _ _ _ _ _ _; SpGemm _ _ _ _ _ _] => Some Sparse
  | [MemcpyAsync _ _ _; BatchedGemm _ _ _ _ _ _ _ _ _ _] => Some Batched
  | [Gemm _ _ _ _ _ _ _ _ _; Gemm _ _ _ _ _ _ _ _ _; Gemm _ _ _ _ _ _ _ _ _] =>
      Some Dense
  | _ => None
  end.

Lemma before_launch_forward st L w from n m mp k out0 in2 len rows :
  before_launch (qkv_ops st L w from n m mp k
                 ++ attention_ops L w out0 in2 len rows)
  = qkv_ops st L w from n m mp k.
Proof.
  unfold attention_ops. cbv zeta.
  destruct st; cbn; by destruct (launch_fits L).
Qed.

(** C2 (as amended): on every call that the guards accept, the operations
    issued for the input projections are those of exactly one strategy: the
    three sparse matmuls when sparsity is compiled in, the layer's sparsity
    flag is set and the provider reports the shape (hidden, rows, hidden) as
    favourable for sparsity; otherwise the table copy and the one batched
    matmul when the provider reports batching as favourable; otherwise the
    three dense matmuls. *)
Theorem projection_strategy (s : Sys) o i w out0 in0 in1 in2 rows batch len :
  accepted_call s o i out0 in0 in1 in2 rows batch len →
  let L := layer (ready_state batch len s) in
  let n := wrap_i32 (hidden_units_ L) in
  let issued := before_launch (new_ops s (forward o i w s).2) in
  let st := if SPARSITY_ENABLED && (sparse_ L && isUseSparse 1 n rows n)
            then Sparse
            else if isFuseBatchGemm 3 n rows n then Batched else Dense in
  qkv_strategy issued = Some st
  ∧ issued = qkv_ops st L w (data in0) n rows (m_tmp rows) n
  ∧ sparse_ L = sparse_ (layer s) ∧ hidden_units_ L = hidden_units_ (layer s).
Proof.
  intros Hcall. cbv zeta.
  destruct (forward_accepted_run _ _ _ w _ _ _ _ _ _ _ Hcall) as (_&Hq&_).
  cbv zeta in Hq. rewrite (new_ops_app _ _ _ Hq), before_launch_forward.
  fold (chosen_strategy (layer (ready_state batch len s))
          (wrap_i32 (hidden_units_ (layer (ready_state batch len s)))) rows
          (wrap_i32 (hidden_units_ (layer (ready_state batch len s))))).
  split; [by destruct (chosen_strategy _ _ _ _)|]. split; [done|].
  by destruct (ready_state_stable batch len s) as (_&_&?&_&_&?&_).
Qed.

(** *** The padded row count *)

Lemma m_tmp_spec m :
  0 ≤ m ≤ 2 ^ 64 - 8 →
  m_tmp m mod 8 = 0 ∧ m ≤ m_tmp m
  ∧ ∀ p, p mod 8 = 0 → m ≤ p → m_tmp m ≤ p.
Proof.
  intros Hm. unfold m_tmp, wrap_u64.
  destruct (Z.eqb_spec (m mod 8) 0) as [E|E]; cbn [negb].
  - repeat split; [done|lia|auto].
  - pose proof (Z.div_mod m 8 ltac:(lia)) as Hdm.
    pose proof (Z.mod_pos_bound m 8 ltac:(lia)) as Hb.
    rewrite (Z.mod_small ((m / 8 + 1) * 8)) by lia.
    repeat split.
    + by rewrite Z.mod_mul.
    + lia.
    + intros p Hp Hle.
      pose proof (Z.div_mod p 8 ltac:(lia)) as Hdp. rewrite Hp in Hdp. lia.
Qed.

(** Every sparse matmul that a call enqueues takes the padded row count. *)
Definition padded_sparse (i : list Tensor) (op : Op) : Prop :=
  ∀ n m k A B C, op = SpGemm n m k A B C →
    ∃ in0 rows, i !! 0%nat = Some in0 ∧ shape in0 !! 0%nat = Some rows
                ∧ m = m_tmp rows.

Definition enqueues (P : Op → Prop) : relation Sys :=
  λ s s', ∃ ops, queue s' = queue s ++ ops ∧ Forall P ops.

#[local] Instance enqueues_preorder P : PreOrder (enqueues P).
Proof.
  split.
  - intros s. exists []. by rewrite app_nil_r.
  - intros s1 s2 s3 (ops1&E1&F1) (ops2&E2&F2). exists (ops1 ++ ops2).
    split; [by rewrite E2, E1, app_assoc|by apply Forall_app].
Qed.

Lemma enqueues_host_only P {X} (c : M X) :
  steps host_only c → steps (enqueues P) c.
Proof.
  intros Hc s. destruct (Hc s) as [Hq _]. exists [].
  by rewrite Hq, app_nil_r.
Qed.

Lemma enqueues_enqueue (P : Op → Prop) op : P op → steps (enqueues P) (enqueue op).
Proof. intros HP s. exists [op]. split; [done|by constructor]. Qed.

Lemma enqueues_put_runner_cfg P c : steps (enqueues P) (put_runner_cfg c).
Proof. intros s. exists []. by rewrite app_nil_r. Qed.

Lemma forward_padded_sparse o i w :
  steps (enqueues (padded_sparse i)) (forward o i w).
Proof.
  unfold forward, project_output, attention, invokeTrtAddQkvBias, project_qkv.
  steps_go;
    first [ apply enqueues_put_runner_cfg
          | apply enqueues_host_only;
            first [ apply host_only_isValidBatchSize
                  | apply host_only_isValidSeqLen
                  | apply host_only_allocateBuffer
                  | apply host_only_freeBuffer ]
          | apply enqueues_enqueue; intros ? ? ? ? ? ? ?; simplify_eq; eauto ].
Qed.

(** C7: for every row count m (within the range of [size_t] that leaves
    room for the rounding), the padded count is the least multiple of 8 that
    is at least m; every sparse matmul that a forward call enqueues takes
    the padded count of the call's row count as its row argument; and a
    call that passes the guards and takes the sparse path enqueues first
    the three sparse matmuls for the query, key and value projections with
    the padded count, whatever happens later in the call.  When the launch
    fits, the runner supports the tile class and the third input has its
    dimension, the call returns, and what follows the three matmuls is the
    launch, the attention kernel and the sparse matmul of the output
    projection, again with the padded count; and a call that returns has
    enqueued these four sparse matmuls. *)
Theorem sparse_padded_row_count :
  (∀ m, 0 ≤ m ≤ 2 ^ 64 - 8 →
     m_tmp m mod 8 = 0 ∧ m ≤ m_tmp m
     ∧ ∀ p, p mod 8 = 0 → m ≤ p → m_tmp m ≤ p)
  ∧ (∀ (s : Sys) o i w op n m k pA pB pC,
       op ∈ new_ops s (forward o i w s).2 → op = SpGemm n m k pA pB pC →
       ∃ in0 rows, i !! 0%nat = Some in0 ∧ shape in0 !! 0%nat = Some rows
                   ∧ m = m_tmp rows)
  ∧ (∀ (s : Sys) o i w out0 in0 in1 in2 rows batch len,
       accepted_call s o i out0 in0 in1 in2 rows batch len →
       let L := layer (ready_state batch len s) in
       let n := wrap_i32 (hidden_units_ L) in
       let S := getSFromMaxSeqLen (dispatcher_fp16 L) (wrap_i32 len) in
       let output :=
         SpGemm n (m_tmp rows) n (sp_kernel (attention_output_weight w))
           (qkv_buf_2_ L) (data out0) in
       sparse_branch L n rows n = true →
       ∃ rest,
         new_ops s (forward o i w s).2
         = [SpGemm n (m_tmp rows) n (sp_kernel (query_weight w)) (data in0)
              (q_buf_ L);
            SpGemm n (m_tmp rows) n (sp_kernel (key_weight w)) (data in0)
              (k_buf_ L);
            SpGemm n (m_tmp rows) n (sp_kernel (value_weight w)) (data in0)
              (v_buf_ L)] ++ rest
         ∧ (∀ npad,
              launch_fits L = true → isValid (dispatcher_fp16 L) S = true →
              shape in2 !! 0%nat = Some npad →
              (forward o i w s).1 = Ok tt
              ∧ rest = [launch_op L rows w;
                        mha_op L S (wrap_i32 (wrap_u64 (npad - 1))) in2;
                        output])
         ∧ ((forward o i w s).1 = Ok tt →
            ∃ launch mha, rest = [launch; mha; output])).
Proof.
  split; [exact m_tmp_spec|split].
  - intros s o i w op n m k pA pB pC Hop Hsp.
    destruct (forward_padded_sparse o i w s) as (ops&Hq&Hall).
    rewrite (new_ops_app _ _ _ Hq) in Hop.
    rewrite Forall_forall in Hall. by apply (Hall op Hop n m k pA pB pC).
  - intros s o i w out0 in0 in1 in2 rows batch len Hcall. cbv zeta.
    intros Hsp.
    destruct (forward_accepted_run _ _ _ w _ _ _ _ _ _ _ Hcall) as (Hr&Hq&_).
    cbv zeta in Hr, Hq. rewrite (new_ops_app _ _ _ Hq), Hr.
    exists (attention_ops (layer (ready_state batch len s)) w out0 in2
              (wrap_i32 len) rows).
    unfold chosen_strategy, attention_ops, forward_result, output_op.
    cbv zeta. rewrite Hsp.
    unfold sparse_branch in Hsp. rewrite Hsp.
    split; [done|split].
    + intros npad -> -> ->. done.
    + destruct (launch_fits _); [|done]. destruct (isValid _ _); [|done].
      destruct (shape in2 !! 0%nat); [|done]. intros _. by eexists _, _.
Qed.

(** *** The tile class and the batch of the attention kernel *)

Lemma least_class_from_Some len cs c :
  least_class_from len cs = Some c →
  c ∈ cs ∧ len ≤ c ∧ ∀ c', c' ∈ cs → len ≤ c' → c ≤ c'.
Proof.
  revert c. induction cs as [|x cs IH]; intros c; [done|].
  unfold least_class_from. cbn [foldr]. fold (least_class_from len cs).
  destruct (Z.leb_spec len x) as [Hle|Hlt].
  - destruct (least_class_from len cs) as [a|] eqn:Ea; cbn [from_option];
      intros [= <-].
    + destruct (IH a eq_refl) as (Hin&Hge&Hmin).
      split; [|split; [lia|]].
      * destruct (Z.min_spec x a) as [[_ ->]|[_ ->]];
          [apply list_elem_of_here|by apply list_elem_of_further].
      * intros c' [->|Hc']%elem_of_cons Hlen; [lia|].
        specialize (Hmin c' Hc' Hlen). lia.
    + split; [apply list_elem_of_here|]. split; [done|].
      intros c' [->|Hc']%elem_of_cons Hlen; [lia|].
      exfalso. clear IH. induction cs as [|y cs IH']; [by inversion Hc'|].
      unfold least_class_from in Ea. cbn [foldr] in Ea.
      fold (least_class_from len cs) in Ea.
      destruct (Z.leb_spec len y); [done|].
      apply elem_of_cons in Hc' as [->|Hc']; [lia|by apply IH'].
  - intros Hc. destruct (IH c Hc) as (Hin&Hge&Hmin).
    split; [by apply list_elem_of_further|]. split; [done|].
    intros c' [->|Hc']%elem_of_cons Hlen; [lia|by apply Hmin].
Qed.

Lemma least_class_from_is_Some len cs c :
  c ∈ cs → len ≤ c → is_Some (least_class_from len cs).
Proof.
  induction cs as [|x cs IH]; [by inversion 1|].
  unfold least_class_from. cbn [foldr]. fold (least_class_from len cs).
  intros [->|Hc]%elem_of_cons Hle.
  - destruct (Z.leb_spec len x); [done|lia].
  - destruct (len <=? x); [done|by apply IH].
Qed.

(** The mapping picks the least tile class that is at least the length,
    whenever there is one. *)
Lemma getSFromMaxSeqLen_least (r : MHARunner float) len c :
  c ∈ tile_classes r → len ≤ c →
  getSFromMaxSeqLen r len ∈ tile_classes r
  ∧ len ≤ getSFromMaxSeqLen r len ≤ c.
Proof.
  intros Hc Hle. unfold getSFromMaxSeqLen.
  destruct (least_class_from_is_Some len _ c Hc Hle) as [S HS].
  rewrite HS. cbn. destruct (least_class_from_Some _ _ _ HS) as (?&?&Hmin).
  split; [done|]. split; [done|by apply Hmin].
Qed.

Lemma accepted_len_le (s : Sys) o i out0 in0 in1 in2 rows batch len :
  accepted_call s o i out0 in0 in1 in2 rows batch len → len ≤ 384.
Proof.
  intros [_ _ _ _ _ _ _ _ Hl]. revert Hl.
  generalize ((isValidBatchSize batch s).2). intros s1 Hl.
  destruct (decide (max_seq_len_ (layer s1) = 0)) as [E|E].
  - rewrite isValidSeqLen_unset in Hl by done. cbn in Hl.
    injection Hl as Hl. apply andb_true_iff in Hl as [_ Hl]. by apply Z.leb_le.
  - rewrite isValidSeqLen_set in Hl by done. cbn in Hl.
    injection Hl as Hl. apply andb_true_iff in Hl as [_ Hl]. by apply Z.leb_le.
Qed.

Lemma wrap_i32_small x : - 2 ^ 31 ≤ x < 2 ^ 31 → wrap_i32 x = x.
Proof. intros Hx. unfold wrap_i32. rewrite Z.mod_small; lia. Qed.

Lemma wrap_u32_small x : 0 ≤ x < 2 ^ 32 → wrap_u32 x = x.
Proof. intros Hx. unfold wrap_u32. by rewrite Z.mod_small. Qed.

Lemma wrap_u64_small x : 0 ≤ x < 2 ^ 64 → wrap_u64 x = x.
Proof. intros Hx. unfold wrap_u64. by rewrite Z.mod_small. Qed.

(** C8 (as amended): on every accepted call whose launch fits, the sequence
    length is mapped to the least tile class that is at least the length;
    if the runner does not support that class the call throws and the
    attention kernel is neither configured nor enqueued; otherwise the
    runner is configured for that class and for B, the first dimension of
    the padding-offset tensor minus one, and the attention kernel is
    enqueued after the bias-fusion launch with that configuration and a
    null mask.  B is the batch size of the mask when the padding-offset
    tensor has batch + 1 entries, and twice that when it has
    2 * batch + 1 entries. *)
Theorem attention_tile_class_and_batch (s : Sys) o i w out0 in0 in1 in2
    rows batch len npad :
  accepted_call s o i out0 in0 in1 in2 rows batch len →
  shape in2 !! 0%nat = Some npad →
  0 ≤ len →
  let L := layer (ready_state batch len s) in
  launch_fits L = true →
  let n := wrap_i32 (hidden_units_ L) in
  let runner := dispatcher_fp16 L in
  let S := getSFromMaxSeqLen runner len in
  let B := wrap_i32 (wrap_u64 (npad - 1)) in
  let projections :=
    qkv_ops (chosen_strategy L n rows n) L w (data in0) n rows (m_tmp rows) n in
  (∀ c, c ∈ tile_classes runner → len ≤ c →
        S ∈ tile_classes runner ∧ len ≤ S ≤ c)
  ∧ (isValid runner S = false →
       (forward o i w s).1 = Throw (CheckFailed ChkTileClass)
       ∧ runner_cfg (forward o i w s).2 = runner_cfg s
       ∧ new_ops s (forward o i w s).2 = projections ++ [launch_op L rows w])
  ∧ (isValid runner S = true →
       (forward o i w s).1 = Ok tt
       ∧ runner_cfg (forward o i w s).2 = Some (S, B)
       ∧ new_ops s (forward o i w s).2
         = projections
           ++ [launch_op L rows w;
               MHARun runner (Some (S, B)) (qkv_buf_ L) nullptr (data in2)
                 (attn_workspace_ L) (qkv_buf_2_ L);
               output_op L w (data out0) n rows (m_tmp rows) n])
  ∧ (npad = batch + 1 → 0 ≤ batch < 2 ^ 31 → B = batch)
  ∧ (npad = 2 * batch + 1 → 0 ≤ 2 * batch < 2 ^ 31 → B = 2 * batch).
Proof.
  intros Hcall Hnpad Hlen0. cbv zeta. intros Hfits.
  pose proof (accepted_len_le _ _ _ _ _ _ _ _ _ _ Hcall) as Hlen.
  destruct (forward_accepted_run _ _ _ w _ _ _ _ _ _ _ Hcall) as (Hr&Hq&Hc).
  cbv zeta in Hr, Hq, Hc. apply new_ops_app in Hq.
  unfold forward_result in Hr. unfold attention_ops in Hq.
  unfold forward_cfg in Hc. cbv zeta in Hr, Hq, Hc.
  rewrite Hfits, Hnpad, (wrap_i32_small len) in Hr, Hq, Hc by lia.
  cbn [andb] in Hc.
  split; [intros c; apply getSFromMaxSeqLen_least|].
  split; [|split; [|split]].
  - intros Hv. by rewrite Hv in Hr, Hq, Hc.
  - intros Hv. by rewrite Hv in Hr, Hq, Hc.
  - intros -> Hb. replace (batch + 1 - 1) with batch by lia.
    rewrite wrap_u64_small, wrap_i32_small; lia.
  - intros -> Hb. replace (2 * batch + 1 - 1) with (2 * batch) by lia.
    rewrite wrap_u64_small, wrap_i32_small; lia.
Qed.

(** * Properties of the device code *)

(** ** The bias-fusion kernel *)

Lemma hmem_store_half2 p i v (mem : DevMem) r j :
  hmem (store_half2 p i v mem) r j
  = if decide (r = region p ∧ j = offset p + 2 * i) then v.1
    else if decide (r = region p ∧ j = offset p + 2 * i + 1) then v.2
    else hmem mem r j.
Proof. done. Qed.

Lemma hmem_store_half2_other p i v (mem : DevMem) r j :
  r ≠ region p → hmem (store_half2 p i v mem) r j = hmem mem r j.
Proof.
  intros Hr. rewrite hmem_store_half2.
  repeat case_decide; try done; by destruct_and!.
Qed.

Lemma load_store_half2_other p i v (mem : DevMem) q j :
  region q ≠ region p →
  load_half2 (store_half2 p i v mem) q j = load_half2 mem q j.
Proof.
  intros Hr. unfold load_half2. by rewrite !hmem_store_half2_other.
Qed.

(** Two-digit representations in base [P] are unique. *)
Lemma radix_inj P q r q' r' :
  0 ≤ r < P → 0 ≤ r' < P → q * P + r = q' * P + r' → q = q' ∧ r = r'.
Proof. intros Hr Hr' E. assert (q = q') by nia. subst. lia. Qed.

Lemma div_mod_digits P t :
  0 < P → 0 ≤ t → t = t / P * P + t mod P ∧ 0 ≤ t mod P < P ∧ 0 ≤ t / P.
Proof.
  intros HP Ht. pose proof (Z.div_mod t P ltac:(lia)).
  pose proof (Z.mod_pos_bound t P HP). pose proof (Z.div_pos t P Ht HP). lia.
Qed.

Section Kernel.

(** A launch of [grid] blocks of [H * P] threads over buffers whose fused
    index stays within [int]. *)
Variables (qkv Q bQ K bK V bV : ptr) (vw grid H P : Z).
Hypothesis H_pos : 0 < H.
Hypothesis P_pos : 0 < P.
Hypothesis grid_fits : 3 * grid * H * P < 2 ^ 31.
Hypothesis qkv_apart :
  region qkv ∉ region <$> [Q; bQ; K; bK; V; bV].

(** The half2 index a thread writes for component [c] (0 query, 1 key,
    2 value), and where it reads. *)
Definition fused_index (b t c : Z) : Z :=
  b * H * 3 * P + t / P * 3 * P + c * P + t mod P.

Definition source_index (b t : Z) : Z := b * (H * P) + t.

Definition in_grid (bt : Z * Z) : Prop :=
  0 ≤ bt.1 < grid ∧ 0 ≤ bt.2 < H * P.

Lemma in_grid_bounds b t :
  in_grid (b, t) →
  0 ≤ t mod P < P ∧ 0 ≤ t / P < H ∧ t = t / P * P + t mod P
  ∧ 0 ≤ b * H * 3 * P + t / P * 3 * P
  ∧ b * H * 3 * P + t / P * 3 * P + 2 * P + t mod P < 2 ^ 31
  ∧ 0 ≤ source_index b t < 2 ^ 31.
Proof using H_pos P_pos grid_fits.
  intros [[Hb0 Hb] [Ht0 Ht]]. cbn in *.
  destruct (div_mod_digits P t P_pos Ht0) as (Et&Hr&Hq).
  assert (t / P < H) by (apply Z.div_lt_upper_bound; lia).
  assert (b * (H * P) ≤ (grid - 1) * (H * P)) by nia.
  assert (t / P * P ≤ (H - 1) * P) by nia.
  assert (0 ≤ b * (H * P)) by nia. assert (0 ≤ t / P * P) by nia.
  assert (0 < H * P) by nia.
  unfold source_index. repeat split; try lia.
Qed.

(** A thread of the grid, with the machine arithmetic resolved. *)
Lemma trt_add_QKV_bias_in_grid b t (mem : DevMem) :
  in_grid (b, t) →
  trt_add_QKV_bias b t (H * P) qkv Q bQ K bK V bV vw H P mem
  = store_half2 qkv (fused_index b t 2)
      (hadd2 (load_half2 mem V (source_index b t)) (load_half2 mem bV t))
      (store_half2 qkv (fused_index b t 1)
         (hadd2 (load_half2 mem K (source_index b t)) (load_half2 mem bK t))
         (store_half2 qkv (fused_index b t 0)
            (hadd2 (load_half2 mem Q (source_index b t))
                   (load_half2 mem bQ t)) mem)).
Proof using H_pos P_pos grid_fits qkv_apart.
  intros Hin. pose proof (in_grid_bounds b t Hin) as (Hr&Hq&Et&Hlo&Hhi&Hsrc).
  destruct Hin as [[Hb0 Hb] [Ht0 Ht]]. cbn in Hb0, Hb, Ht0, Ht.
  assert (grid < 2 ^ 31) by nia. assert (P < 2 ^ 31) by nia.
  unfold trt_add_QKV_bias. cbv zeta.
  rewrite (wrap_u32_small P) by lia.
  rewrite (wrap_i32_small b) by lia.
  rewrite (wrap_i32_small (t mod P)) by lia.
  replace (t - t mod P) with (t / P * P) by lia.
  rewrite (wrap_u32_small (t / P * P)) by nia.
  rewrite Z.div_mul by lia.
  rewrite (wrap_i32_small (t / P)) by lia.
  rewrite (wrap_i32_small (b * H * 3 * P + t / P * 3 * P)) by lia.
  rewrite !(wrap_i32_small (b * H * 3 * P + t / P * 3 * P + _ * P + t mod P))
    by lia.
  fold (source_index b t). rewrite (wrap_u32_small (source_index b t)) by lia.
  assert (∀ X, X ∈ [Q; bQ; K; bK; V; bV] → region X ≠ region qkv) as Hap.
  { intros X HX E. apply qkv_apart. rewrite <- E. by apply list_elem_of_fmap_2. }
  rewrite !load_store_half2_other by (apply Hap; set_solver).
  unfold fused_index. repeat f_equal; lia.
Qed.

(** The component buffers, and what a thread stores for a component. *)
Definition component (c : Z) : ptr * ptr :=
  if decide (c = 0) then (Q, bQ) else if decide (c = 1) then (K, bK)
  else (V, bV).

Definition fused_value (mem0 : DevMem) (b t c : Z) : half * half :=
  hadd2 (load_half2 mem0 (component c).1 (source_index b t))
        (load_half2 mem0 (component c).2 t).

Definition lane (e : Z) (v : half * half) : half :=
  if decide (e = 0) then v.1 else v.2.

(** The [half] address of lane [e] of the half2 at [fused_index b t c]. *)
Definition fused_addr (b t c e : Z) : Z :=
  offset qkv + 2 * fused_index b t c + e.

(** Memory outside the fused buffer is as in [mem0]. *)
Definition inputs_as (mem0 mem : DevMem) : Prop :=
  ∀ r j, r ≠ region qkv → hmem mem r j = hmem mem0 r j.

Lemma thread_inputs_as b t bd (mem0 mem : DevMem) :
  inputs_as mem0 mem →
  inputs_as mem0 (trt_add_QKV_bias b t bd qkv Q bQ K bK V bV vw H P mem).
Proof using Type.
  intros Hmem r j Hr. unfold trt_add_QKV_bias. cbv zeta.
  rewrite !hmem_store_half2_other by done. by apply Hmem.
Qed.

Lemma load_half2_inputs_as (mem0 mem : DevMem) X i :
  inputs_as mem0 mem → X ∈ [Q; bQ; K; bK; V; bV] →
  load_half2 mem X i = load_half2 mem0 X i.
Proof using qkv_apart.
  intros Hmem HX. unfold load_half2.
  assert (region X ≠ region qkv) as Hr.
  { intros E. apply qkv_apart. rewrite <- E. by apply list_elem_of_fmap_2. }
  by rewrite !Hmem.
Qed.

Lemma fused_addr_inj b t c e b' t' c' e' :
  in_grid (b, t) → in_grid (b', t') → 0 ≤ c < 3 → 0 ≤ c' < 3 →
  0 ≤ e < 2 → 0 ≤ e' < 2 →
  fused_addr b t c e = fused_addr b' t' c' e' →
  b = b' ∧ t = t' ∧ c = c' ∧ e = e'.
Proof using H_pos P_pos grid_fits.
  intros Hin Hin' Hc Hc' He He' E.
  pose proof (in_grid_bounds b t Hin) as (Hr&Hq&Et&_).
  pose proof (in_grid_bounds b' t' Hin') as (Hr'&Hq'&Et'&_).
  unfold fused_addr, fused_index in E.
  assert (e = e') by lia. subst e'.
  destruct (radix_inj P ((b * H + t / P) * 3 + c) (t mod P)
              ((b' * H + t' / P) * 3 + c') (t' mod P)) as [E1 E2];
    [done|done|lia|].
  destruct (radix_inj 3 (b * H + t / P) c (b' * H + t' / P) c') as [E3 E4];
    [done|done|lia|].
  destruct (radix_inj H b (t / P) b' (t' / P)) as [E5 E6]; [done|done|lia|].
  split; [done|]. split; [|done]. rewrite Et, Et'. by rewrite E6, E2.
Qed.

(** What a thread of the grid leaves in the fused buffer. *)
Lemma thread_written b t c e (mem0 mem : DevMem) :
  in_grid (b, t) → inputs_as mem0 mem → 0 ≤ c < 3 → 0 ≤ e < 2 →
  hmem (trt_add_QKV_bias b t (H * P) qkv Q bQ K bK V bV vw H P mem)
       (region qkv) (fused_addr b t c e)
  = lane e (fused_value mem0 b t c).
Proof using H_pos P_pos grid_fits qkv_apart.
  intros Hin Hmem Hc He. rewrite trt_add_QKV_bias_in_grid by done.
  pose proof (in_grid_bounds b t Hin) as (Hr&Hq&Et&_).
  rewrite !hmem_store_half2. unfold fused_addr, fused_value, lane, component.
  rewrite !(load_half2_inputs_as mem0 mem) by (done || set_solver).
  unfold fused_index.
  assert (c = 0 ∨ c = 1 ∨ c = 2) as [->|[->| ->]] by lia;
    (assert (e = 0 ∨ e = 1) as [->| ->] by lia);
    repeat case_decide; try done; destruct_and?; try lia;
    exfalso; naive_solver lia.
Qed.

Lemma thread_unwritten b t j (mem : DevMem) :
  in_grid (b, t) →
  (∀ c e, 0 ≤ c < 3 → 0 ≤ e < 2 → j ≠ fused_addr b t c e) →
  hmem (trt_add_QKV_bias b t (H * P) qkv Q bQ K bK V bV vw H P mem)
       (region qkv) j
  = hmem mem (region qkv) j.
Proof using H_pos P_pos grid_fits qkv_apart.
  intros Hin Hj. rewrite trt_add_QKV_bias_in_grid by done.
  rewrite !hmem_store_half2. unfold fused_addr in Hj.
  repeat case_decide; try done; destruct_and?; exfalso.
  - apply (Hj 2 0); lia.
  - apply (Hj 2 1); lia.
  - apply (Hj 1 0); lia.
  - apply (Hj 1 1); lia.
  - apply (Hj 0 0); lia.
  - apply (Hj 0 1); lia.
Qed.

Abbreviation kernel_body :=
  (λ b t, trt_add_QKV_bias b t (H * P) qkv Q bQ K bK V bV vw H P).

(** A value written by its thread survives every other thread of the
    grid. *)
Lemma run_threads_keeps threads b t c e (mem0 mem : DevMem) :
  Forall in_grid threads → in_grid (b, t) → 0 ≤ c < 3 → 0 ≤ e < 2 →
  inputs_as mem0 mem →
  hmem mem (region qkv) (fused_addr b t c e) = lane e (fused_value mem0 b t c) →
  hmem (run_threads threads kernel_body mem) (region qkv) (fused_addr b t c e)
  = lane e (fused_value mem0 b t c).
Proof using H_pos P_pos grid_fits qkv_apart.
  intros Hall Hin Hc He. revert mem.
  induction Hall as [|[b' t'] threads Hin' Hall IH]; intros mem Hmem Hval;
    [done|].
  cbn. apply IH; [by apply thread_inputs_as|].
  destruct (decide (fused_addr b t c e
                    ∈ [fused_addr b' t' 0 0; fused_addr b' t' 0 1;
                       fused_addr b' t' 1 0; fused_addr b' t' 1 1;
                       fused_addr b' t' 2 0; fused_addr b' t' 2 1]))
    as [Hhit|Hno].
  - repeat (apply elem_of_cons in Hhit as [E|Hhit];
            [apply fused_addr_inj in E as (->&->&->&->); try done; try lia;
             by apply thread_written|]).
    by apply elem_of_nil in Hhit.
  - rewrite thread_unwritten; [done|done|].
    intros c' e' Hc' He' E. apply Hno. rewrite E.
    assert (c' = 0 ∨ c' = 1 ∨ c' = 2) as [->|[->| ->]] by lia;
      (assert (e' = 0 ∨ e' = 1) as [->| ->] by lia); set_solver.
Qed.

(** Once every thread of the grid has run, in any order, every fused
    address holds the value of its thread. *)
Lemma run_threads_written threads b t c e (mem0 mem : DevMem) :
  Forall in_grid threads → (b, t) ∈ threads → 0 ≤ c < 3 → 0 ≤ e < 2 →
  inputs_as mem0 mem →
  hmem (run_threads threads kernel_body mem) (region qkv) (fused_addr b t c e)
  = lane e (fused_value mem0 b t c).
Proof using H_pos P_pos grid_fits qkv_apart.
  intros Hall Hbt Hc He. revert mem.
  induction Hall as [|[b' t'] threads Hin' Hall IH]; intros mem Hmem;
    [by inversion Hbt|].
  apply elem_of_cons in Hbt as [[= -> ->]|Hbt]; cbn.
  - apply run_threads_keeps; try done; [by apply thread_inputs_as|].
    by apply thread_written.
  - apply IH; [done|by apply thread_inputs_as].
Qed.

End Kernel.

Lemma elem_of_grid_threads g bl b t :
  (b, t) ∈ grid_threads g bl ↔ 0 ≤ b < g ∧ 0 ≤ t < bl.
Proof.
  unfold grid_threads. rewrite list_elem_of_bind. split.
  - intros (b'&Ht&Hb). apply list_elem_of_fmap in Ht as (t'&[= -> ->]&Ht).
    apply elem_of_seqZ in Hb, Ht. lia.
  - intros [Hb Ht]. exists b. split.
    + apply list_elem_of_fmap. exists t. split; [done|].
      apply elem_of_seqZ. lia.
    + apply elem_of_seqZ. lia.
Qed.

(** [int] values lie between -2^31 and 2^31. *)
Lemma wrap_i32_range x : - 2 ^ 31 ≤ wrap_i32 x < 2 ^ 31.
Proof.
  unfold wrap_i32. pose proof (Z.mod_pos_bound (x + 2 ^ 31) (2 ^ 32) ltac:(lia)).
  lia.
Qed.

(** The fused index is an [int]: whatever the grid, no thread stores 2^32
    or more cells past the start of the fused buffer. *)
Lemma run_threads_int_reach threads bd qkv Q bQ K bK V bV vw hn sph
    (mem : DevMem) j :
  offset qkv + 2 ^ 32 ≤ j →
  hmem (run_threads threads
          (λ b t, trt_add_QKV_bias b t bd qkv Q bQ K bK V bV vw hn sph) mem)
       (region qkv) j
  = hmem mem (region qkv) j.
Proof.
  intros Hj. revert mem.
  induction threads as [|[b t] threads IH]; intros mem; [done|].
  unfold run_threads in *. cbn [foldl fst snd]. rewrite IH.
  unfold trt_add_QKV_bias. cbv zeta. rewrite !hmem_store_half2.
  repeat case_decide; try done; destruct_and?; exfalso;
    match goal with
    | E : j = offset qkv + 2 * wrap_i32 ?x |- _ =>
        pose proof (wrap_i32_range x); lia
    | E : j = offset qkv + 2 * wrap_i32 ?x + 1 |- _ =>
        pose proof (wrap_i32_range x); lia
    end.
Qed.

(** So the launch of [invokeTrtAddQkvBias] never reaches a cell that far
    into the fused buffer, however many tokens it is given. *)
Lemma launch_int_reach (L : Layer) token_num w (mem : DevMem) j :
  offset (qkv_buf_ L) + 2 ^ 32 ≤ j →
  hmem (exec_op (launch_op L token_num w) mem) (region (qkv_buf_ L)) j
  = hmem mem (region (qkv_buf_ L)) j.
Proof.
  intros Hj. unfold launch_op, exec_op. by apply run_threads_int_reach.
Qed.

(** C1 (as amended): in the half instantiation, the launch that
    [invokeTrtAddQkvBias] enqueues, run on buffers laid out as one row of
    head_num x size_per_head elements per token, leaves in the fused
    buffer, for every token t, head h and element d, the query, key and
    value elements with their bias added, at fused[t][h][0][d],
    fused[t][h][1][d] and fused[t][h][2][d], whatever the order in which
    the hardware runs the threads, provided the fused index stays within
    [int]: 3 x token_num x head_num x size_per_head / 2 < 2^31.  The
    per-head size is even, the block fits the launch limit, and the fused
    buffer is apart from the inputs. *)
Theorem bias_fusion_layout (s : Sys) token_num w (mem : DevMem) :
  let L := layer s in
  let heads := head_num_ L in
  let D := size_per_head_ L in
  let fused := qkv_buf_ L in
  0 < heads → 0 < D → D mod 2 = 0 → heads * D / 2 ≤ 1024 →
  0 ≤ token_num → 3 * token_num * (heads * D / 2) < 2 ^ 31 →
  region fused ∉ region <$> [q_buf_ L; bias (query_weight w);
                             k_buf_ L; bias (key_weight w);
                             v_buf_ L; bias (value_weight w)] →
  schedule token_num (heads * D / 2) ≡ₚ grid_threads token_num (heads * D / 2) →
  ∃ op,
    invokeTrtAddQkvBias token_num w s = (Ok tt, with_queue s [op])
    ∧ ∀ t h d, 0 ≤ t < token_num → 0 ≤ h < heads → 0 ≤ d < D →
        let out c := hmem (exec_op op mem) (region fused)
                       (offset fused + ((t * heads + h) * 3 + c) * D + d) in
        let row (p : ptr) :=
          hmem mem (region p) (offset p + (t * heads + h) * D + d) in
        let chan (p : ptr) := hmem mem (region p) (offset p + h * D + d) in
        out 0 = hadd (row (q_buf_ L)) (chan (bias (query_weight w)))
        ∧ out 1 = hadd (row (k_buf_ L)) (chan (bias (key_weight w)))
        ∧ out 2 = hadd (row (v_buf_ L)) (chan (bias (value_weight w))).
Proof.
  cbv zeta. intros Hheads HD Heven Hfit Htok Hint Hapart Hsched.
  set (P := size_per_head_ (layer s) / 2).
  assert (size_per_head_ (layer s) = 2 * P) as ED.
  { subst P. pose proof (Z.div_mod (size_per_head_ (layer s)) 2 ltac:(lia)).
    lia. }
  assert (0 < P) as HP by lia.
  assert (head_num_ (layer s) * size_per_head_ (layer s) / 2
          = head_num_ (layer s) * P) as Eblock.
  { rewrite ED. replace (head_num_ (layer s) * (2 * P))
      with (head_num_ (layer s) * P * 2) by lia. by rewrite Z.div_mul. }
  rewrite Eblock in Hfit, Hint, Hsched.
  assert (0 < head_num_ (layer s) * P) by nia.
  assert (token_num < 2 ^ 31) by nia.
  exists (launch_op (layer s) token_num w). split.
  - rewrite invokeTrtAddQkvBias_run.
    rewrite (wrap_u64_small (_ * _)) by (rewrite ED; nia).
    rewrite Eblock, wrap_u32_small by lia.
    by destruct (Z.leb_spec (head_num_ (layer s) * P) 1024); [|lia].
  - intros t h d Ht Hh Hd.
    unfold launch_op, exec_op.
    rewrite (wrap_u64_small (_ * _)) by (rewrite ED; nia).
    rewrite Eblock, !wrap_u32_small by lia.
    rewrite (wrap_i32_small (head_num_ (layer s))) by nia.
    fold P. rewrite (wrap_i32_small P) by nia.
    set (heads := head_num_ (layer s)) in *.
    pose proof (div_mod_digits 2 d ltac:(lia) ltac:(lia)) as (Ed&He&Hd2).
    assert (d / 2 < P) by lia.
    assert (in_grid token_num heads P (t, h * P + d / 2)) as Hin.
    { split; cbn; [lia|nia]. }
    assert (Forall (in_grid token_num heads P) (schedule token_num (heads * P)))
      as Hall.
    { apply Forall_forall. intros [b' t'] Hbt. rewrite Hsched in Hbt.
      by apply elem_of_grid_threads in Hbt. }
    assert ((t, h * P + d / 2) ∈ schedule token_num (heads * P)) as Hmem.
    { rewrite Hsched. apply elem_of_grid_threads. destruct Hin. cbn in *. lia. }
    assert ((h * P + d / 2) / P = h ∧ (h * P + d / 2) mod P = d / 2)
      as [Eq Er].
    { destruct (div_mod_digits P (h * P + d / 2) HP ltac:(nia)) as (E&?&?).
      destruct (radix_inj P ((h * P + d / 2) / P) ((h * P + d / 2) mod P)
                  h (d / 2)); [done|lia|lia|done]. }
    assert (∀ c, 0 ≤ c < 3 →
      hmem (run_threads (schedule token_num (heads * P))
              (λ b t0, trt_add_QKV_bias b t0 (heads * P) (qkv_buf_ (layer s))
                 (q_buf_ (layer s)) (bias (query_weight w))
                 (k_buf_ (layer s)) (bias (key_weight w))
                 (v_buf_ (layer s)) (bias (value_weight w))
                 (wrap_i32 token_num) heads P) mem)
           (region (qkv_buf_ (layer s)))
           (offset (qkv_buf_ (layer s))
            + ((t * heads + h) * 3 + c) * size_per_head_ (layer s) + d)
      = lane (d mod 2)
          (fused_value (q_buf_ (layer s)) (bias (query_weight w))
             (k_buf_ (layer s)) (bias (key_weight w))
             (v_buf_ (layer s)) (bias (value_weight w)) heads P mem
             t (h * P + d / 2) c)) as Hout.
    { intros c Hc.
      rewrite <- (run_threads_written (qkv_buf_ (layer s)) (q_buf_ (layer s))
                    (bias (query_weight w)) (k_buf_ (layer s))
                    (bias (key_weight w)) (v_buf_ (layer s))
                    (bias (value_weight w)) (wrap_i32 token_num) token_num
                    heads P Hheads HP ltac:(lia) Hapart _ t (h * P + d / 2) c
                    (d mod 2) mem mem Hall Hmem Hc He ltac:(by intros ???)).
      f_equal. unfold fused_addr, fused_index. rewrite Eq, Er, ED. lia. }
    rewrite !Hout by lia.
    unfold lane, fused_value, component, hadd2, load_half2, source_index.
    cbn [fst snd]. rewrite ED.
    repeat case_decide; try lia; cbn [fst snd]; repeat split; f_equal; f_equal;
      lia.
Qed.

(** ** The attention mask *)




(** A call that the guards refuse, or that lacks a tensor or a dimension,
    enqueues nothing. *)
Lemma wp_any {X} (c : M X) s (Φ : Res X → Sys → Prop) :
  (∀ r s', Φ r s') → wp c s Φ.
Proof. intros HΦ. apply HΦ. Qed.

Lemma forward_accepted_or_idle (s : Sys) o i w :
  (∃ out0 in0 in1 in2 rows batch len,
     accepted_call s o i out0 in0 in1 in2 rows batch len)
  ∨ queue (forward o i w s).2 = queue s.
Proof.
  change (wp (forward o i w) s
            (λ _ s', (∃ out0 in0 in1 in2 rows batch len,
                        accepted_call s o i out0 in0 in1 in2 rows batch len)
                     ∨ queue s' = queue s)).
  unfold forward.
  repeat lazymatch goal with
         | |- wp (bind get_layer _) _ _ => fail
         | |- _ => wp_block
         end; try by right.
  all: try (right;
            match goal with H : allocateBuffer ?s1 = (_, ?s2) |- _ =>
              let Hq := fresh in
              destruct (host_only_allocateBuffer s1) as [Hq _];
              rewrite H in Hq; cbn in Hq; by rewrite Hq end).
  all: apply wp_any; intros ? ?; left; simplify_eq.
  all: eexists _, _, _, _, _, _, _; split; try done.
  all: try (rewrite isValidBatchSize_unset by done; done).
  all: try (rewrite isValidBatchSize_set by done; cbn [fst]; congruence).
  all: first [ rewrite isValidBatchSize_unset by done
             | rewrite isValidBatchSize_set by done ]; cbn [snd].
  all: first [ rewrite isValidSeqLen_unset by done
             | rewrite isValidSeqLen_set by done ].
  all: cbn [fst snd layer] in *; congruence.
Qed.

(** ** The stream on two memories that differ in one region *)



















Lemma table_entry_Memcpy (m : DevMem) dst src tbl i j p :
  region tbl = region dst → offset tbl + i = offset dst + Z.of_nat j →
  src !! j = Some p → (j < 12)%nat →
  table_entry (exec_op (MemcpyAsync dst src (8 * 12)) m) tbl i = p.
Proof.
  intros Hr Ho Hs Hj. unfold table_entry. cbn.
  rewrite Hr, Ho. case_decide as Hd.
  - replace (offset dst + Z.of_nat j - offset dst) with (Z.of_nat j) by lia.
    by rewrite Nat2Z.id, Hs.
  - destruct Hd. split; [done|]. change (8 * 12 / 8) with 12. lia.
Qed.



Definition scratch_ptrs (L : Layer) : list ptr :=
  [q_buf_ L; k_buf_ L; v_buf_ L; qkv_buf_ L; qkv_buf_2_ L; attn_workspace_ L;
   batch_qkv_kernel_ptr_ L].

(** The three pointer tables lie four entries apart in the table region, as
    [allocateBuffer] sets them. *)
Definition table_layout (L : Layer) : Prop :=
  batch_qkv_input_ptr_ L = ptr_add (batch_qkv_kernel_ptr_ L) 4
  ∧ batch_qkv_buf_ptr_ L = ptr_add (ptr_add (batch_qkv_kernel_ptr_ L) 4) 4.

Definition allocated_layout (s : Sys) : Prop :=
  is_allocate_buffer_ (layer s) = true → table_layout (layer s).

Lemma ready_state_layout batch len (s : Sys) :
  allocated_layout s → table_layout (layer (ready_state batch len s)).
Proof.
  intros Hs. unfold ready_state.
  assert (allocated_layout (isValidBatchSize batch s).2) as H1.
  { change (wp (isValidBatchSize batch) s (λ _ s', allocated_layout s')).
    by apply wp_isValidBatchSize. }
  revert H1. generalize ((isValidBatchSize batch s).2). clear s Hs. intros s Hs.
  assert (allocated_layout (isValidSeqLen len s).2) as H1.
  { change (wp (isValidSeqLen len) s (λ _ s', allocated_layout s')).
    by apply wp_isValidSeqLen. }
  revert H1. generalize ((isValidSeqLen len s).2). clear s Hs. intros s Hs.
  change (wp allocateBuffer s (λ _ s', table_layout (layer s'))).
  unfold allocateBuffer. wp_run; [done|].
  apply Hs. by destruct (is_allocate_buffer_ (layer s)).
Qed.

(** Every call keeps the layout, and a constructed layer has it. *)
Definition keeps_layout : relation Sys :=
  λ s s', allocated_layout s → allocated_layout s'.

#[local] Instance keeps_layout_preorder : PreOrder keeps_layout.
Proof. split; unfold keeps_layout; [by intros ?|intros ???; auto]. Qed.







(** The rest of an accepted call leaves the buffer pointers as they are. *)
Definition same_scratch : relation Sys :=
  λ s s', scratch_ptrs (layer s') = scratch_ptrs (layer s).

#[local] Instance same_scratch_preorder : PreOrder same_scratch.
Proof.
  split; [by intros ?|]. intros s1 s2 s3 E1 E2. unfold same_scratch in *.
  congruence.
Qed.





(** * Further properties of the host code *)

(** ** What no sequence of calls changes *)

(** No sequence of calls changes the head count, the per-head size, the
    hidden size, the hardware generation, the scaling, the sparsity flag,
    the release flag or the dispatch handle; and a capacity that is not
    zero is never assigned again. *)
Theorem configuration_is_stable (s : Sys) calls :
  let L := layer s in
  let L' := layer (run_calls calls s) in
  head_num_ L' = head_num_ L ∧ size_per_head_ L' = size_per_head_ L
  ∧ hidden_units_ L' = hidden_units_ L ∧ sm_ L' = sm_ L
  ∧ q_scaling_ L' = q_scaling_ L ∧ sparse_ L' = sparse_ L
  ∧ is_free_buffer_after_forward_ L' = is_free_buffer_after_forward_ L
  ∧ dispatcher_fp16 L' = dispatcher_fp16 L
  ∧ (max_batch_size_ L ≠ 0 → max_batch_size_ L' = max_batch_size_ L)
  ∧ (max_seq_len_ L ≠ 0 → max_seq_len_ L' = max_seq_len_ L).
Proof.
  cbv zeta. revert s.
  induction calls as [|c calls IH]; intros s; [by repeat split|].
  assert (stable s (run_call c s)) as Hc.
  { destruct c; cbn;
      [apply stable_forward|apply stable_allocateBuffer|apply stable_freeBuffer]. }
  change (stable s (run_calls calls (run_call c s))).
  etrans; [exact Hc|]. exact (IH (run_call c s)).
Qed.

(** ** Calls that lack a tensor *)

(** After both guards and the allocation the buffers are allocated. *)
Lemma ready_state_allocated batch len (s : Sys) :
  is_allocate_buffer_ (layer (ready_state batch len s)) = true.
Proof. apply allocateBuffer_sets_flag. Qed.

(** A call that both guards accept, from the allocation on (lines 84-212
    from the state after line 82). *)
Lemma forward_to_ready (s : Sys) o i w in1 batch len :
  i !! 1%nat = Some in1 →
  shape in1 !! 0%nat = Some batch → shape in1 !! 2%nat = Some len →
  (isValidBatchSize batch s).1 = Ok true →
  (isValidSeqLen len (isValidBatchSize batch s).2).1 = Ok true →
  forward o i w s
  = (let* out0 := vec_at o 0 in
     let* in0 := vec_at i 0 in
     let* in1 := vec_at i 1 in
     let* in2 := vec_at i 2 in
     let* d0 := shape_idx in1 0 in
     let* d2 := shape_idx in1 2 in
     let* rows := shape_idx in0 0 in
     let* L := get_layer in
     let n := wrap_i32 (hidden_units_ L) in
     project_qkv L w (data in0) n rows (m_tmp rows) n ;;;
     invokeTrtAddQkvBias rows w ;;;
     attention L (wrap_i32 d2) in2 ;;;
     project_output L w (data out0) n rows (m_tmp rows) n ;;;
     if is_free_buffer_after_forward_ L then freeBuffer else ret tt)
    (ready_state batch len s).
Proof.
  intros Hi1 Hbatch Hlen Hb Hl. unfold forward.
  rewrite (bind_vec_at_some _ _ _ _ _ Hi1).
  rewrite (bind_shape_idx_some _ _ _ _ _ Hbatch).
  rewrite (bind_ok _ _ _ _ Hb). unfold FT_CHECK at 1.
  rewrite (bind_ok (ret tt) _ _ tt eq_refl). cbn [ret snd].
  rewrite (bind_vec_at_some _ _ _ _ _ Hi1).
  rewrite (bind_shape_idx_some _ _ _ _ _ Hlen).
  rewrite (bind_ok _ _ _ _ Hl).
  unfold FT_CHECK at 1.
  rewrite (bind_ok (ret tt) _ _ tt eq_refl). cbn [ret snd].
  rewrite (bind_ok _ _ _ _ (allocateBuffer_ok _)).
  done.
Qed.

(** A call with fewer than two input tensors throws [std::out_of_range] at
    its first statement and leaves everything as it was.  A call that both
    guards accept but that has no output tensor or only two input tensors
    throws [std::out_of_range] after the allocation: the scratch buffers are
    allocated, nothing is enqueued and the runner is not configured. *)
Theorem forward_missing_tensor :
  (∀ (s : Sys) o i w,
     (length i < 2)%nat → forward o i w s = (Throw OutOfRange, s))
  ∧ (∀ (s : Sys) o i w in1 batch len,
       i !! 1%nat = Some in1 →
       shape in1 !! 0%nat = Some batch → shape in1 !! 2%nat = Some len →
       (isValidBatchSize batch s).1 = Ok true →
       (isValidSeqLen len (isValidBatchSize batch s).2).1 = Ok true →
       o = [] ∨ length i = 2%nat →
       let s' := (forward o i w s).2 in
       (forward o i w s).1 = Throw OutOfRange
       ∧ s' = ready_state batch len s
       ∧ is_allocate_buffer_ (layer s') = true
       ∧ queue s' = queue s ∧ runner_cfg s' = runner_cfg s).
Proof.
  split.
  - intros s o i w Hlen. unfold forward, bind at 1, vec_at at 1.
    by rewrite lookup_ge_None_2 by lia.
  - intros s o i w in1 batch len Hi1 Hbatch Hlen Hb Hl Hshort. cbv zeta.
    rewrite (forward_to_ready _ _ _ w _ _ _ Hi1 Hbatch Hlen Hb Hl).
    assert ((let* out0 := vec_at o 0 in
             let* in0 := vec_at i 0 in
             let* in1 := vec_at i 1 in
             let* in2 := vec_at i 2 in
             let* d0 := shape_idx in1 0 in
             let* d2 := shape_idx in1 2 in
             let* rows := shape_idx in0 0 in
             let* L := get_layer in
             let n := wrap_i32 (hidden_units_ L) in
             project_qkv L w (data in0) n rows (m_tmp rows) n ;;;
             invokeTrtAddQkvBias rows w ;;;
             attention L (wrap_i32 d2) in2 ;;;
             project_output L w (data out0) n rows (m_tmp rows) n ;;;
             if is_free_buffer_after_forward_ L then freeBuffer else ret tt)
              (ready_state batch len s)
            = (Throw OutOfRange, ready_state batch len s)) as ->.
    { destruct Hshort as [->|Hlen2]; [done|].
      destruct o as [|out0 o]; [done|].
      destruct i as [|in0 [|in1' [|in2 i]]]; try done. }
    cbn [fst snd]. split; [done|]. split; [done|].
    split; [apply ready_state_allocated|].
    apply ready_state_host_only.
Qed.

(** ** A capacity fixed by a refused call *)

Lemma isValidSeqLen_above_ceiling len (s : Sys) :
  384 < len → (isValidSeqLen len s).1 = Ok false.
Proof.
  intros Hbig. change (wp (isValidSeqLen len) s (λ r _, r = Ok false)).
  apply wp_isValidSeqLen; intros _; f_equal; apply andb_false_iff; right;
    apply Z.leb_gt; lia.
Qed.

(** On a layer whose batch capacity is unset, a call whose sequence length
    is above 384 is refused by the length guard after the batch guard has
    stored the call's batch size: nothing is allocated or enqueued, and,
    when that batch size is not zero, after any further calls a call with a
    larger batch is refused by the batch guard.  A batch size of zero is
    stored as well, but zero is the unset capacity: it fixes nothing. *)
Theorem forward_refused_length_fixes_batch (s : Sys) o i w in1 batch len :
  i !! 1%nat = Some in1 →
  shape in1 !! 0%nat = Some batch → shape in1 !! 2%nat = Some len →
  max_batch_size_ (layer s) = 0 → 384 < len →
  let s' := (forward o i w s).2 in
  (forward o i w s).1 = Throw (CheckFailed ChkSeqLen)
  ∧ max_batch_size_ (layer s') = batch
  ∧ (max_seq_len_ (layer s) = 0 → max_seq_len_ (layer s') = len)
  ∧ heap s' = heap s ∧ queue s' = queue s
  ∧ ∀ calls o' i' w' in1' batch',
      batch ≠ 0 → batch < batch' →
      i' !! 1%nat = Some in1' → shape in1' !! 0%nat = Some batch' →
      forward o' i' w' (run_calls calls s')
      = (Throw (CheckFailed ChkBatchSize), run_calls calls s').
Proof.
  intros Hi1 Hbatch Hlen H0 Hbig. cbv zeta.
  assert (forward o i w s
          = (Throw (CheckFailed ChkSeqLen),
             (isValidSeqLen len (isValidBatchSize batch s).2).2)) as E.
  { assert ((isValidBatchSize batch s).1 = Ok true) as Hb
      by by rewrite isValidBatchSize_unset.
    unfold forward.
    rewrite (bind_vec_at_some _ _ _ _ _ Hi1).
    rewrite (bind_shape_idx_some _ _ _ _ _ Hbatch).
    rewrite (bind_ok _ _ _ _ Hb). unfold FT_CHECK at 1.
    rewrite (bind_ok (ret tt) _ _ tt eq_refl). cbn [ret snd].
    rewrite (bind_vec_at_some _ _ _ _ _ Hi1).
    rewrite (bind_shape_idx_some _ _ _ _ _ Hlen).
    rewrite (bind_ok _ _ _ false (isValidSeqLen_above_ceiling len _ Hbig)).
    done. }
  rewrite E. cbn [fst snd]. rewrite isValidBatchSize_unset by done. cbn [snd].
  set (s1 := mkSys (set_max_batch_size_ batch (layer s)) (runner_cfg s)
               (heap s) (queue s)).
  assert (max_batch_size_ (layer (isValidSeqLen len s1).2) = batch
          ∧ heap (isValidSeqLen len s1).2 = heap s
          ∧ queue (isValidSeqLen len s1).2 = queue s
          ∧ (max_seq_len_ (layer s) = 0 →
             max_seq_len_ (layer (isValidSeqLen len s1).2) = len))
    as (Hb&Hh&Hq&Hl).
  { change (wp (isValidSeqLen len) s1
              (λ _ s2, max_batch_size_ (layer s2) = batch ∧ heap s2 = heap s
                       ∧ queue s2 = queue s
                       ∧ (max_seq_len_ (layer s) = 0 →
                          max_seq_len_ (layer s2) = len))).
    apply wp_isValidSeqLen; intros Hs; cbn; repeat split; done. }
  split; [done|]. split; [done|]. split; [done|]. split; [done|].
  split; [done|].
  intros calls o' i' w' in1' batch' Hne Hlt Hi1' Hbatch'.
  destruct (stable_run_calls calls (isValidSeqLen len s1).2)
    as (_&_&_&_&_&_&_&_&Hcap&_).
  rewrite Hb in Hcap. specialize (Hcap Hne).
  apply (forward_batch_rejected _ _ _ in1' batch'); try done; rewrite Hcap; lia.
Qed.

(** ** The three ways a forward call can go *)

(** The layer with its two capacities put aside: what the guards leave as
    it is. *)
Definition clear_capacities (L : Layer) : Layer :=
  set_max_seq_len_ 0 (set_max_batch_size_ 0 L).

Definition guards_only : relation Sys :=
  λ s s', heap s' = heap s ∧ queue s' = queue s ∧ runner_cfg s' = runner_cfg s
          ∧ clear_capacities (layer s') = clear_capacities (layer s).

#[local] Instance guards_only_preorder : PreOrder guards_only.
Proof.
  split; [by intros ?|].
  intros s1 s2 s3 (?&?&?&?) (?&?&?&?). repeat split; congruence.
Qed.

Lemma guards_only_isValidBatchSize n : steps guards_only (isValidBatchSize n).
Proof. apply steps_wp. intros s. by apply wp_isValidBatchSize. Qed.

Lemma guards_only_isValidSeqLen n : steps guards_only (isValidSeqLen n).
Proof. apply steps_wp. intros s. by apply wp_isValidSeqLen. Qed.

Lemma guards_only_flag (s s' : Sys) :
  guards_only s s' →
  is_allocate_buffer_ (layer s') = is_allocate_buffer_ (layer s).
Proof. intros (_&_&_&E). by apply (f_equal is_allocate_buffer_) in E. Qed.

Lemma guards_only_scratch (s s' : Sys) :
  guards_only s s' → scratch_regions (layer s') = scratch_regions (layer s).
Proof. intros (_&_&_&E). by apply (f_equal scratch_regions) in E. Qed.

(** The state after the guards and the allocation, on a layer that is
    allocated already: only the capacities may have changed. *)
Lemma ready_state_of_allocated batch len (s : Sys) :
  is_allocate_buffer_ (layer s) = true →
  guards_only s (ready_state batch len s).
Proof.
  intros Hflag. unfold ready_state.
  pose proof (guards_only_isValidBatchSize batch s) as H1.
  pose proof (guards_only_isValidSeqLen len (isValidBatchSize batch s).2) as H2.
  assert (guards_only s (isValidSeqLen len (isValidBatchSize batch s).2).2)
    as H3 by (etrans; [exact H1|exact H2]).
  rewrite allocateBuffer_allocated; [done|].
  by rewrite (guards_only_flag _ _ H3).
Qed.

(** A call ends before the allocation (refused by a guard, or for lack of
    the mask tensor or one of its dimensions), or after the allocation and
    before any device work (for lack of another tensor or dimension), or it
    is accepted. *)
Ltac close_early :=
  split; [done|];
  split; [first [ reflexivity | assumption | (etrans; eassumption) ]|];
  cbn; eauto 10.

Ltac close_late :=
  split; [done|]; split; [tauto|]; split; [done|]; eauto 10.

(** Runs [forward] up to the statement that ends the call. *)
Ltac forward_ends_by tac close :=
  let E := fresh "E" in
  eassert (forward _ _ _ _ = (_, _)) as E;
  [ tac; reflexivity | rewrite E; cbn [fst snd]; close ].

Lemma forward_cases (s : Sys) o i w :
  (∃ e, (forward o i w s).1 = Throw e
        ∧ guards_only s (forward o i w s).2
        ∧ match e with
          | OutOfRange => i !! 1%nat = None
          | UndefinedBehavior =>
              ∃ in1, i !! 1%nat = Some in1
                     ∧ (shape in1 !! 0%nat = None ∨ shape in1 !! 2%nat = None)
          | CheckFailed ChkBatchSize =>
              ∃ in1 batch,
                i !! 1%nat = Some in1 ∧ shape in1 !! 0%nat = Some batch
                ∧ (isValidBatchSize batch s).1 = Ok false
          | CheckFailed ChkSeqLen =>
              ∃ in1 batch len,
                i !! 1%nat = Some in1 ∧ shape in1 !! 0%nat = Some batch
                ∧ shape in1 !! 2%nat = Some len
                ∧ (isValidSeqLen len (isValidBatchSize batch s).2).1 = Ok false
          | _ => False
          end)
  ∨ (∃ e batch len,
       (forward o i w s).1 = Throw e
       ∧ (e = OutOfRange ∨ e = UndefinedBehavior)
       ∧ (forward o i w s).2 = ready_state batch len s
       ∧ (o !! 0%nat = None ∨ i !! 0%nat = None ∨ i !! 2%nat = None
          ∨ ∃ in0, i !! 0%nat = Some in0 ∧ shape in0 !! 0%nat = None))
  ∨ (∃ out0 in0 in1 in2 rows batch len,
       accepted_call s o i out0 in0 in1 in2 rows batch len).
Proof.
  destruct (i !! 1%nat) as [in1|] eqn:Hi1; cycle 1.
  { left. exists OutOfRange.
    forward_ends_by ltac:(unfold forward, bind at 1, vec_at at 1; rewrite Hi1) close_early. }
  destruct (shape in1 !! 0%nat) as [batch|] eqn:Hbatch; cycle 1.
  { left. exists UndefinedBehavior.
    forward_ends_by ltac:(
      unfold forward; rewrite (bind_vec_at_some _ _ _ _ _ Hi1);
      unfold bind at 1, shape_idx at 1; rewrite Hbatch) close_early. }
  pose proof (guards_only_isValidBatchSize batch s) as G1.
  assert (∃ b, (isValidBatchSize batch s).1 = Ok b) as [b Hb].
  { change (wp (isValidBatchSize batch) s (λ r _, ∃ b, r = Ok b)).
    apply wp_isValidBatchSize; by eauto. }
  destruct b; cycle 1.
  { left. exists (CheckFailed ChkBatchSize).
    forward_ends_by ltac:(
      unfold forward; rewrite (bind_vec_at_some _ _ _ _ _ Hi1);
      rewrite (bind_shape_idx_some _ _ _ _ _ Hbatch);
      rewrite (bind_ok _ _ _ _ Hb); cbn [FT_CHECK bind throw]) close_early. }
  destruct (shape in1 !! 2%nat) as [len|] eqn:Hlen; cycle 1.
  { left. exists UndefinedBehavior.
    forward_ends_by ltac:(
      unfold forward; rewrite (bind_vec_at_some _ _ _ _ _ Hi1);
      rewrite (bind_shape_idx_some _ _ _ _ _ Hbatch);
      rewrite (bind_ok _ _ _ _ Hb); unfold FT_CHECK at 1;
      rewrite (bind_ok (ret tt) _ _ tt eq_refl); cbn [ret snd];
      rewrite (bind_vec_at_some _ _ _ _ _ Hi1);
      unfold bind at 1, shape_idx at 1; rewrite Hlen) close_early. }
  pose proof (guards_only_isValidSeqLen len (isValidBatchSize batch s).2) as G2.
  assert (∃ b, (isValidSeqLen len (isValidBatchSize batch s).2).1 = Ok b)
    as [b Hl].
  { generalize ((isValidBatchSize batch s).2). intros s1.
    change (wp (isValidSeqLen len) s1 (λ r _, ∃ b, r = Ok b)).
    apply wp_isValidSeqLen; by eauto. }
  destruct b; cycle 1.
  { left. exists (CheckFailed ChkSeqLen).
    forward_ends_by ltac:(
      unfold forward; rewrite (bind_vec_at_some _ _ _ _ _ Hi1);
      rewrite (bind_shape_idx_some _ _ _ _ _ Hbatch);
      rewrite (bind_ok _ _ _ _ Hb); unfold FT_CHECK at 1;
      rewrite (bind_ok (ret tt) _ _ tt eq_refl); cbn [ret snd];
      rewrite (bind_vec_at_some _ _ _ _ _ Hi1);
      rewrite (bind_shape_idx_some _ _ _ _ _ Hlen);
      rewrite (bind_ok _ _ _ _ Hl); cbn [FT_CHECK bind throw]) close_early. }
  right.
  pose proof (forward_to_ready _ o _ w _ _ _ Hi1 Hbatch Hlen Hb Hl) as Hready.
  destruct (o !! 0%nat) as [out0|] eqn:Ho; cycle 1.
  { left. exists OutOfRange, batch, len.
    forward_ends_by ltac:(
      rewrite Hready; unfold bind at 1, vec_at at 1; rewrite Ho) close_late. }
  destruct (i !! 0%nat) as [in0|] eqn:Hi0; cycle 1.
  { left. exists OutOfRange, batch, len.
    forward_ends_by ltac:(
      rewrite Hready; rewrite (bind_vec_at_some _ _ _ _ _ Ho);
      unfold bind at 1, vec_at at 1; rewrite Hi0) close_late. }
  destruct (i !! 2%nat) as [in2|] eqn:Hi2; cycle 1.
  { left. exists OutOfRange, batch, len.
    forward_ends_by ltac:(
      rewrite Hready; rewrite (bind_vec_at_some _ _ _ _ _ Ho);
      rewrite (bind_vec_at_some _ _ _ _ _ Hi0);
      rewrite (bind_vec_at_some _ _ _ _ _ Hi1);
      unfold bind at 1, vec_at at 1; rewrite Hi2) close_late. }
  destruct (shape in0 !! 0%nat) as [rows|] eqn:Hrows; cycle 1.
  { left. exists UndefinedBehavior, batch, len.
    forward_ends_by ltac:(
      rewrite Hready; rewrite (bind_vec_at_some _ _ _ _ _ Ho);
      rewrite (bind_vec_at_some _ _ _ _ _ Hi0);
      rewrite (bind_vec_at_some _ _ _ _ _ Hi1);
      rewrite (bind_vec_at_some _ _ _ _ _ Hi2);
      rewrite (bind_shape_idx_some _ _ _ _ _ Hbatch);
      rewrite (bind_shape_idx_some _ _ _ _ _ Hlen);
      unfold bind at 1, shape_idx at 1; rewrite Hrows) close_late. }
  right. by exists out0, in0, in1, in2, rows, batch, len.
Qed.

(** The state an accepted call reaches once its device work is enqueued. *)
Definition after_ops (L : Layer) (w : AttentionWeight) (out0 in2 : Tensor)
    (len rows : Z) (s : Sys) : Sys :=
  mkSys (layer s) (forward_cfg L in2 len (runner_cfg s)) (heap s)
    (queue s ++ attention_ops L w out0 in2 len rows).

Lemma forward_rest_eq L w out0 in2 len rows (s : Sys) :
  layer s = L →
  forward_rest L w out0 in2 len rows s
  = (forward_result L in2 len,
     let s1 := after_ops L w out0 in2 len rows s in
     match forward_result L in2 len with
     | Ok _ => if is_free_buffer_after_forward_ L then (freeBuffer s1).2 else s1
     | Throw _ => s1
     end).
Proof.
  intros <-. unfold forward_rest, forward_result, after_ops, attention_ops,
    forward_cfg, launch_fits. cbv zeta.
  unfold bind at 1. rewrite invokeTrtAddQkvBias_run.
  destruct (_ <=? 1024); [|destruct s; cbn; by rewrite app_nil_r].
  unfold bind at 1. rewrite attention_run. cbv zeta. cbn [andb].
  destruct (isValid _ _); [|done].
  destruct (shape in2 !! 0%nat) as [d|]; [|done].
  unfold bind at 1. rewrite project_output_run.
  unfold with_queue. cbn [layer runner_cfg heap queue].
  rewrite <- !app_assoc. cbn [app].
  destruct (is_free_buffer_after_forward_ (layer s)); [|done].
  match goal with |- freeBuffer ?s0 = _ =>
    pose proof (freeBuffer_ok s0) as Hok; destruct (freeBuffer s0) as [r s'] end.
  cbn in Hok. by subst r.
Qed.

(** An accepted call, in full. *)
Lemma forward_accepted_eq (s : Sys) o i w out0 in0 in1 in2 rows batch len :
  accepted_call s o i out0 in0 in1 in2 rows batch len →
  let s2 := ready_state batch len s in
  let L := layer s2 in
  let n := wrap_i32 (hidden_units_ L) in
  let s3 :=
    after_ops L w out0 in2 (wrap_i32 len) rows
      (with_queue s2 (qkv_ops (chosen_strategy L n rows n) L w (data in0)
                        n rows (m_tmp rows) n)) in
  forward o i w s
  = (forward_result L in2 (wrap_i32 len),
     match forward_result L in2 (wrap_i32 len) with
     | Ok _ => if is_free_buffer_after_forward_ L then (freeBuffer s3).2 else s3
     | Throw _ => s3
     end).
Proof.
  intros Hcall. cbv zeta.
  rewrite (forward_accepted _ _ _ w _ _ _ _ _ _ _ Hcall). cbv zeta.
  by rewrite forward_rest_eq.
Qed.

(** ** When a call releases the scratch buffers *)

(** A call that returns leaves the buffers allocated exactly when the layer
    is not set to release them after forward.  A call that fails the launch
    assertion or the tile-class check leaves them allocated whatever the
    release flag says: the release at the end of [forward] is not
    reached. *)
Theorem forward_release_on_return (s : Sys) o i w :
  let r := (forward o i w s).1 in
  let s' := (forward o i w s).2 in
  (r = Ok tt →
   is_allocate_buffer_ (layer s')
   = negb (is_free_buffer_after_forward_ (layer s)))
  ∧ (r = Throw AssertFailed ∨ r = Throw (CheckFailed ChkTileClass) →
     is_allocate_buffer_ (layer s') = true).
Proof.
  cbv zeta.
  destruct (forward_cases s o i w)
    as [(e&Hr&_&He)|[(e&batch&len&Hr&He&_)
                    |(out0&in0&in1&in2&rows&batch&len&Hcall)]].
  - rewrite Hr. split; [done|]. by intros [[= ->]|[= ->]].
  - rewrite Hr. split; [done|]. intros [[= ->]|[= ->]]; by destruct He.
  - rewrite (forward_accepted_eq _ _ _ w _ _ _ _ _ _ _ Hcall). cbv zeta.
    cbn [fst snd].
    destruct (ready_state_stable batch len s) as (_&_&_&_&_&_&Hfree&_).
    pose proof (ready_state_allocated batch len s) as Hflag.
    destruct (forward_result _ _ _) as [[]|e].
    + split; [intros _|by intros [?|?]]. rewrite Hfree.
      destruct (is_free_buffer_after_forward_ (layer s));
        [apply freeBuffer_clears_flag|done].
    + split; [done|]. by intros _.
Qed.

(** ** Calls on an allocated layer *)

(** On a layer whose buffers are allocated, a call that does not end in
    the release (the layer is not set to release after forward, or the call
    throws) makes no allocator call and leaves the layer as it was but for
    a capacity it may have adopted: the buffers of the earlier calls are
    used again. *)
Theorem forward_reuses_buffers (s : Sys) o i w :
  is_allocate_buffer_ (layer s) = true →
  is_free_buffer_after_forward_ (layer s) = false
  ∨ (forward o i w s).1 ≠ Ok tt →
  let s' := (forward o i w s).2 in
  heap s' = heap s
  ∧ clear_capacities (layer s') = clear_capacities (layer s)
  ∧ scratch_ptrs (layer s') = scratch_ptrs (layer s)
  ∧ is_allocate_buffer_ (layer s') = true.
Proof.
  intros Hflag Hkeep. cbv zeta.
  assert (∀ s' : Sys,
            heap s' = heap s
            ∧ clear_capacities (layer s') = clear_capacities (layer s) →
            heap s' = heap s
            ∧ clear_capacities (layer s') = clear_capacities (layer s)
            ∧ scratch_ptrs (layer s') = scratch_ptrs (layer s)
            ∧ is_allocate_buffer_ (layer s') = true) as Hfin.
  { intros s' [Hh HL]. split; [done|]. split; [done|]. split.
    - by apply (f_equal scratch_ptrs) in HL.
    - apply (f_equal is_allocate_buffer_) in HL. cbn in HL. congruence. }
  apply Hfin.
  destruct (forward_cases s o i w)
    as [(e&Hr&Hg&He)|[(e&batch&len&Hr&He&Hs'&_)
                     |(out0&in0&in1&in2&rows&batch&len&Hcall)]].
  - by destruct Hg as (?&_&_&?).
  - rewrite Hs'.
    by destruct (ready_state_of_allocated batch len s Hflag) as (?&_&_&?).
  - destruct (ready_state_of_allocated batch len s Hflag) as (Hh&_&_&HL).
    destruct (ready_state_stable batch len s) as (_&_&_&_&_&_&Hfree&_).
    revert Hkeep.
    rewrite (forward_accepted_eq _ _ _ w _ _ _ _ _ _ _ Hcall). cbv zeta.
    cbn [fst snd]. rewrite Hfree.
    destruct (forward_result _ _ _) as [[]|e]; [|done].
    intros [->|?]; done.
Qed.

(** ** The regions the layer holds *)

Section Ownership.

Context `{allocator_laws : !IAllocatorLaws A}.

(** The allocator has handed out the regions in [live0] to others, and to
    the layer its seven scratch regions when it is allocated and nothing
    when it is not. *)
Definition owns (live0 : gset Z) (s : Sys) : Prop :=
  if is_allocate_buffer_ (layer s) then
    alloc_live (heap s) = list_to_set (scratch_regions (layer s)) ∪ live0
    ∧ ∀ r, r ∈ scratch_regions (layer s) → r ∉ live0
  else alloc_live (heap s) = live0.

Definition keeps_owned (live0 : gset Z) : relation Sys :=
  λ s s', owns live0 s → owns live0 s'.

#[local] Instance keeps_owned_preorder live0 : PreOrder (keeps_owned live0).
Proof. split; unfold keeps_owned; [by intros ?|intros ???; auto]. Qed.

Lemma keeps_owned_same live0 (s s' : Sys) :
  is_allocate_buffer_ (layer s') = is_allocate_buffer_ (layer s) →
  scratch_regions (layer s') = scratch_regions (layer s) →
  heap s' = heap s →
  keeps_owned live0 s s'.
Proof using Type. unfold keeps_owned, owns. by intros -> -> ->. Qed.

Lemma keeps_owned_guards live0 (s s' : Sys) :
  guards_only s s' → keeps_owned live0 s s'.
Proof using Type.
  intros Hg. apply keeps_owned_same;
    [by apply guards_only_flag|by apply guards_only_scratch|by destruct Hg].
Qed.

Lemma owns_allocateBuffer live0 (s : Sys) :
  keeps_owned live0 s (allocateBuffer s).2.
Proof using allocator_laws.
  intros Hs. destruct (is_allocate_buffer_ (layer s)) eqn:E.
  { by rewrite allocateBuffer_allocated. }
  unfold owns in Hs. rewrite E in Hs.
  change (wp allocateBuffer s (λ _ s', owns live0 s')).
  unfold allocateBuffer. wp_step. wp_step. rewrite E. cbn [negb].
  wp_run.
  repeat match goal with
         | H : alloc_malloc _ _ _ = _ |- _ =>
             apply malloc_eq_spec in H; destruct H as [? ?]
         end.
  cbn [heap] in *.
  unfold owns, scratch_regions.
  cbn [layer heap fmap list_fmap set_is_allocate_buffer_ set_buffers q_buf_
    k_buf_ v_buf_ qkv_buf_ qkv_buf_2_ attn_workspace_ batch_qkv_kernel_ptr_
    is_allocate_buffer_].
  repeat match goal with
         | H : alloc_live ?h = _ |- _ => rewrite H in *; clear H
         end.
  split.
  - set_solver.
  - intros r Hr. set_solver.
Qed.

Lemma owns_freeBuffer live0 (s : Sys) :
  keeps_owned live0 s (freeBuffer s).2.
Proof using allocator_laws.
  intros Hs. destruct (is_allocate_buffer_ (layer s)) eqn:E; cycle 1.
  { by rewrite freeBuffer_unallocated. }
  unfold owns in Hs. rewrite E in Hs. destruct Hs as [Hlive Hapart].
  change (wp freeBuffer s (λ _ s', owns live0 s')).
  unfold freeBuffer. wp_step. wp_step. rewrite E.
  wp_run. unfold owns. cbn.
  rewrite !free_live, Hlive. unfold scratch_regions in *.
  cbn [fmap list_fmap] in *. apply set_eq. intros x. split.
  - set_unfold. tauto.
  - intros Hx.
    assert (∀ r, In r [region (q_buf_ (layer s)); region (k_buf_ (layer s));
                       region (v_buf_ (layer s)); region (qkv_buf_ (layer s));
                       region (qkv_buf_2_ (layer s));
                       region (attn_workspace_ (layer s));
                       region (batch_qkv_kernel_ptr_ (layer s))] → x ≠ r)
      as Hne.
    { intros r Hr ->. apply (Hapart r); [by apply list_elem_of_In|done]. }
    rewrite !elem_of_difference, elem_of_union, !not_elem_of_singleton.
    repeat split; [by right|..]; apply Hne; cbn; tauto.
Qed.

Lemma keeps_owned_forward live0 o i w :
  steps (keeps_owned live0) (forward o i w).
Proof using allocator_laws.
  unfold forward, project_output, attention, invokeTrtAddQkvBias, project_qkv.
  steps_go;
    first [ (intros s; by apply keeps_owned_same)
          | (intros s; apply keeps_owned_guards;
             first [ apply guards_only_isValidBatchSize
                   | apply guards_only_isValidSeqLen ])
          | (intros s; apply owns_allocateBuffer)
          | (intros s; apply owns_freeBuffer) ].
Qed.

Lemma keeps_owned_run_calls live0 cs :
  ∀ s, keeps_owned live0 s (run_calls cs s).
Proof using allocator_laws.
  induction cs as [|c cs IH]; intros s; cbn; [reflexivity|].
  etrans; [|apply IH]. destruct c; cbn.
  - apply keeps_owned_forward.
  - apply owns_allocateBuffer.
  - apply owns_freeBuffer.
Qed.

(** The layer never leaks a region and never releases a region of someone
    else.  A layer fresh out of the constructor holds nothing; through any
    sequence of calls the allocator's live regions are those that were live
    at construction, together with the seven scratch regions while the
    layer is allocated, none of which was live at construction; and the
    destructor brings the live regions back to those of construction. *)
Theorem layer_returns_what_it_allocates :
  (∀ mb ms hn sph sm qs fr sp L (a : A),
     FusedAttentionLayer_new mb ms hn sph sm qs fr sp = Ok L →
     owns (alloc_live a) (new_sys L a))
  ∧ (∀ live0 (s : Sys) calls,
       owns live0 s →
       let s' := run_calls calls s in
       owns live0 s'
       ∧ FusedAttentionLayer_delete s'
         = (Ok tt, (FusedAttentionLayer_delete s').2)
       ∧ alloc_live (heap (FusedAttentionLayer_delete s').2) = live0
       ∧ is_allocate_buffer_ (layer (FusedAttentionLayer_delete s').2) = false).
Proof using allocator_laws.
  split.
  - intros mb ms hn sph sm qs fr sp L a HL.
    unfold FusedAttentionLayer_new in HL.
    destruct (supported_arch sm sph); [|done]. by simplify_eq.
  - intros live0 s calls Hs. cbv zeta.
    pose proof (keeps_owned_run_calls live0 calls s Hs) as Hs'.
    split; [done|]. unfold FusedAttentionLayer_delete.
    pose proof (owns_freeBuffer live0 _ Hs') as Hd.
    pose proof (freeBuffer_clears_flag (run_calls calls s)) as Hflag.
    pose proof (freeBuffer_ok (run_calls calls s)) as Hok.
    split; [by destruct (freeBuffer (run_calls calls s)) as [r s']; cbn in *;
            subst r|].
    split; [|done]. unfold owns in Hd. by rewrite Hflag in Hd.
Qed.

End Ownership.

(** ** The copy constructor *)

(** Copying a layer that a constructor built, after any sequence of calls
    on it, does not throw, and gives what the constructor gives for the
    same arguments with the two capacities the original has by now: the
    adopted capacities are copied, the buffers and the allocation flag are
    not.  Destroying the copy releases nothing. *)
Theorem copy_constructor_rebuilds mb ms hn sph sm qs fr sp L (a : A) calls :
  FusedAttentionLayer_new mb ms hn sph sm qs fr sp = Ok L →
  let L1 := layer (run_calls calls (new_sys L a)) in
  FusedAttentionLayer_copy L1
  = FusedAttentionLayer_new (max_batch_size_ L1) (max_seq_len_ L1) hn sph sm
      qs fr sp
  ∧ ∃ L2, FusedAttentionLayer_copy L1 = Ok L2
          ∧ is_allocate_buffer_ L2 = false
          ∧ ∀ (h : A) cfg q,
              FusedAttentionLayer_delete (mkSys L2 cfg h q)
              = (Ok tt, mkSys L2 cfg h q).
Proof.
  intros HL. cbv zeta.
  destruct (stable_run_calls calls (new_sys L a))
    as (Hhn&Hsph&Hhu&Hsm&Hqs&Hsp&Hfr&_).
  unfold FusedAttentionLayer_new in HL.
  destruct (supported_arch sm sph) eqn:Hs; [|done]. simplify_eq.
  cbn [new_sys layer head_num_ size_per_head_ hidden_units_ sm_ q_scaling_
       sparse_ is_free_buffer_after_forward_] in *.
  unfold FusedAttentionLayer_copy, FusedAttentionLayer_new.
  rewrite Hhn, Hsph, Hhu, Hsm, Hqs, Hsp, Hfr, Hs.
  split; [done|]. eexists. split; [done|]. split; [done|].
  intros h cfg q. unfold FusedAttentionLayer_delete.
  by apply freeBuffer_unallocated.
Qed.

(** ** The launch limit on the head count *)

Lemma launch_fits_heads (L : Layer) :
  size_per_head_ L = 64 → 0 ≤ head_num_ L < 2 ^ 27 →
  launch_fits L = true ↔ head_num_ L ≤ 32.
Proof.
  intros Hsph Hhn. unfold launch_fits. rewrite Hsph.
  rewrite wrap_u64_small by lia.
  replace (head_num_ L * 64) with (head_num_ L * 32 * 2) by lia.
  rewrite Z.div_mul by lia. rewrite wrap_u32_small by lia.
  rewrite Z.leb_le. lia.
Qed.

(** With the per-head size of 64 that the constructors require, the block
    of the bias-fusion launch has 32 threads per head: an accepted call
    fails the launch assertion exactly when the layer has more than 32
    heads, and then it has enqueued the input projections and nothing else,
    and has not configured the runner. *)
Theorem forward_head_limit (s : Sys) o i w out0 in0 in1 in2 rows batch len :
  accepted_call s o i out0 in0 in1 in2 rows batch len →
  size_per_head_ (layer s) = 64 → 0 ≤ head_num_ (layer s) < 2 ^ 27 →
  let L := layer (ready_state batch len s) in
  let n := wrap_i32 (hidden_units_ L) in
  ((forward o i w s).1 = Throw AssertFailed ↔ 32 < head_num_ (layer s))
  ∧ (32 < head_num_ (layer s) →
     new_ops s (forward o i w s).2
     = qkv_ops (chosen_strategy L n rows n) L w (data in0) n rows (m_tmp rows) n
     ∧ runner_cfg (forward o i w s).2 = runner_cfg s)
  ∧ (head_num_ (layer s) ≤ 32 →
     ∃ grid block qkv Q bQ K bK V bV vw hn sph,
       Launch_trt_add_QKV_bias grid block qkv Q bQ K bK V bV vw hn sph
       ∈ new_ops s (forward o i w s).2
       ∧ block = 32 * head_num_ (layer s) ∧ grid = wrap_u32 rows).
Proof.
  intros Hcall Hsph Hhn. cbv zeta.
  destruct (forward_accepted_run _ _ _ w _ _ _ _ _ _ _ Hcall) as (Hr&Hq&Hc).
  cbv zeta in Hr, Hq, Hc. apply new_ops_app in Hq.
  destruct (ready_state_stable batch len s) as (Hhn'&Hsph'&_).
  pose proof (launch_fits_heads (layer (ready_state batch len s))) as Hfits.
  rewrite Hhn', Hsph' in Hfits. specialize (Hfits Hsph Hhn).
  rewrite Hr, Hq, Hc. unfold forward_result, attention_ops, forward_cfg.
  cbv zeta.
  destruct (launch_fits (layer (ready_state batch len s))) eqn:Hf.
  - assert (head_num_ (layer s) ≤ 32) as Hle by by apply Hfits.
    split; [|split].
    + split; [|lia].
      destruct (isValid _ _); [|done]. by destruct (shape in2 !! 0%nat).
    + lia.
    + intros _. unfold launch_op.
      eexists _, _, _, _, _, _, _, _, _, _, _, _. split.
      * apply elem_of_app. right. apply list_elem_of_here.
      * rewrite Hhn', Hsph', Hsph. rewrite wrap_u64_small by lia.
        replace (head_num_ (layer s) * 64) with (head_num_ (layer s) * 32 * 2)
          by lia.
        rewrite Z.div_mul by lia. rewrite wrap_u32_small by lia.
        split; [lia|done].
  - assert (¬ head_num_ (layer s) ≤ 32) as Hgt.
    { intros Hle. apply Hfits in Hle. congruence. }
    split; [|split].
    + split; [lia|done].
    + intros _. cbn [andb]. by rewrite app_nil_r.
    + lia.
Qed.

(** ** What was accepted stays acceptable *)





(** ** What a forward call reads of its tensors *)

(** Of the output tensors: the data pointer of the first.  Of the input
    tensors: the data pointer and the first dimension of the first (the
    token count), the first and third dimensions of the second (the mask:
    its batch size and sequence length), and the data pointer and the first
    dimension of the third (the padding offsets). *)
Definition reads_of_outputs (o : list Tensor) : option ptr :=
  data <$> o !! 0%nat.

Definition reads_of_inputs (i : list Tensor)
  : option (ptr * option Z) * option (option Z * option Z)
    * option (ptr * option Z) :=
  ((λ t, (data t, shape t !! 0%nat)) <$> i !! 0%nat,
   (λ t, (shape t !! 0%nat, shape t !! 2%nat)) <$> i !! 1%nat,
   (λ t, (data t, shape t !! 0%nat)) <$> i !! 2%nat).

Lemma bind_vec_at_Some {Y} v k t (f : Tensor → M Y) :
  v !! k = Some t → bind (vec_at v k) f = f t.
Proof. intros E. unfold bind, vec_at. by rewrite E. Qed.

Lemma bind_vec_at_None {Y} v k (f : Tensor → M Y) :
  v !! k = None → bind (vec_at v k) f = throw OutOfRange.
Proof. intros E. unfold bind, vec_at. by rewrite E. Qed.

(** A forward call depends on nothing else of its tensors: two calls whose
    tensors agree on what is read do the same from every state, whatever
    the other dimensions, the other tensors and the data pointer of the
    mask are. *)
Theorem forward_reads_only o o' i i' w :
  reads_of_outputs o' = reads_of_outputs o →
  reads_of_inputs i' = reads_of_inputs i →
  forward o' i' w = forward o i w.
Proof.
  unfold reads_of_outputs, reads_of_inputs. intros Ho [= H0 H1 H2].
  destruct (o !! 0%nat) as [[po so]|] eqn:Eo,
           (o' !! 0%nat) as [[po' so']|] eqn:Eo'; try done.
  all: destruct (i !! 0%nat) as [[p0 s0]|] eqn:E0,
                (i' !! 0%nat) as [[p0' s0']|] eqn:E0'; try done.
  all: destruct (i !! 1%nat) as [[p1 s1]|] eqn:E1,
                (i' !! 1%nat) as [[p1' s1']|] eqn:E1'; try done.
  all: destruct (i !! 2%nat) as [[p2 s2]|] eqn:E2,
                (i' !! 2%nat) as [[p2' s2']|] eqn:E2'; try done.
  all: cbn in Ho, H0, H1, H2; simplify_eq.
  all: unfold forward, attention.
  all: repeat (first [ rewrite (bind_vec_at_Some i _ _ _ E0)
                     | rewrite (bind_vec_at_Some i' _ _ _ E0')
                     | rewrite (bind_vec_at_Some i _ _ _ E1)
                     | rewrite (bind_vec_at_Some i' _ _ _ E1')
                     | rewrite (bind_vec_at_Some i _ _ _ E2)
                     | rewrite (bind_vec_at_Some i' _ _ _ E2')
                     | rewrite (bind_vec_at_Some o _ _ _ Eo)
                     | rewrite (bind_vec_at_Some o' _ _ _ Eo')
                     | rewrite (bind_vec_at_None i _ _ E0)
                     | rewrite (bind_vec_at_None i' _ _ E0')
                     | rewrite (bind_vec_at_None i _ _ E1)
                     | rewrite (bind_vec_at_None i' _ _ E1')
                     | rewrite (bind_vec_at_None i _ _ E2)
                     | rewrite (bind_vec_at_None i' _ _ E2')
                     | rewrite (bind_vec_at_None o _ _ Eo)
                     | rewrite (bind_vec_at_None o' _ _ Eo') ]; cbv beta).
  all: unfold shape_idx; cbn [data shape].
  all: repeat match goal with
              | H : ?l !! ?k = ?l' !! ?k |- _ => rewrite H; clear H
              end.
  all: reflexivity.
Qed.

(** ** A call that fails keeps failing *)

(** What decides how an accepted call ends is part of the configuration. *)
Lemma forward_result_same (L L' : Layer) in2 len :
  head_num_ L' = head_num_ L → size_per_head_ L' = size_per_head_ L →
  dispatcher_fp16 L' = dispatcher_fp16 L →
  forward_result L' in2 len = forward_result L in2 len.
Proof.
  intros Hhn Hsph Hd. unfold forward_result, launch_fits.
  by rewrite Hhn, Hsph, Hd.
Qed.

Lemma isValidBatchSize_refuses batch (s : Sys) :
  (isValidBatchSize batch s).1 = Ok false →
  max_batch_size_ (layer s) ≠ 0 ∧ max_batch_size_ (layer s) < batch.
Proof.
  destruct (decide (max_batch_size_ (layer s) = 0)) as [E|E].
  - by rewrite isValidBatchSize_unset.
  - rewrite isValidBatchSize_set by done. cbn. intros [= Hgt%Z.leb_gt]. done.
Qed.

Lemma isValidSeqLen_result len (s : Sys) :
  ∃ b, (isValidSeqLen len s).1 = Ok b
       ∧ (b = true ↔
          (max_seq_len_ (layer s) ≠ 0 → len ≤ max_seq_len_ (layer s))
          ∧ len ≤ 384).
Proof.
  destruct (decide (max_seq_len_ (layer s) = 0)) as [E|E].
  - rewrite isValidSeqLen_unset by done. eexists. split; [done|].
    rewrite andb_true_iff, !Z.leb_le. intuition lia.
  - rewrite isValidSeqLen_set by done. eexists. split; [done|].
    rewrite andb_true_iff, !Z.leb_le. intuition lia.
Qed.

Lemma isValidBatchSize_keeps_seq_len batch (s : Sys) :
  max_seq_len_ (layer (isValidBatchSize batch s).2) = max_seq_len_ (layer s).
Proof.
  change (wp (isValidBatchSize batch) s
            (λ _ s', max_seq_len_ (layer s') = max_seq_len_ (layer s))).
  by apply wp_isValidBatchSize.
Qed.

(** A forward call that does not return does not return either when it is
    made again, with the same tensors, after any sequence of calls: every
    failure is permanent, and the calls that a layer serves never become
    more. *)
Theorem forward_failure_is_permanent (s : Sys) o i w calls :
  (forward o i w s).1 ≠ Ok tt →
  (forward o i w (run_calls calls s)).1 ≠ Ok tt.
Proof.
  intros Hfail Hok.
  pose proof (stable_run_calls calls s) as Hst.
  set (s2 := run_calls calls s) in *.
  destruct (forward_cases s2 o i w)
    as [(e&Hr&_)|[(e&b2&l2&Hr&_)
                 |(out0&in0&in1&in2&rows&batch&len&Hcall2)]];
    [congruence..|].
  destruct Hcall2 as [Ho Hi0 Hi1 Hi2 Hrows Hbatch Hlen Hb2 Hl2].
  destruct Hst as (Hhn&Hsph&Hhu&Hsm&Hqs&Hsp&Hfr&Hd&Hkb&Hkl).
  assert ((isValidBatchSize batch s).1 = Ok true) as Hb.
  { assert (∃ b, (isValidBatchSize batch s).1 = Ok b) as [[|] Hb]; [|done|].
    { change (wp (isValidBatchSize batch) s (λ r _, ∃ b, r = Ok b)).
      apply wp_isValidBatchSize; by eauto. }
    destruct (isValidBatchSize_refuses batch s Hb) as [Hne Hlt].
    specialize (Hkb Hne).
    rewrite isValidBatchSize_set in Hb2 by congruence.
    cbn in Hb2. injection Hb2 as Hle%Z.leb_le. lia. }
  assert ((isValidSeqLen len (isValidBatchSize batch s).2).1 = Ok true) as Hl.
  { destruct (isValidSeqLen_result len (isValidBatchSize batch s).2)
      as (b&Hl&Hiff).
    destruct (isValidSeqLen_result len (isValidBatchSize batch s2).2)
      as (b'&Hl'&Hiff').
    rewrite Hl' in Hl2. injection Hl2 as ->.
    rewrite isValidBatchSize_keeps_seq_len in Hiff, Hiff'.
    destruct (proj1 Hiff' eq_refl) as [Hcap H384].
    rewrite Hl. f_equal. apply Hiff. split; [|done].
    intros Hne. specialize (Hkl Hne). rewrite <- Hkl. apply Hcap. congruence. }
  assert (accepted_call s o i out0 in0 in1 in2 rows batch len) as Hcall
    by by split.
  assert (accepted_call s2 o i out0 in0 in1 in2 rows batch len) as Hcall2
    by by split.
  destruct (forward_accepted_run _ _ _ w _ _ _ _ _ _ _ Hcall) as (Hr&_).
  destruct (forward_accepted_run _ _ _ w _ _ _ _ _ _ _ Hcall2) as (Hr2&_).
  cbv zeta in Hr, Hr2. rewrite Hr in Hfail. rewrite Hr2 in Hok.
  apply Hfail. rewrite <- Hok. symmetry.
  destruct (ready_state_stable batch len s) as (Hhn1&Hsph1&_&_&_&_&_&Hd1&_).
  destruct (ready_state_stable batch len s2) as (Hhn2&Hsph2&_&_&_&_&_&Hd2&_).
  apply forward_result_same; congruence.
Qed.

(** * Further properties of the device code *)

(** ** Where the bias-fusion kernel writes *)

Section KernelFrame.

Variables (qkv Q bQ K bK V bV : ptr) (vw grid H P : Z).
Hypothesis H_pos : 0 < H.
Hypothesis P_pos : 0 < P.
Hypothesis grid_fits : 3 * grid * H * P < 2 ^ 31.
Hypothesis qkv_apart :
  region qkv ∉ region <$> [Q; bQ; K; bK; V; bV].

(** The half2 indices of the grid's threads fill the fused buffer and stay
    inside it. *)
Lemma fused_index_range b t c :
  in_grid grid H P (b, t) → 0 ≤ c < 3 →
  0 ≤ fused_index H P b t c < 3 * grid * H * P.
Proof using H_pos P_pos grid_fits.
  intros Hin Hc.
  pose proof (in_grid_bounds grid H P H_pos P_pos grid_fits b t Hin)
    as (Hr&Hq&Et&_).
  destruct Hin as [[Hb0 Hb] _]. cbn in Hb0, Hb. unfold fused_index.
  assert (0 ≤ b * H * 3 * P) by nia.
  assert (b * H * 3 * P ≤ (grid - 1) * H * 3 * P) by nia.
  assert (0 ≤ t / P * 3 * P) by nia.
  assert (t / P * 3 * P ≤ (H - 1) * 3 * P) by nia.
  assert (0 ≤ c * P) by nia. assert (c * P ≤ 2 * P) by nia.
  nia.
Qed.

Lemma run_threads_outside threads j (mem : DevMem) :
  Forall (in_grid grid H P) threads →
  j < offset qkv ∨ offset qkv + 2 * (3 * grid * H * P) ≤ j →
  hmem (run_threads threads
          (λ b t, trt_add_QKV_bias b t (H * P) qkv Q bQ K bK V bV vw H P) mem)
       (region qkv) j
  = hmem mem (region qkv) j.
Proof using H_pos P_pos grid_fits qkv_apart.
  intros Hall Hj. revert mem.
  induction Hall as [|[b t] threads Hin Hall IH]; intros mem; [done|].
  unfold run_threads in *. cbn [foldl fst snd]. rewrite IH.
  apply (thread_unwritten qkv Q bQ K bK V bV vw grid H P H_pos P_pos grid_fits
           qkv_apart b t j mem Hin).
  intros c e Hc He E.
  pose proof (fused_index_range b t c Hin Hc). unfold fused_addr in E. lia.
Qed.

End KernelFrame.

(** A thread stores into the region of the fused buffer only, and leaves
    the pointer and [int] cells alone, whatever its indices. *)
Lemma run_threads_other_regions threads bd qkv Q bQ K bK V bV vw hn sph
    (mem : DevMem) :
  let mem' :=
    run_threads threads
      (λ b t, trt_add_QKV_bias b t bd qkv Q bQ K bK V bV vw hn sph) mem in
  (∀ r j, r ≠ region qkv → hmem mem' r j = hmem mem r j)
  ∧ pmem mem' = pmem mem ∧ imem mem' = imem mem.
Proof.
  cbv zeta. revert mem.
  induction threads as [|[b t] threads IH]; intros mem; [done|].
  cbn [run_threads foldl]. destruct (IH
    (trt_add_QKV_bias b t bd qkv Q bQ K bK V bV vw hn sph mem)) as (Hh&Hp&Hi).
  unfold run_threads in *. cbn [fst snd]. split; [|split].
  - intros r j Hr. rewrite Hh by done. unfold trt_add_QKV_bias. cbv zeta.
    by rewrite !hmem_store_half2_other.
  - by rewrite Hp.
  - by rewrite Hi.
Qed.

(** The launch that [invokeTrtAddQkvBias] enqueues writes nowhere but into
    the first 3 x token_num x head_num x size_per_head elements of the fused
    buffer: every other element of device memory, every pointer cell and
    every [int] cell is as before the launch.  The per-head size is even,
    the block fits the launch limit, the fused buffer is indexable by an
    [int] and apart from the inputs, and the hardware runs no thread
    outside the grid. *)
Theorem bias_fusion_writes_in_bounds (s s' : Sys) token_num w (mem : DevMem) :
  let L := layer s in
  let heads := head_num_ L in
  let D := size_per_head_ L in
  let fused := qkv_buf_ L in
  invokeTrtAddQkvBias token_num w s = (Ok tt, s') →
  0 < heads → 0 < D → D mod 2 = 0 → heads * D / 2 ≤ 1024 →
  0 ≤ token_num → 3 * token_num * (heads * D / 2) < 2 ^ 31 →
  region fused ∉ region <$> [q_buf_ L; bias (query_weight w);
                             k_buf_ L; bias (key_weight w);
                             v_buf_ L; bias (value_weight w)] →
  (∀ b t, (b, t) ∈ schedule token_num (heads * D / 2) →
          0 ≤ b < token_num ∧ 0 ≤ t < heads * D / 2) →
  let mem' := exec_queue (new_ops s s') mem in
  (∀ r j,
     r ≠ region fused ∨ j < offset fused
     ∨ offset fused + 3 * token_num * heads * D ≤ j →
     hmem mem' r j = hmem mem r j)
  ∧ pmem mem' = pmem mem ∧ imem mem' = imem mem.
Proof.
  cbv zeta. intros Hrun Hheads HD Heven Hfit Htok Hint Hapart Hsched.
  set (P := size_per_head_ (layer s) / 2).
  assert (size_per_head_ (layer s) = 2 * P) as ED.
  { subst P. pose proof (Z.div_mod (size_per_head_ (layer s)) 2 ltac:(lia)).
    lia. }
  assert (0 < P) as HP by lia.
  assert (head_num_ (layer s) * size_per_head_ (layer s) / 2
          = head_num_ (layer s) * P) as Eblock.
  { rewrite ED. replace (head_num_ (layer s) * (2 * P))
      with (head_num_ (layer s) * P * 2) by lia. by rewrite Z.div_mul. }
  rewrite Eblock in Hfit, Hint, Hsched.
  assert (0 < head_num_ (layer s) * P) by nia.
  assert (token_num < 2 ^ 31) by nia.
  rewrite invokeTrtAddQkvBias_run in Hrun.
  destruct (_ <=? 1024) in Hrun; [|done]. injection Hrun as <-.
  rewrite (new_ops_app s _ [launch_op (layer s) token_num w]) by done.
  unfold exec_queue. cbn [foldl]. unfold launch_op, exec_op.
  rewrite (wrap_u64_small (_ * _)) by (rewrite ED; nia).
  rewrite Eblock, !wrap_u32_small by lia.
  rewrite (wrap_i32_small (head_num_ (layer s))) by nia.
  fold P. rewrite (wrap_i32_small P) by nia.
  set (heads := head_num_ (layer s)) in *.
  assert (Forall (in_grid token_num heads P) (schedule token_num (heads * P)))
    as Hall.
  { apply Forall_forall. intros [b t] Hbt. by apply Hsched in Hbt. }
  destruct (run_threads_other_regions (schedule token_num (heads * P))
              (heads * P) (qkv_buf_ (layer s)) (q_buf_ (layer s))
              (bias (query_weight w)) (k_buf_ (layer s)) (bias (key_weight w))
              (v_buf_ (layer s)) (bias (value_weight w)) (wrap_i32 token_num)
              heads P mem) as (Hother&Hp&Hi).
  split; [|done].
  intros r j Hrj.
  destruct (decide (r = region (qkv_buf_ (layer s)))) as [->|Hr];
    [|by apply Hother].
  apply (run_threads_outside (qkv_buf_ (layer s)) (q_buf_ (layer s))
           (bias (query_weight w)) (k_buf_ (layer s)) (bias (key_weight w))
           (v_buf_ (layer s)) (bias (value_weight w)) (wrap_i32 token_num)
           token_num heads P Hheads HP ltac:(lia) Hapart _ j mem Hall).
  rewrite ED in Hrj. destruct Hrj as [?|Hrj]; [done|]. lia.
Qed.

(** ** The batched and the dense projections *)

Lemma table_entry_write_view c f (m : DevMem) tbl i :
  table_entry (write_view c f m) tbl i = table_entry m tbl i.
Proof. done. Qed.

(** The entries of the three tables once the host table is copied. *)
Lemma table_entries_copied (L : Layer) w from (mem : DevMem) :
  table_layout L →
  let hA := [kernel (query_weight w); kernel (key_weight w);
             kernel (value_weight w); nullptr; from; from; from; nullptr;
             q_buf_ L; k_buf_ L; v_buf_ L; nullptr] in
  let m0 := exec_op (MemcpyAsync (batch_qkv_kernel_ptr_ L) hA (8 * 12)) mem in
  ∀ i : nat, (i < 3)%nat →
    hA !! i = Some (table_entry m0 (batch_qkv_kernel_ptr_ L) (Z.of_nat i))
    ∧ table_entry m0 (batch_qkv_input_ptr_ L) (Z.of_nat i) = from
    ∧ hA !! (8 + i)%nat
      = Some (table_entry m0 (batch_qkv_buf_ptr_ L) (Z.of_nat i)).
Proof.
  intros [Ein Ebuf]. cbv zeta. intros i Hi. rewrite Ein, Ebuf.
  assert (i = 0 ∨ i = 1 ∨ i = 2)%nat as [->|[->| ->]] by lia.
  - rewrite (table_entry_Memcpy mem _ _ (batch_qkv_kernel_ptr_ L) 0 0
               (kernel (query_weight w))),
      (table_entry_Memcpy mem _ _ (ptr_add (batch_qkv_kernel_ptr_ L) 4) 0 4
         from),
      (table_entry_Memcpy mem _ _
         (ptr_add (ptr_add (batch_qkv_kernel_ptr_ L) 4) 4) 0 8 (q_buf_ L))
      by (done || cbn; lia). done.
  - rewrite (table_entry_Memcpy mem _ _ (batch_qkv_kernel_ptr_ L) 1 1
               (kernel (key_weight w))),
      (table_entry_Memcpy mem _ _ (ptr_add (batch_qkv_kernel_ptr_ L) 4) 1 5
         from),
      (table_entry_Memcpy mem _ _
         (ptr_add (ptr_add (batch_qkv_kernel_ptr_ L) 4) 4) 1 9 (k_buf_ L))
      by (done || cbn; lia). done.
  - rewrite (table_entry_Memcpy mem _ _ (batch_qkv_kernel_ptr_ L) 2 2
               (kernel (value_weight w))),
      (table_entry_Memcpy mem _ _ (ptr_add (batch_qkv_kernel_ptr_ L) 4) 2 6
         from),
      (table_entry_Memcpy mem _ _
         (ptr_add (ptr_add (batch_qkv_kernel_ptr_ L) 4) 4) 2 10 (v_buf_ L))
      by (done || cbn; lia). done.
Qed.

(** The table copy and the batched matmul do to the elements and the [int]
    cells what the three dense matmuls do. *)
Lemma batched_as_dense (L : Layer) w from n m k (mem : DevMem) :
  table_layout L →
  let mb := exec_queue (batched_qkv_ops L w from n m k) mem in
  let md := exec_queue (dense_qkv_ops L w from n m k) mem in
  hmem mb = hmem md ∧ imem mb = imem md.
Proof.
  intros Hlay. cbv zeta.
  pose proof (table_entries_copied L w from mem Hlay) as Hent.
  cbv zeta in Hent.
  unfold batched_qkv_ops, dense_qkv_ops, exec_queue. cbn [foldl].
  set (m0 := exec_op (MemcpyAsync _ _ _) mem) in *.
  assert (hmem m0 = hmem mem) as Hh by done.
  assert (imem m0 = imem mem) as Hi by done.
  clearbody m0.
  destruct (Hent 0%nat ltac:(lia)) as (A0&B0&C0).
  destruct (Hent 1%nat ltac:(lia)) as (A1&B1&C1).
  destruct (Hent 2%nat ltac:(lia)) as (A2&B2&C2).
  cbn [lookup list_lookup Nat.add] in A0, A1, A2, C0, C1, C2.
  change (Z.of_nat 0) with 0 in *. change (Z.of_nat 1) with 1 in *.
  change (Z.of_nat 2) with 2 in *.
  injection A0 as A0. injection A1 as A1. injection A2 as A2.
  injection C0 as C0. injection C1 as C1. injection C2 as C2.
  unfold exec_op. change (seqZ 0 3) with [0; 1; 2].
  cbn [foldl]. cbv zeta.
  rewrite !table_entry_write_view.
  rewrite <- A0, <- A1, <- A2, B0, B1, B2, <- C0, <- C1, <- C2.
  unfold write_view, view. cbn [hmem imem]. by rewrite Hh, Hi.
Qed.

(** Two memories with the same elements and the same [int] cells; their
    pointer cells may differ. *)
Definition same_data (m1 m2 : DevMem) : Prop :=
  hmem m1 = hmem m2 ∧ imem m1 = imem m2.

(** The operations that follow no pointer of a table in device memory. *)
Definition reads_no_table (op : Op) : Prop :=
  match op with
  | BatchedGemm _ _ _ _ _ _ _ _ _ _ => False
  | _ => True
  end.

Lemma same_data_view (m1 m2 : DevMem) p :
  same_data m1 m2 → view m1 p = view m2 p.
Proof. intros [Hh _]. unfold view. by rewrite Hh. Qed.

Lemma same_data_iview (m1 m2 : DevMem) p :
  same_data m1 m2 → iview m1 p = iview m2 p.
Proof. intros [_ Hi]. unfold iview. by rewrite Hi. Qed.

Lemma same_data_write_view (m1 m2 : DevMem) p f :
  same_data m1 m2 → same_data (write_view p f m1) (write_view p f m2).
Proof. intros [Hh Hi]. split; cbn; [by rewrite Hh|done]. Qed.

Lemma same_data_thread (m1 m2 : DevMem) b t bd qkv Q bQ K bK V bV vw hn sph :
  same_data m1 m2 →
  same_data (trt_add_QKV_bias b t bd qkv Q bQ K bK V bV vw hn sph m1)
            (trt_add_QKV_bias b t bd qkv Q bQ K bK V bV vw hn sph m2).
Proof.
  intros [Hh Hi]. unfold trt_add_QKV_bias, store_half2, load_half2.
  split; cbn; [by rewrite Hh|done].
Qed.

Lemma same_data_run_threads threads (m1 m2 : DevMem) bd qkv Q bQ K bK V bV vw
    hn sph :
  same_data m1 m2 →
  same_data
    (run_threads threads
       (λ b t, trt_add_QKV_bias b t bd qkv Q bQ K bK V bV vw hn sph) m1)
    (run_threads threads
       (λ b t, trt_add_QKV_bias b t bd qkv Q bQ K bK V bV vw hn sph) m2).
Proof.
  revert m1 m2. induction threads as [|[b t] threads IH]; intros m1 m2 Hm;
    [done|].
  cbn. apply IH. by apply same_data_thread.
Qed.

Lemma same_data_exec_op op (m1 m2 : DevMem) :
  reads_no_table op → same_data m1 m2 →
  same_data (exec_op op m1) (exec_op op m2).
Proof.
  intros Hop Hm. destruct op; try done; cbn [exec_op].
  - rewrite !(same_data_view m1 m2) by done. by apply same_data_write_view.
  - rewrite !(same_data_view m1 m2) by done. by apply same_data_write_view.
  - by apply same_data_run_threads.
  - rewrite !(same_data_view m1 m2), (same_data_iview m1 m2) by done.
    by do 2 apply same_data_write_view.
Qed.

Lemma same_data_exec_queue ops (m1 m2 : DevMem) :
  Forall reads_no_table ops → same_data m1 m2 →
  same_data (exec_queue ops m1) (exec_queue ops m2).
Proof.
  intros Hops. revert m1 m2.
  induction Hops as [|op ops Hop Hops IH]; intros m1 m2 Hm; [done|].
  cbn. apply IH. by apply same_data_exec_op.
Qed.

Lemma attention_ops_read_no_table (L : Layer) w out0 in2 len rows :
  Forall reads_no_table (attention_ops L w out0 in2 len rows).
Proof.
  unfold attention_ops, output_op. cbv zeta.
  destruct (launch_fits L); [|done]. constructor; [done|].
  destruct (isValid _ _); [|done]. destruct (shape in2 !! 0%nat); [|done].
  constructor; [done|]. constructor; [|done].
  by destruct (sparse_branch _ _ _ _).
Qed.

(** With either of the two strategies that are not sparse, an accepted call
    leaves the same elements in device memory. *)
Lemma unbatched_same_data (L : Layer) w from n m mp k out0 in2 len rows
    st1 st2 (mem : DevMem) :
  table_layout L → st1 ≠ Sparse → st2 ≠ Sparse →
  same_data
    (exec_queue (qkv_ops st1 L w from n m mp k
                 ++ attention_ops L w out0 in2 len rows) mem)
    (exec_queue (qkv_ops st2 L w from n m mp k
                 ++ attention_ops L w out0 in2 len rows) mem).
Proof.
  intros Hlay H1 H2. unfold exec_queue. rewrite !foldl_app.
  apply same_data_exec_queue; [apply attention_ops_read_no_table|].
  destruct (batched_as_dense L w from n m k mem Hlay) as [Hh Hi].
  cbv zeta in Hh, Hi.
  destruct st1, st2; try done; cbn [qkv_ops]; split; done.
Qed.

End FusedAttentionLayer.

(** * The provider's answer on batching *)

Section Batching.

Context {float half A : Type} `{allocator_ : !IAllocator A}
  `{runner_ops : !MHARunnerOps float} `{device : !DeviceOps float half}.

Variables (SPARSITY_ENABLED : bool) (sizeof_T : Z).

(** Two matmul providers that give the same answers on sparsity. *)
Definition same_sparsity_answers (c1 c2 : cublasMMWrapper) : Prop :=
  ∀ a n m k, @isUseSparse c1 a n m k = @isUseSparse c2 a n m k.

Lemma attention_ops_same_sparsity (c1 c2 : cublasMMWrapper) (L : Layer float)
    w out0 in2 len rows :
  same_sparsity_answers c1 c2 →
  attention_ops (cublas_wrapper_ := c1) SPARSITY_ENABLED L w out0 in2 len rows
  = attention_ops (cublas_wrapper_ := c2) SPARSITY_ENABLED L w out0 in2 len
      rows.
Proof.
  intros Hsp. unfold attention_ops, output_op, sparse_branch. cbv zeta.
  by rewrite Hsp.
Qed.

(** Whether the provider reports batching as favourable is not observable
    in the data: with two providers that give the same answers on sparsity
    and any answers on batching, a forward call from the same state leaves,
    once its operations have run, the same elements and the same [int]
    cells in device memory.  The pointer tables of an allocated layer are
    laid out as [allocateBuffer] lays them out. *)
Theorem batching_answer_is_unobservable (c1 c2 : cublasMMWrapper)
    (s : Sys float A) o i w (mem : DevMem half) :
  same_sparsity_answers c1 c2 →
  allocated_layout s →
  let ops1 :=
    new_ops s (forward (cublas_wrapper_ := c1) SPARSITY_ENABLED sizeof_T
                 o i w s).2 in
  let ops2 :=
    new_ops s (forward (cublas_wrapper_ := c2) SPARSITY_ENABLED sizeof_T
                 o i w s).2 in
  hmem (exec_queue ops1 mem) = hmem (exec_queue ops2 mem)
  ∧ imem (exec_queue ops1 mem) = imem (exec_queue ops2 mem).
Proof.
  intros Hsp Hlay. cbv zeta.
  assert ((∃ out0 in0 in1 in2 rows batch len,
             accepted_call s o i out0 in0 in1 in2 rows batch len)
          ∨ (queue (forward (cublas_wrapper_ := c1) SPARSITY_ENABLED sizeof_T
                      o i w s).2 = queue s
             ∧ queue (forward (cublas_wrapper_ := c2) SPARSITY_ENABLED sizeof_T
                        o i w s).2 = queue s))
    as [(out0&in0&in1&in2&rows&batch&len&Hcall)|[Hidle1 Hidle2]].
  { destruct (forward_accepted_or_idle (cublas_wrapper_ := c1)
                SPARSITY_ENABLED sizeof_T s o i w) as [Hacc|Hidle1];
      [left; exact Hacc|].
    destruct (forward_accepted_or_idle (cublas_wrapper_ := c2)
                SPARSITY_ENABLED sizeof_T s o i w) as [Hacc|Hidle2];
      [left; exact Hacc|right; split; [exact Hidle1|exact Hidle2]]. }
  - destruct (forward_accepted_run (cublas_wrapper_ := c1) SPARSITY_ENABLED
                sizeof_T _ _ _ w _ _ _ _ _ _ _ Hcall) as (_&Hq1&_).
    destruct (forward_accepted_run (cublas_wrapper_ := c2) SPARSITY_ENABLED
                sizeof_T _ _ _ w _ _ _ _ _ _ _ Hcall) as (_&Hq2&_).
    cbv zeta in Hq1, Hq2.
    rewrite (new_ops_app _ _ _ Hq1), (new_ops_app _ _ _ Hq2).
    rewrite (attention_ops_same_sparsity c1 c2) by done.
    pose proof (ready_state_layout sizeof_T batch len s Hlay) as HL.
    unfold chosen_strategy. rewrite (Hsp 1).
    destruct (SPARSITY_ENABLED && _); [done|].
    apply unbatched_same_data; [done| |].
    + by destruct (@isFuseBatchGemm c1 _ _ _ _).
    + by destruct (@isFuseBatchGemm c2 _ _ _ _).
  - rewrite (new_ops_app _ _ []) by by rewrite Hidle1, app_nil_r.
    rewrite (new_ops_app _ _ []) by by rewrite Hidle2, app_nil_r.
    done.
Qed.

End Batching.

(** * Concrete runs *)

(** The simple allocator honours the allocator's contract. *)
Lemma foldr_max_upper (l : list Z) x : x ∈ l → x ≤ foldr Z.max 0 l.
Proof.
  induction l as [|y l IH]; [by intros ?%elem_of_nil|].
  intros [->|Hx]%elem_of_cons; cbn [foldr]; [lia|].
  specialize (IH Hx). lia.
Qed.

#[global] Instance SimpleAllocator_laws : IAllocatorLaws SimpleAllocator.
Proof.
  split.
  - intros sz z [l]. cbn. rewrite elem_of_list_to_set. intros Hin.
    apply foldr_max_upper in Hin. lia.
  - done.
  - done.
  - intros p [l]. cbn. apply set_eq. intros x.
    rewrite elem_of_list_to_set, list_elem_of_filter, elem_of_difference,
      elem_of_list_to_set, elem_of_singleton. tauto.
Qed.

(** A runner with the tile classes 64, 96, 128, 256 and 384, a matmul
    provider with fixed answers, and a device on integers whose matmuls and
    attention leave their output as it is and whose threads run block by
    block. *)
Definition example_runner_ops : MHARunnerOps Z := {|
  tile_classes _ := [64; 96; 128; 256; 384];
  isValid _ S := bool_decide (S ∈ [64; 96; 128; 256; 384]);
  getWorkspaceSize _ := 1024 |}.

Definition example_cublas (use_sparse fuse_batch : bool) : cublasMMWrapper := {|
  isUseSparse _ _ _ _ := use_sparse;
  isFuseBatchGemm _ _ _ _ := fuse_batch |}.

Definition example_device : DeviceOps Z Z := {|
  hadd := Z.add;
  gemm_fn _ _ _ _ _ _ _ _ C := C;
  spgemm_fn _ _ _ _ _ C := C;
  mha_fn _ _ _ _ _ ws out := (out, ws);
  schedule := grid_threads |}.

(** A layer of 2 heads of 64 elements on hardware generation 80. *)
Definition example_layer (max_batch_size max_seq_len : Z) (sparse : bool)
  : Layer Z :=
  mkLayer max_batch_size max_seq_len 2 64 128 80 1 sparse false false
    (FusedMHARunnerFP16v2 2 64 80 1)
    nullptr nullptr nullptr nullptr nullptr nullptr nullptr nullptr nullptr.

Definition example_sys (max_batch_size max_seq_len : Z) (sparse : bool)
  : Sys Z SimpleAllocator :=
  new_sys (example_layer max_batch_size max_seq_len sparse) (mkSimple []).

(** A call on 8 tokens: batch 2, sequence length 4, with [npad] padding
    offsets. *)
Definition example_inputs (batch len npad : Z) : list Tensor :=
  [mkTensor (Ptr 100 0) [8; 128];
   mkTensor (Ptr 101 0) [batch; 1; len; len];
   mkTensor (Ptr 102 0) [npad]].

Definition example_outputs : list Tensor := [mkTensor (Ptr 103 0) [8; 128]].

Definition example_weights : AttentionWeight :=
  mkAttentionWeight
    (mkDenseWeight (Ptr 110 0) (Ptr 114 0) (Ptr 118 0))
    (mkDenseWeight (Ptr 111 0) (Ptr 115 0) (Ptr 119 0))
    (mkDenseWeight (Ptr 112 0) (Ptr 116 0) (Ptr 120 0))
    (mkDenseWeight (Ptr 113 0) (Ptr 117 0) (Ptr 121 0)).

Definition example_mem : DevMem Z :=
  mkDevMem (λ r j, 1000 * r + j) (λ _ _, nullptr) (λ _ _, 0).

Abbreviation example_forward sparsity_enabled use_sparse fuse_batch :=
  (forward (allocator_ := SimpleAllocator_IAllocator)
     (runner_ops := example_runner_ops)
     (cublas_wrapper_ := example_cublas use_sparse fuse_batch)
     sparsity_enabled 2).

(** ** The capacity guards on the example layer *)

(** C3 at a layer built with no batch capacity: a first call with batch 4
    passes the batch check, and a later call with batch 5 is refused. *)
Lemma isValidBatchSize_capacity_witness :
  let s0 := example_sys 0 0 false in
  let first := example_forward false false false example_outputs
                 (example_inputs 4 4 5) example_weights in
  max_batch_size_ (layer s0) = 0
  ∧ (first s0).1 ≠ Throw (CheckFailed ChkBatchSize)
  ∧ example_forward false false false example_outputs (example_inputs 5 4 6)
      example_weights (first s0).2
    = (Throw (CheckFailed ChkBatchSize), (first s0).2).
Proof.
  cbv zeta. split; [reflexivity|].
  destruct (isValidBatchSize_capacity (allocator_ := SimpleAllocator_IAllocator)
              (runner_ops := example_runner_ops)
              (cublas_wrapper_ := example_cublas false false) false 2)
    as (_&_&H3).
  destruct (H3 (example_sys 0 0 false) example_outputs (example_inputs 4 4 5)
              example_weights (mkTensor (Ptr 101 0) [4; 1; 4; 4])
              eq_refl eq_refl eq_refl) as [Ha Hb].
  split; [exact Ha|].
  pose proof (Hb [] example_outputs (example_inputs 5 4 6) example_weights
                (mkTensor (Ptr 101 0) [5; 1; 4; 4]) eq_refl eq_refl) as Hc.
  rewrite !run_calls_nil in Hc. exact Hc.
Defined.

(** C4 at a layer with sequence capacity 512: a call of length 385 is
    refused by a guard. *)
Lemma isValidSeqLen_ceiling_witness :
  let s0 := example_sys 8 512 false in
  let r := example_forward false false false example_outputs
             (example_inputs 2 385 3) example_weights s0 in
  (r.1 = Throw (CheckFailed ChkBatchSize) ∨ r.1 = Throw (CheckFailed ChkSeqLen))
  ∧ queue r.2 = queue s0 ∧ heap r.2 = heap s0.
Proof.
  cbv zeta.
  destruct (isValidSeqLen_ceiling (allocator_ := SimpleAllocator_IAllocator)
              (runner_ops := example_runner_ops)
              (cublas_wrapper_ := example_cublas false false) false 2)
    as (_&H2).
  exact (H2 (example_sys 8 512 false) example_outputs (example_inputs 2 385 3)
           example_weights (mkTensor (Ptr 101 0) [2; 1; 385; 385])
           eq_refl eq_refl).
Defined.

(** C9 at a layer with no sequence capacity and the length 400. *)
Lemma isValidSeqLen_rejected_call_adopts_witness :
  let s0 := example_sys 8 0 false in
  let s1 := (isValidSeqLen 400 s0).2 in
  max_seq_len_ (layer s0) = 0 ∧ 384 < 400
  ∧ (isValidSeqLen 400 s0).1 = Ok false
  ∧ max_seq_len_ (layer s1) = 400
  ∧ isValidSeqLen 384 s1 = (Ok true, s1).
Proof.
  cbv zeta. split; [reflexivity|]. split; [lia|].
  destruct (isValidSeqLen_rejected_call_adopts
              (allocator_ := SimpleAllocator_IAllocator)
              (runner_ops := example_runner_ops)
              (cublas_wrapper_ := example_cublas false false) false 2
              400 (example_sys 8 0 false) eq_refl ltac:(lia))
    as (Hr&Hmax&_&Hlater).
  split; [exact Hr|]. split; [exact Hmax|].
  pose proof (proj2 (Hlater [] 384) ltac:(lia)) as Hc.
  rewrite !run_calls_nil in Hc. exact Hc.
Defined.

(** C6 at the example layer's arguments (generation 80, per-head size 64)
    and at a per-head size of 32. *)
Lemma constructor_dispatch_witness :
  (∃ L : Layer Z,
     FusedAttentionLayer_new 70 72 75 80 86 0 0 2 64 80 1 false false = Ok L
     ∧ dispatcher_fp16 L = FusedMHARunnerFP16v2 2 64 80 1)
  ∧ FusedAttentionLayer_new 70 72 75 80 86 0 0 2 32 80 (1 : Z) false false
    = Throw RuntimeError.
Proof.
  split.
  - destruct (constructor_dispatch (A := SimpleAllocator)
                (allocator_ := SimpleAllocator_IAllocator)
                (runner_ops := example_runner_ops)
                (cublas_wrapper_ := example_cublas false false) false 2
                70 72 75 80 86 0 0 2 64 80 1 false false) as (H1&_).
    destruct H1 as (L&HL&Hd&_).
    + split; [|reflexivity].
      do 3 apply list_elem_of_further. apply list_elem_of_here.
    + exists L. split; [exact HL|exact Hd].
  - destruct (constructor_dispatch (A := SimpleAllocator)
                (allocator_ := SimpleAllocator_IAllocator)
                (runner_ops := example_runner_ops)
                (cublas_wrapper_ := example_cublas false false) false 2
                70 72 75 80 86 0 0 2 32 80 1 false false) as (_&H2&_).
    apply H2. intros [_ E]. discriminate E.
Defined.

(** C5 on the simple allocator: the example layer after three calls. *)
Lemma buffer_lifecycle_witness :
  let s0 := example_sys 2 4 false in
  let s1 := run_calls (allocator_ := SimpleAllocator_IAllocator)
              (runner_ops := example_runner_ops)
              (cublas_wrapper_ := example_cublas false false) false 2
              [CallAllocateBuffer; CallFreeBuffer; CallAllocateBuffer] s0 in
  buffers_consistent s0
  ∧ is_allocate_buffer_ (layer s1) = true
  ∧ all_valid s1.
Proof.
  cbv zeta.
  destruct (buffer_lifecycle (allocator_ := SimpleAllocator_IAllocator)
              (runner_ops := example_runner_ops)
              (cublas_wrapper_ := example_cublas false false)
              false 2 70 72 75 80 86) as (_&_&_&H4&H5).
  assert (buffers_consistent (example_sys 2 4 false)) as H0.
  { apply (H5 2 4 2 64 80 1 false false); [reflexivity|].
    cbn. apply not_elem_of_empty. }
  split; [exact H0|]. split; [by vm_compute|].
  pose proof (H4 (example_sys 2 4 false)
                [CallAllocateBuffer; CallFreeBuffer; CallAllocateBuffer] H0)
    as Hc.
  cbv zeta in Hc.
  replace (is_allocate_buffer_
             (layer (run_calls false 2
                       [CallAllocateBuffer; CallFreeBuffer; CallAllocateBuffer]
                       (example_sys 2 4 false))))
    with true in Hc by by vm_compute.
  exact Hc.
Defined.

(** ** Forward calls on the example layer *)

(** The example call is accepted by a layer without capacities. *)
Lemma example_accepted sparse npad :
  accepted_call (example_sys 0 0 sparse) example_outputs
    (example_inputs 2 4 npad)
    (mkTensor (Ptr 103 0) [8; 128]) (mkTensor (Ptr 100 0) [8; 128])
    (mkTensor (Ptr 101 0) [2; 1; 4; 4]) (mkTensor (Ptr 102 0) [npad]) 8 2 4.
Proof. by split. Qed.

(** C2 (as amended) on a build with sparsity, a sparse layer and a provider
    that favours sparsity: the three sparse matmuls are issued. *)
Lemma projection_strategy_witness :
  let s0 := example_sys 0 0 true in
  let r := example_forward true true false example_outputs
             (example_inputs 2 4 3) example_weights s0 in
  qkv_strategy (before_launch (new_ops s0 r.2)) = Some Sparse.
Proof.
  cbv zeta.
  destruct (projection_strategy (allocator_ := SimpleAllocator_IAllocator)
              (runner_ops := example_runner_ops)
              (cublas_wrapper_ := example_cublas true false) true 2
              (example_sys 0 0 true) example_outputs (example_inputs 2 4 3)
              example_weights _ _ _ _ 8 2 4
              (example_accepted true 3))
    as (Hst&_).
  exact Hst.
Defined.

(** C2 as stated fails on a build without sparsity: on a layer whose
    sparsity flag is set, with a provider that reports the shape as
    favourable for sparsity, the dense matmuls are issued. *)
Lemma projection_strategy_counterexample :
  let s0 := example_sys 0 0 true in
  let r := example_forward false true false example_outputs
             (example_inputs 2 4 3) example_weights s0 in
  let L := layer (ready_state (allocator_ := SimpleAllocator_IAllocator)
                    (runner_ops := example_runner_ops) 2 2 4 s0) in
  let n := wrap_i32 (hidden_units_ L) in
  ¬ (qkv_strategy (before_launch (new_ops s0 r.2)) = Some Sparse
     ↔ sparse_ L = true
       ∧ isUseSparse (cublasMMWrapper := example_cublas true false) 1 n 8 n
         = true).
Proof.
  cbv zeta. intros [_ Hclaim].
  assert (qkv_strategy
            (before_launch
               (new_ops (example_sys 0 0 true)
                  (example_forward false true false example_outputs
                     (example_inputs 2 4 3) example_weights
                     (example_sys 0 0 true)).2)) = Some Dense) as Hdense
    by by vm_compute.
  rewrite Hdense in Hclaim.
  discriminate Hclaim. split; by vm_compute.
Qed.

(** A call on 13 tokens: batch 2, sequence length 8, with three padding
    offsets. *)
Definition example_ragged_inputs : list Tensor :=
  [mkTensor (Ptr 100 0) [13; 128];
   mkTensor (Ptr 101 0) [2; 1; 8; 8];
   mkTensor (Ptr 102 0) [3]].

Definition example_ragged_outputs : list Tensor :=
  [mkTensor (Ptr 103 0) [13; 128]].

(** C7 on the example layer: 13 rows are padded to 16, and the call on 13
    rows, which takes the sparse path, returns after enqueueing the sparse
    matmuls of the query, key, value and output projections, each with 16
    as its row count; no sparse matmul of the call has another one. *)
Lemma sparse_padded_row_count_witness :
  let s0 := example_sys 0 0 true in
  let r := example_forward true true false example_ragged_outputs
             example_ragged_inputs example_weights s0 in
  0 ≤ 13 ≤ 2 ^ 64 - 8 ∧ m_tmp 13 = 16
  ∧ r.1 = Ok tt
  ∧ ∃ launch mha,
      new_ops s0 r.2
      = [SpGemm 128 16 128 (Ptr 118 0) (Ptr 100 0) (Ptr 1 0);
         SpGemm 128 16 128 (Ptr 119 0) (Ptr 100 0) (Ptr 2 0);
         SpGemm 128 16 128 (Ptr 120 0) (Ptr 100 0) (Ptr 3 0);
         launch; mha;
         SpGemm 128 16 128 (Ptr 121 0) (Ptr 5 0) (Ptr 103 0)]
    ∧ ∀ n m k pA pB pC, SpGemm n m k pA pB pC ∈ new_ops s0 r.2 → m = 16.
Proof.
  cbv zeta.
  destruct (sparse_padded_row_count (allocator_ := SimpleAllocator_IAllocator)
              (runner_ops := example_runner_ops)
              (cublas_wrapper_ := example_cublas true false) true 2)
    as (H1&H2&H3).
  destruct (H1 13 ltac:(lia)) as (_&_&_).
  split; [lia|]. split; [by vm_compute|].
  assert (∀ n m k pA pB pC,
            SpGemm n m k pA pB pC
            ∈ new_ops (example_sys 0 0 true)
                (example_forward true true false example_ragged_outputs
                   example_ragged_inputs example_weights
                   (example_sys 0 0 true)).2 → m = 16) as Hall.
  { intros n m k pA pB pC Hin.
    destruct (H2 (example_sys 0 0 true) example_ragged_outputs
                example_ragged_inputs example_weights (SpGemm n m k pA pB pC)
                n m k pA pB pC Hin eq_refl)
      as (in0&rows&Hi0&Hrows&->).
    injection Hi0 as <-. injection Hrows as <-. by vm_compute. }
  specialize (H3 (example_sys 0 0 true) example_ragged_outputs
                example_ragged_inputs example_weights
                (mkTensor (Ptr 103 0) [13; 128]) (mkTensor (Ptr 100 0) [13; 128])
                (mkTensor (Ptr 101 0) [2; 1; 8; 8]) (mkTensor (Ptr 102 0) [3])
                13 2 8 ltac:(by split)).
  cbv zeta in H3.
  destruct H3 as (rest&Hops&Hret&_); [by vm_compute|].
  destruct (Hret 3) as [Hok ->]; [by vm_compute..|].
  split; [exact Hok|]. eexists _, _. split; [|exact Hall]. rewrite Hops.
  set (L := layer (ready_state (allocator_ := SimpleAllocator_IAllocator)
                     (runner_ops := example_runner_ops) 2 2 8
                     (example_sys 0 0 true))).
  replace (wrap_i32 (hidden_units_ L)) with 128 by by vm_compute.
  replace (m_tmp 13) with 16 by by vm_compute.
  replace (q_buf_ L) with (Ptr 1 0) by by vm_compute.
  replace (k_buf_ L) with (Ptr 2 0) by by vm_compute.
  replace (v_buf_ L) with (Ptr 3 0) by by vm_compute.
  replace (qkv_buf_2_ L) with (Ptr 5 0) by by vm_compute.
  reflexivity.
Defined.

(** C8 (as amended) on the example call with batch + 1 = 3 padding
    offsets: length 4 is mapped to the tile class 64, which the runner
    supports, and the runner is configured for (64, 2). *)
Lemma attention_tile_class_and_batch_witness :
  let s0 := example_sys 0 0 false in
  let r := example_forward false false false example_outputs
             (example_inputs 2 4 3) example_weights s0 in
  launch_fits (layer (ready_state (allocator_ := SimpleAllocator_IAllocator)
                        (runner_ops := example_runner_ops) 2 2 4 s0)) = true
  ∧ r.1 = Ok tt ∧ runner_cfg r.2 = Some (64, 2).
Proof.
  cbv zeta.
  assert (launch_fits
            (layer (ready_state (allocator_ := SimpleAllocator_IAllocator)
                      (runner_ops := example_runner_ops) 2 2 4
                      (example_sys 0 0 false))) = true) as Hfits
    by by vm_compute.
  split; [exact Hfits|].
  destruct (attention_tile_class_and_batch
              (allocator_ := SimpleAllocator_IAllocator)
              (runner_ops := example_runner_ops)
              (cublas_wrapper_ := example_cublas false false) false 2
              (example_sys 0 0 false) example_outputs (example_inputs 2 4 3)
              example_weights _ _ _ _ 8 2 4 3
              (example_accepted false 3) eq_refl ltac:(lia) Hfits)
    as (_&_&Hvalid&_).
  destruct Hvalid as (Hr&Hcfg&_); [by vm_compute|].
  split; [exact Hr|]. rewrite Hcfg. by vm_compute.
Defined.

(** C8 as stated fails when the padding-offset tensor has 2 * batch + 1
    entries: the mask has batch size 2, and the runner is configured for
    4. *)
Lemma attention_tile_class_and_batch_counterexample :
  let s0 := example_sys 0 0 false in
  let i := example_inputs 2 4 5 in
  let r := example_forward false false false example_outputs i
             example_weights s0 in
  ¬ (∀ mask batch S B,
       i !! 1%nat = Some mask → shape mask !! 0%nat = Some batch →
       runner_cfg r.2 = Some (S, B) → B = batch).
Proof.
  cbv zeta. intros Hclaim.
  specialize (Hclaim (mkTensor (Ptr 101 0) [2; 1; 4; 4]) 2 64 4 eq_refl eq_refl).
  discriminate Hclaim. by vm_compute.
Qed.

(** ** The kernel on the example layer *)

Definition example_ready : Sys Z SimpleAllocator :=
  (allocateBuffer (allocator_ := SimpleAllocator_IAllocator)
     (runner_ops := example_runner_ops) 2 (example_sys 2 4 false)).2.

(** C1 (as amended) on the example layer with 8 tokens: value element 5 of head 1 of
    token 1 lands at fused index ((1 * 2 + 1) * 3 + 2) * 64 + 5 with its
    bias added. *)
Lemma bias_fusion_layout_witness :
  let s := example_ready in
  let L := layer s in
  0 < head_num_ L ∧ 0 < size_per_head_ L ∧ size_per_head_ L mod 2 = 0
  ∧ head_num_ L * size_per_head_ L / 2 ≤ 1024
  ∧ 3 * 8 * (head_num_ L * size_per_head_ L / 2) < 2 ^ 31
  ∧ ∃ op,
      invokeTrtAddQkvBias (A := SimpleAllocator) 8 example_weights s
      = (Ok tt, with_queue s [op])
      ∧ hmem (exec_op (device := example_device) op example_mem) 4 709
        = 3197 + 116069.
Proof.
  cbv zeta.
  assert (0 < head_num_ (layer example_ready)) as H1 by by vm_compute.
  assert (0 < size_per_head_ (layer example_ready)) as H2 by by vm_compute.
  assert (size_per_head_ (layer example_ready) mod 2 = 0) as H3
    by by vm_compute.
  assert (head_num_ (layer example_ready) * size_per_head_ (layer example_ready)
          / 2 ≤ 1024) as H4 by by vm_compute.
  assert (3 * 8 * (head_num_ (layer example_ready)
                   * size_per_head_ (layer example_ready) / 2) < 2 ^ 31) as H5
    by by vm_compute.
  do 5 (split; [assumption|]).
  destruct (bias_fusion_layout (device := example_device) example_ready 8
              example_weights example_mem H1 H2 H3 H4 ltac:(lia) H5)
    as (op&Hinv&Hall).
  - replace (region <$> [q_buf_ (layer example_ready);
                         bias (query_weight example_weights);
                         k_buf_ (layer example_ready);
                         bias (key_weight example_weights);
                         v_buf_ (layer example_ready);
                         bias (value_weight example_weights)])
      with [1; 114; 2; 115; 3; 116] by by vm_compute.
    replace (region (qkv_buf_ (layer example_ready))) with 4 by by vm_compute.
    intros Hin.
    repeat (apply elem_of_cons in Hin as [Hin|Hin]; [discriminate Hin|]).
    by apply elem_of_nil in Hin.
  - reflexivity.
  - exists op. split; [exact Hinv|].
    destruct (Hall 1 1 5) as (_&_&Hv); [by vm_compute..|].
    cbv zeta in Hv.
    replace (region (qkv_buf_ (layer example_ready))) with 4 in Hv
      by by vm_compute.
    replace (offset (qkv_buf_ (layer example_ready))
             + ((1 * head_num_ (layer example_ready) + 1) * 3 + 2)
               * size_per_head_ (layer example_ready) + 5)
      with 709 in Hv by by vm_compute.
    rewrite Hv. by vm_compute.
Defined.

(** A layer of 32 heads of 64 elements with room for 1823 sequences of 384
    tokens, its buffers allocated. *)
Definition example_large_ready : Sys Z SimpleAllocator :=
  (allocateBuffer (allocator_ := SimpleAllocator_IAllocator)
     (runner_ops := example_runner_ops) 2
     (new_sys
        (mkLayer 1823 384 32 64 2048 80 1 false false false
           (FusedMHARunnerFP16v2 32 64 80 1)
           nullptr nullptr nullptr nullptr nullptr nullptr nullptr nullptr
           nullptr)
        (mkSimple []))).2.

(** The example layer in the float instantiation, where an element takes
    4 bytes, its buffers allocated. *)
Definition example_float_ready : Sys Z SimpleAllocator :=
  (allocateBuffer (allocator_ := SimpleAllocator_IAllocator)
     (runner_ops := example_runner_ops) 4 (example_sys 2 4 false)).2.

(** C1 as stated fails in two ways.  On 700000 tokens of 32 heads of 64
    elements the fused index of the last tokens passes 2^31 and wraps as an
    [int]: the launch never stores at fused[699999][31][0][63], which keeps
    what it held.  And in the float instantiation the same kernel is
    launched on the same grid and still works on pairs of 16-bit cells,
    while an element takes two such cells: the launch on 8 tokens of the
    example layer stores only into the first half of the fused buffer, and
    the two cells of element fused[7][1][2][63] are as they were, in every
    memory. *)
Lemma bias_fusion_layout_counterexample :
  let w := example_weights in
  (let s := example_large_ready in
   let L := layer s in
   let heads := head_num_ L in
   let D := size_per_head_ L in
   let fused := qkv_buf_ L in
   (0 < heads ∧ 0 < D ∧ D mod 2 = 0 ∧ heads * D / 2 ≤ 1024
    ∧ (region fused ∉ region <$> [q_buf_ L; bias (query_weight w);
                                  k_buf_ L; bias (key_weight w);
                                  v_buf_ L; bias (value_weight w)])
    ∧ schedule (DeviceOps := example_device) = grid_threads)
   ∧ ∃ op,
       invokeTrtAddQkvBias (A := SimpleAllocator) 700000 w s
       = (Ok tt, with_queue s [op])
       ∧ ¬ (∀ t h d, 0 ≤ t < 700000 → 0 ≤ h < heads → 0 ≤ d < D →
              let out c :=
                hmem (exec_op (device := example_device) op example_mem)
                  (region fused)
                  (offset fused + ((t * heads + h) * 3 + c) * D + d) in
              let row (p : ptr) :=
                hmem example_mem (region p)
                  (offset p + (t * heads + h) * D + d) in
              let chan (p : ptr) :=
                hmem example_mem (region p) (offset p + h * D + d) in
              out 0 = hadd (DeviceOps := example_device) (row (q_buf_ L))
                        (chan (bias (query_weight w)))
              ∧ out 1 = hadd (DeviceOps := example_device) (row (k_buf_ L))
                          (chan (bias (key_weight w)))
              ∧ out 2 = hadd (DeviceOps := example_device) (row (v_buf_ L))
                          (chan (bias (value_weight w)))))
  ∧ (let s := example_float_ready in
     let L := layer s in
     let fused := qkv_buf_ L in
     ∃ op,
       invokeTrtAddQkvBias (A := SimpleAllocator) 8 w s
       = (Ok tt, with_queue s [op])
       ∧ ∀ (mem : DevMem Z) e, 0 ≤ e < 2 →
           let cell :=
             offset fused
             + 2 * (((7 * head_num_ L + 1) * 3 + 2) * size_per_head_ L + 63)
             + e in
           hmem (exec_op (device := example_device) op mem) (region fused) cell
           = hmem mem (region fused) cell).
Proof.
  cbv zeta. split.
  - split.
    + replace (head_num_ (layer example_large_ready)) with 32 by by vm_compute.
      replace (size_per_head_ (layer example_large_ready)) with 64
        by by vm_compute.
      replace (region <$> [q_buf_ (layer example_large_ready);
                           bias (query_weight example_weights);
                           k_buf_ (layer example_large_ready);
                           bias (key_weight example_weights);
                           v_buf_ (layer example_large_ready);
                           bias (value_weight example_weights)])
        with [1; 114; 2; 115; 3; 116] by by vm_compute.
      replace (region (qkv_buf_ (layer example_large_ready))) with 4
        by by vm_compute.
      do 4 (split; [by vm_compute|]). split; [|reflexivity].
      intros Hin.
      repeat (apply elem_of_cons in Hin as [Hin|Hin]; [discriminate Hin|]).
      by apply elem_of_nil in Hin.
    + exists (launch_op (layer example_large_ready) 700000 example_weights).
      split.
      * rewrite invokeTrtAddQkvBias_run.
        replace (wrap_u32 (wrap_u64 (head_num_ (layer example_large_ready)
                                     * size_per_head_ (layer example_large_ready))
                           / 2) <=? 1024)
          with true by by vm_compute.
        reflexivity.
      * intros Hclaim.
        destruct (Hclaim 699999 31 63) as (Hq&_); [lia|by vm_compute..|].
        rewrite launch_int_reach in Hq.
        -- replace (qkv_buf_ (layer example_large_ready)) with (Ptr 4 0) in Hq
             by by vm_compute.
           replace (q_buf_ (layer example_large_ready)) with (Ptr 1 0) in Hq
             by by vm_compute.
           replace (head_num_ (layer example_large_ready)) with 32 in Hq
             by by vm_compute.
           replace (size_per_head_ (layer example_large_ready)) with 64 in Hq
             by by vm_compute.
           cbn [hmem example_mem hadd example_device bias query_weight
                example_weights region offset] in Hq.
           lia.
        -- replace (qkv_buf_ (layer example_large_ready)) with (Ptr 4 0)
             by by vm_compute.
           replace (head_num_ (layer example_large_ready)) with 32
             by by vm_compute.
           replace (size_per_head_ (layer example_large_ready)) with 64
             by by vm_compute.
           cbn [region offset]. lia.
  - exists (launch_op (layer example_float_ready) 8 example_weights). split.
    + rewrite invokeTrtAddQkvBias_run.
      replace (wrap_u32 (wrap_u64 (head_num_ (layer example_float_ready)
                                   * size_per_head_ (layer example_float_ready)) / 2)
               <=? 1024)
        with true by by vm_compute.
      reflexivity.
    + intros mem e He. unfold launch_op, exec_op.
      replace (wrap_u32 (wrap_u64 (head_num_ (layer example_float_ready)
                                   * size_per_head_ (layer example_float_ready)) / 2))
        with (2 * 32) by by vm_compute.
      replace (wrap_i32 (head_num_ (layer example_float_ready))) with 2
        by by vm_compute.
      replace (wrap_i32 (size_per_head_ (layer example_float_ready) / 2)) with 32
        by by vm_compute.
      replace (wrap_u32 8) with 8 by by vm_compute.
      replace (head_num_ (layer example_float_ready)) with 2 by by vm_compute.
      replace (size_per_head_ (layer example_float_ready)) with 64 by by vm_compute.
      apply (run_threads_outside (qkv_buf_ (layer example_float_ready))
               (q_buf_ (layer example_float_ready))
               (bias (query_weight example_weights))
               (k_buf_ (layer example_float_ready))
               (bias (key_weight example_weights))
               (v_buf_ (layer example_float_ready))
               (bias (value_weight example_weights)) (wrap_i32 8) 8 2 32
               ltac:(lia) ltac:(lia) ltac:(lia)).
      * replace (region <$> [q_buf_ (layer example_float_ready);
                             bias (query_weight example_weights);
                             k_buf_ (layer example_float_ready);
                             bias (key_weight example_weights);
                             v_buf_ (layer example_float_ready);
                             bias (value_weight example_weights)])
          with [1; 114; 2; 115; 3; 116] by by vm_compute.
        replace (region (qkv_buf_ (layer example_float_ready))) with 4
          by by vm_compute.
        intros Hin.
        repeat (apply elem_of_cons in Hin as [Hin|Hin]; [discriminate Hin|]).
        by apply elem_of_nil in Hin.
      * apply Forall_forall. intros [b t] Hbt.
        apply elem_of_grid_threads in Hbt. split; cbn [fst snd]; lia.
      * right. replace (offset (qkv_buf_ (layer example_float_ready))) with 0
          by by vm_compute.
        lia.
Qed.

(** ** The mask on the example call *)


(** ** Further runs on the example layer *)

(** A layer like the example layer that releases its buffers after
    forward, and one with 33 heads. *)
Definition example_releasing_sys : Sys Z SimpleAllocator :=
  new_sys (mkLayer 0 0 2 64 128 80 1 false true false
             (FusedMHARunnerFP16v2 2 64 80 1)
             nullptr nullptr nullptr nullptr nullptr nullptr nullptr nullptr
             nullptr) (mkSimple []).

Definition example_wide_sys : Sys Z SimpleAllocator :=
  new_sys (mkLayer 0 0 33 64 2112 80 1 false false false
             (FusedMHARunnerFP16v2 33 64 80 1)
             nullptr nullptr nullptr nullptr nullptr nullptr nullptr nullptr
             nullptr) (mkSimple []).

(** A call without input tensors is refused at once; the example call cut
    down to two input tensors throws after the allocation. *)
Lemma forward_missing_tensor_witness :
  let s0 := example_sys 0 0 false in
  let cut := take 2 (example_inputs 2 4 3) in
  example_forward false false false example_outputs [] example_weights s0
  = (Throw OutOfRange, s0)
  ∧ (example_forward false false false example_outputs cut example_weights
       s0).1 = Throw OutOfRange
  ∧ is_allocate_buffer_
      (layer (example_forward false false false example_outputs cut
                example_weights s0).2) = true.
Proof.
  cbv zeta.
  destruct (forward_missing_tensor (allocator_ := SimpleAllocator_IAllocator)
              (runner_ops := example_runner_ops)
              (cublas_wrapper_ := example_cublas false false) false 2)
    as [H1 H2].
  split.
  - apply (H1 (example_sys 0 0 false) example_outputs [] example_weights).
    cbn. lia.
  - destruct (H2 (example_sys 0 0 false) example_outputs
                (take 2 (example_inputs 2 4 3)) example_weights
                (mkTensor (Ptr 101 0) [2; 1; 4; 4]) 2 4
                eq_refl eq_refl eq_refl eq_refl eq_refl (or_intror eq_refl))
      as (Hr&_&Hflag&_).
    split; [exact Hr|exact Hflag].
Defined.

(** On the example layer without capacities, a call of batch 4 and length
    400 is refused for its length and fixes the batch capacity at 4: a
    call of batch 5 is then refused for its batch size. *)
Lemma forward_refused_length_fixes_batch_witness :
  let s0 := example_sys 0 0 false in
  let r := example_forward false false false example_outputs
             (example_inputs 4 400 5) example_weights s0 in
  max_batch_size_ (layer s0) = 0 ∧ 384 < 400
  ∧ r.1 = Throw (CheckFailed ChkSeqLen)
  ∧ max_batch_size_ (layer r.2) = 4
  ∧ example_forward false false false example_outputs (example_inputs 5 4 6)
      example_weights r.2
    = (Throw (CheckFailed ChkBatchSize), r.2).
Proof.
  cbv zeta. split; [reflexivity|]. split; [lia|].
  destruct (forward_refused_length_fixes_batch
              (allocator_ := SimpleAllocator_IAllocator)
              (runner_ops := example_runner_ops)
              (cublas_wrapper_ := example_cublas false false) false 2
              (example_sys 0 0 false) example_outputs (example_inputs 4 400 5)
              example_weights (mkTensor (Ptr 101 0) [4; 1; 400; 400]) 4 400
              eq_refl eq_refl eq_refl eq_refl ltac:(lia))
    as (Hr&Hb&_&_&_&Hlater).
  split; [exact Hr|]. split; [exact Hb|].
  pose proof (Hlater [] example_outputs (example_inputs 5 4 6) example_weights
                (mkTensor (Ptr 101 0) [5; 1; 4; 4]) 5 ltac:(lia) ltac:(lia)
                eq_refl eq_refl) as Hc.
  rewrite !run_calls_nil in Hc. exact Hc.
Defined.

(** The example call returns: on the example layer the buffers stay
    allocated, on the releasing layer they are released. *)
Lemma forward_release_on_return_witness :
  let r := example_forward false false false example_outputs
             (example_inputs 2 4 3) example_weights (example_sys 0 0 false) in
  let r' := example_forward false false false example_outputs
              (example_inputs 2 4 3) example_weights example_releasing_sys in
  r.1 = Ok tt ∧ is_allocate_buffer_ (layer r.2) = true
  ∧ r'.1 = Ok tt ∧ is_allocate_buffer_ (layer r'.2) = false.
Proof.
  cbv zeta.
  assert ((example_forward false false false example_outputs
             (example_inputs 2 4 3) example_weights (example_sys 0 0 false)).1
          = Ok tt) as Hok by by vm_compute.
  assert ((example_forward false false false example_outputs
             (example_inputs 2 4 3) example_weights example_releasing_sys).1
          = Ok tt) as Hok' by by vm_compute.
  split; [exact Hok|]. split.
  - destruct (forward_release_on_return
                (allocator_ := SimpleAllocator_IAllocator)
                (runner_ops := example_runner_ops)
                (cublas_wrapper_ := example_cublas false false) false 2
                (example_sys 0 0 false) example_outputs (example_inputs 2 4 3)
                example_weights) as [H1 _].
    rewrite (H1 Hok). reflexivity.
  - split; [exact Hok'|].
    destruct (forward_release_on_return
                (allocator_ := SimpleAllocator_IAllocator)
                (runner_ops := example_runner_ops)
                (cublas_wrapper_ := example_cublas false false) false 2
                example_releasing_sys example_outputs (example_inputs 2 4 3)
                example_weights) as [H1 _].
    rewrite (H1 Hok'). reflexivity.
Defined.

(** The example call made a second time on the example layer asks nothing
    of the allocator. *)
Lemma forward_reuses_buffers_witness :
  let s1 := (example_forward false false false example_outputs
               (example_inputs 2 4 3) example_weights
               (example_sys 0 0 false)).2 in
  let s2 := (example_forward false false false example_outputs
               (example_inputs 2 4 3) example_weights s1).2 in
  is_allocate_buffer_ (layer s1) = true
  ∧ is_free_buffer_after_forward_ (layer s1) = false
  ∧ heap s2 = heap s1
  ∧ scratch_ptrs (layer s2) = scratch_ptrs (layer s1).
Proof.
  cbv zeta.
  assert (is_allocate_buffer_
            (layer (example_forward false false false example_outputs
                      (example_inputs 2 4 3) example_weights
                      (example_sys 0 0 false)).2) = true) as Hflag
    by by vm_compute.
  assert (is_free_buffer_after_forward_
            (layer (example_forward false false false example_outputs
                      (example_inputs 2 4 3) example_weights
                      (example_sys 0 0 false)).2) = false) as Hfree
    by by vm_compute.
  split; [exact Hflag|]. split; [exact Hfree|].
  destruct (forward_reuses_buffers (allocator_ := SimpleAllocator_IAllocator)
              (runner_ops := example_runner_ops)
              (cublas_wrapper_ := example_cublas false false) false 2
              _ example_outputs (example_inputs 2 4 3) example_weights
              Hflag (or_introl Hfree)) as (Hh&_&Hs&_).
  split; [exact Hh|exact Hs].
Defined.

(** The example layer on the simple allocator holds nothing but its own
    regions: after the example call, destroying it leaves no region
    live. *)
Lemma layer_returns_what_it_allocates_witness :
  let s1 := run_calls (allocator_ := SimpleAllocator_IAllocator)
              (runner_ops := example_runner_ops)
              (cublas_wrapper_ := example_cublas false false) false 2
              [CallForward example_outputs (example_inputs 2 4 3)
                 example_weights]
              (example_sys 0 0 false) in
  owns ∅ (example_sys 0 0 false)
  ∧ alloc_live (heap (FusedAttentionLayer_delete s1).2) = ∅.
Proof.
  cbv zeta.
  destruct (layer_returns_what_it_allocates
              (allocator_ := SimpleAllocator_IAllocator)
              (runner_ops := example_runner_ops)
              (cublas_wrapper_ := example_cublas false false)
              false 2 70 72 75 80 86) as [H1 H2].
  pose proof (H1 0 0 2 64 80 1 false false (example_layer 0 0 false)
                (mkSimple []) eq_refl) as Hown.
  split; [exact Hown|].
  destruct (H2 ∅ (example_sys 0 0 false)
              [CallForward example_outputs (example_inputs 2 4 3)
                 example_weights] Hown) as (_&_&Hlive&_).
  exact Hlive.
Defined.

(** Copying the example layer after the example call gives the layer that
    the constructor builds with the adopted capacities 2 and 4. *)
Lemma copy_constructor_rebuilds_witness :
  let s1 := run_calls (allocator_ := SimpleAllocator_IAllocator)
              (runner_ops := example_runner_ops)
              (cublas_wrapper_ := example_cublas false false) false 2
              [CallForward example_outputs (example_inputs 2 4 3)
                 example_weights]
              (new_sys (example_layer 0 0 false) (mkSimple [])) in
  FusedAttentionLayer_new 70 72 75 80 86 0 0 2 64 80 1 false false
  = Ok (example_layer 0 0 false)
  ∧ is_allocate_buffer_ (layer s1) = true
  ∧ FusedAttentionLayer_copy 70 72 75 80 86 (layer s1)
    = Ok (example_layer 2 4 false).
Proof.
  cbv zeta.
  assert (FusedAttentionLayer_new 70 72 75 80 86 0 0 2 64 80 1 false false
          = Ok (example_layer 0 0 false)) as Hnew by by vm_compute.
  split; [exact Hnew|]. split; [by vm_compute|].
  destruct (copy_constructor_rebuilds
              (allocator_ := SimpleAllocator_IAllocator)
              (runner_ops := example_runner_ops)
              (cublas_wrapper_ := example_cublas false false)
              false 2 70 72 75 80 86 0 0 2 64 80 1 false false
              (example_layer 0 0 false) (mkSimple [])
              [CallForward example_outputs (example_inputs 2 4 3)
                 example_weights] Hnew) as [Hcopy _].
  cbv zeta in Hcopy.
  replace (max_batch_size_
             (layer (run_calls false 2
                       [CallForward example_outputs (example_inputs 2 4 3)
                          example_weights]
                       (new_sys (example_layer 0 0 false) (mkSimple [])))))
    with 2 in Hcopy by by vm_compute.
  replace (max_seq_len_
             (layer (run_calls false 2
                       [CallForward example_outputs (example_inputs 2 4 3)
                          example_weights]
                       (new_sys (example_layer 0 0 false) (mkSimple [])))))
    with 4 in Hcopy by by vm_compute.
  rewrite Hcopy. by vm_compute.
Defined.

(** A layer of 33 heads accepts the example call and fails the launch
    assertion. *)
Lemma example_wide_accepted :
  accepted_call example_wide_sys example_outputs (example_inputs 2 4 3)
    (mkTensor (Ptr 103 0) [8; 128]) (mkTensor (Ptr 100 0) [8; 128])
    (mkTensor (Ptr 101 0) [2; 1; 4; 4]) (mkTensor (Ptr 102 0) [3]) 8 2 4.
Proof. by split. Qed.

Lemma forward_head_limit_witness :
  size_per_head_ (layer example_wide_sys) = 64
  ∧ 0 ≤ head_num_ (layer example_wide_sys) < 2 ^ 27
  ∧ (example_forward false false false example_outputs (example_inputs 2 4 3)
       example_weights example_wide_sys).1 = Throw AssertFailed.
Proof.
  split; [reflexivity|].
  assert (0 ≤ head_num_ (layer example_wide_sys) < 2 ^ 27) as Hhn
    by (cbn; lia).
  split; [exact Hhn|].
  destruct (forward_head_limit (allocator_ := SimpleAllocator_IAllocator)
              (runner_ops := example_runner_ops)
              (cublas_wrapper_ := example_cublas false false) false 2
              example_wide_sys example_outputs (example_inputs 2 4 3)
              example_weights _ _ _ _ 8 2 4 example_wide_accepted eq_refl Hhn)
    as [Hiff _].
  apply Hiff. cbn. lia.
Defined.

(** The launch on the example layer with 8 tokens leaves the element just
    past the 3 x 8 x 2 x 64 elements of the fused buffer, and the input
    buffers, as they were. *)
Lemma bias_fusion_writes_in_bounds_witness :
  let s := example_ready in
  ∃ s',
    invokeTrtAddQkvBias (A := SimpleAllocator) 8 example_weights s = (Ok tt, s')
    ∧ hmem (exec_queue (device := example_device) (new_ops s s') example_mem)
        4 3072 = hmem example_mem 4 3072
    ∧ hmem (exec_queue (device := example_device) (new_ops s s') example_mem)
        1 0 = hmem example_mem 1 0.
Proof.
  cbv zeta.
  set (s' := (invokeTrtAddQkvBias (A := SimpleAllocator) 8 example_weights
                example_ready).2).
  assert (invokeTrtAddQkvBias (A := SimpleAllocator) 8 example_weights
            example_ready = (Ok tt, s')) as Hrun by by vm_compute.
  exists s'. split; [exact Hrun|].
  destruct (bias_fusion_writes_in_bounds (device := example_device)
              example_ready s' 8 example_weights example_mem) as (Hh&_).
  - exact Hrun.
  - by vm_compute.
  - by vm_compute.
  - by vm_compute.
  - by vm_compute.
  - lia.
  - by vm_compute.
  - replace (region <$> [q_buf_ (layer example_ready);
                         bias (query_weight example_weights);
                         k_buf_ (layer example_ready);
                         bias (key_weight example_weights);
                         v_buf_ (layer example_ready);
                         bias (value_weight example_weights)])
      with [1; 114; 2; 115; 3; 116] by by vm_compute.
    replace (region (qkv_buf_ (layer example_ready))) with 4 by by vm_compute.
    intros Hin.
    repeat (apply elem_of_cons in Hin as [Hin|Hin]; [discriminate Hin|]).
    by apply elem_of_nil in Hin.
  - intros b t Hbt. by apply elem_of_grid_threads in Hbt.
  - split.
    + apply Hh. right. right. by vm_compute.
    + apply Hh. left. by vm_compute.
Defined.

(** The example call with a provider that favours batching and with one
    that does not: the same elements are left in device memory. *)
Lemma batching_answer_is_unobservable_witness :
  let s0 := example_sys 0 0 false in
  let ops fuse_batch :=
    new_ops s0 (example_forward false false fuse_batch example_outputs
                  (example_inputs 2 4 3) example_weights s0).2 in
  same_sparsity_answers (example_cublas false true) (example_cublas false false)
  ∧ allocated_layout s0
  ∧ length (ops true) = 5%nat ∧ length (ops false) = 6%nat
  ∧ hmem (exec_queue (device := example_device) (ops true) example_mem)
    = hmem (exec_queue (device := example_device) (ops false) example_mem).
Proof.
  cbv zeta.
  assert (same_sparsity_answers (example_cublas false true)
            (example_cublas false false)) as Hsp by (intros ????; reflexivity).
  assert (allocated_layout (example_sys 0 0 false)) as Hlay
    by (intros Hflag; discriminate Hflag).
  split; [exact Hsp|]. split; [exact Hlay|].
  split; [by vm_compute|]. split; [by vm_compute|].
  destruct (batching_answer_is_unobservable
              (allocator_ := SimpleAllocator_IAllocator)
              (runner_ops := example_runner_ops) (device := example_device)
              false 2 (example_cublas false true) (example_cublas false false)
              (example_sys 0 0 false) example_outputs (example_inputs 2 4 3)
              example_weights example_mem Hsp Hlay) as [Hh _].
  exact Hh.
Defined.


(** The example call with another mask pointer, another hidden dimension
    of the input, an output tensor without dimensions and a fourth input
    tensor is the example call. *)
Lemma forward_reads_only_witness :
  example_forward false false false
    [mkTensor (Ptr 103 0) []]
    [mkTensor (Ptr 100 0) [8; 999]; mkTensor (Ptr 200 0) [2; 7; 4; 9];
     mkTensor (Ptr 102 0) [3]; mkTensor (Ptr 300 0) [1]]
    example_weights
  = example_forward false false false example_outputs (example_inputs 2 4 3)
      example_weights.
Proof.
  apply (forward_reads_only (allocator_ := SimpleAllocator_IAllocator)
           (runner_ops := example_runner_ops)
           (cublas_wrapper_ := example_cublas false false) false 2);
    reflexivity.
Defined.

(** A call of length 385 fails on the example layer, and fails again after
    the example call. *)
Lemma forward_failure_is_permanent_witness :
  let s0 := example_sys 0 0 false in
  let s1 := run_calls (allocator_ := SimpleAllocator_IAllocator)
              (runner_ops := example_runner_ops)
              (cublas_wrapper_ := example_cublas false false) false 2
              [CallForward example_outputs (example_inputs 2 4 3)
                 example_weights] s0 in
  (example_forward false false false example_outputs (example_inputs 2 385 3)
     example_weights s0).1 ≠ Ok tt
  ∧ (example_forward false false false example_outputs (example_inputs 2 385 3)
       example_weights s1).1 ≠ Ok tt.
Proof.
  cbv zeta.
  assert ((example_forward false false false example_outputs
             (example_inputs 2 385 3) example_weights
             (example_sys 0 0 false)).1 ≠ Ok tt) as Hfail
    by (intros Hok; vm_compute in Hok; discriminate Hok).
  split; [exact Hfail|].
  exact (forward_failure_is_permanent
           (allocator_ := SimpleAllocator_IAllocator)
           (runner_ops := example_runner_ops)
           (cublas_wrapper_ := example_cublas false false) false 2
           (example_sys 0 0 false) example_outputs (example_inputs 2 385 3)
           example_weights
           [CallForward example_outputs (example_inputs 2 4 3) example_weights]
           Hfail).
Defined.
